(** * SARC configuration core ([sarc/config.py]): model and verification

    The development follows the Python module top to bottom: Python values
    and exceptions, the strict record base ([BaseModel.dict],
    [BaseModel.replace]), the configuration records with their validators
    and cached handles, the path resolver, the loader and the scoped
    process-wide current configuration. *)

From stdpp Require Import base option list strings.
From Stdlib Require Import Ascii Lia.

Set Warnings "-register-all".
Local Open Scope string_scope.
#[local] Arguments String.append !s1 s2 : simpl nomatch.

(** ** Python strings *)

(** [sub in s] on [str]. *)
Fixpoint contains (sub s : string) : bool :=
  if String.prefix sub s then true
  else match s with
       | EmptyString => false
       | String _ s' => contains sub s'
       end.

(** Scan of [str.replace] for a non-empty [old]: [skip] counts the
    characters of a match that are still to be dropped. *)
Fixpoint replace_scan (old new : string) (skip : nat) (s : string) : string :=
  match s with
  | EmptyString => EmptyString
  | String c s' =>
      match skip with
      | S k => replace_scan old new k s'
      | O =>
          if String.prefix old s
          then new ++ replace_scan old new (String.length old - 1) s'
          else String c (replace_scan old new 0 s')
      end
  end.

(** [s.replace("", new)] puts [new] before every character and at the end. *)
Fixpoint replace_empty (new s : string) : string :=
  match s with
  | EmptyString => new
  | String c s' => new ++ String c (replace_empty new s')
  end.

(** [s.replace(old, new)]: every non-overlapping occurrence, left to right. *)
Definition str_replace (s old new : string) : string :=
  match old with
  | EmptyString => replace_empty new s
  | _ => replace_scan old new 0 s
  end.

(** ** Python values *)

(** [pathlib.Path], identified by its [str()]. *)
Record Path := mkPath { path_str : string }.

(** [zoneinfo.ZoneInfo], identified by its key. *)
Record ZoneInfo := mkZone { key : string }.

(** The values that reach the configuration records: JSON data, paths,
    zones, dates and the objects stored by [cached_property]. *)
Inductive pyval :=
| PNone
| PStr (s : string)
| PPath (p : Path)
| PZone (z : ZoneInfo)
| PDate (year month day : nat)
| PDatetime (year month day hour minute second : nat)
| PList (l : list pyval)
| PDict (d : list (string * pyval))
| PObject (oid : nat).

(** Keyword arguments and plain dicts with [str] keys: an association list
    read by its first binding of a key. *)
Abbreviation pydict := (list (string * pyval)).

Fixpoint dict_get (k : string) (d : pydict) : option pyval :=
  match d with
  | [] => None
  | (k', v) :: d' => if String.eqb k k' then Some v else dict_get k d'
  end.

Definition dict_keys (d : pydict) : list string := map fst d.

(** [{**a, **b}]: the bindings of [b] shadow those of [a]. *)
Definition dict_merge (a b : pydict) : pydict := (b ++ a)%list.

(** [f"{x}"] for an optional string: [None] prints as [None]. *)
Definition str_of_optional (x : option string) : string :=
  match x with
  | None => "None"
  | Some s => s
  end.

(** ** Exceptions and results *)

Inductive exn :=
| ConfigurationError (msg : string)
| JSONDecodeError
| ValidationError
| ZoneInfoNotFoundError (zone : string)
| OSError (filename : string)
| UnicodeDecodeError
| TypeError
| ValueError
| PyMongoError (uri : string)
| InvalidName (name : string).

Inductive result (A : Type) :=
| Ok (a : A)
| Raise (e : exn).
Arguments Ok {A} a.
Arguments Raise {A} e.

Definition bind {A B} (r : result A) (f : A -> result B) : result B :=
  match r with
  | Ok a => f a
  | Raise e => Raise e
  end.

Notation "x <- r ;; k" := (bind r (fun x => k))
  (at level 100, r at next level, right associativity).

Definition is_Ok {A} (r : result A) : bool :=
  match r with Ok _ => true | Raise _ => false end.

(** ** The host: file system, environment and client libraries

    Everything the module imports and calls but does not define. *)
Record Host := {
  (** [pathlib.Path(s)] *)
  Path_new : string -> Path;
  (** [p.parent] *)
  Path_parent : Path -> Path;
  (** [p.exists()]: the answer, or the [OSError] that [stat] raised and
      pathlib does not take for an absent file (a name that is too long, a
      directory that may not be searched) *)
  Path_exists : Path -> result bool;
  (** [p.expanduser().absolute()] *)
  Path_absolute : Path -> Path;
  (** whether [zoneinfo.ZoneInfo(key)] finds the zone *)
  zone_known : string -> bool;
  (** whether [zoneinfo.ZoneInfo(key)] refuses the key as malformed, with a
      [ValueError], before it looks for the zone *)
  zone_key_malformed : string -> bool;
  (** pydantic's file loader behind [parse_file]: read the file, decode its
      bytes as UTF-8 text and decode the text as JSON *)
  load_file : Path -> result pyval;
  (** [json.load(open(name, "r", encoding="utf-8"))] *)
  json_load : string -> result pyval;
  (** whether [SSHConfig.from_path(p)] can read [p] *)
  ssh_config_readable : Path -> bool;
  (** the exception [Connection(host, ...)] raises on this host string, if
      any: a [TypeError] on an empty host, a [ValueError] on a port that is
      no number *)
  Connection_rejects : string -> option exn;
  (** whether [MongoClient(uri)] accepts the connection string *)
  mongo_uri_valid : string -> bool;
  (** whether [client.get_database(name)] accepts the name; it raises
      [InvalidName] on the others *)
  database_name_valid : string -> bool;
  (** [os.environ.get("SARC_CONFIG")] *)
  env_SARC_CONFIG : option string
}.

(** ** External-service handles *)

(** [fabric.Config] after the two [run] settings have been written. *)
Record FabricConfig := {
  ssh_config : option Path;
  run_pty : bool;
  run_in_stream : bool
}.

Inductive service :=
| Connection (host : string) (config : FabricConfig)
| PrometheusConnect (url : string) (headers : pyval)
| MongoClient (connection_string : string)
| Database (connection_string database_name : string).

(** A constructed handle: its identity and what it was built from. *)
Record Handle := { oid : nat; made : service }.

(** The only process state the constructors touch: the next fresh identity. *)
Record World := { next_oid : nat }.

Definition construct (s : service) (w : World) : Handle * World :=
  ({| oid := next_oid w; made := s |}, {| next_oid := S (next_oid w) |}).

(** ** Configuration records

    A record carries its declared fields and, after them, the slots that
    [cached_property] writes into the instance's [__dict__]. *)

Record ClusterConfig := {
  host : string;
  timezone : ZoneInfo;
  prometheus_url : option string;
  prometheus_headers_file : option string;
  name : option string;
  sacct_bin : string;
  accounts : option (list string);
  sshconfig : option Path;
  duc_inodes_command : option string;
  duc_storage_command : option string;
  diskusage_report_command : option string;
  cached_ssh : option Handle;
  cached_prometheus : option Handle
}.

Record MongoConfig := {
  connection_string : string;
  database_name : string;
  cached_database_instance : option Handle
}.

Record LDAPConfig := {
  local_private_key_file : string;
  local_certificate_file : string;
  ldap_service_uri : string;
  mongo_collection_name : string;
  group_to_prof_json_path : option string;
  exceptions_json_path : option string
}.

Record AccountMatchingConfig := {
  drac_members_csv_path : Path;
  drac_roles_csv_path : Path;
  make_matches_config : Path
}.

Record Config := {
  mongo : MongoConfig;
  ldap : LDAPConfig;
  account_matching : AccountMatchingConfig;
  root_sshconfig : option Path;
  cache : option Path;
  clusters : list (string * ClusterConfig)
}.

(** Attribute assignments on a [ClusterConfig] object. *)
Definition set_name (v : option string) (c : ClusterConfig) : ClusterConfig :=
  {| host := host c; timezone := timezone c;
     prometheus_url := prometheus_url c;
     prometheus_headers_file := prometheus_headers_file c;
     name := v; sacct_bin := sacct_bin c; accounts := accounts c;
     sshconfig := sshconfig c;
     duc_inodes_command := duc_inodes_command c;
     duc_storage_command := duc_storage_command c;
     diskusage_report_command := diskusage_report_command c;
     cached_ssh := cached_ssh c; cached_prometheus := cached_prometheus c |}.

Definition set_sshconfig (v : option Path) (c : ClusterConfig) : ClusterConfig :=
  {| host := host c; timezone := timezone c;
     prometheus_url := prometheus_url c;
     prometheus_headers_file := prometheus_headers_file c;
     name := name c; sacct_bin := sacct_bin c; accounts := accounts c;
     sshconfig := v;
     duc_inodes_command := duc_inodes_command c;
     duc_storage_command := duc_storage_command c;
     diskusage_report_command := diskusage_report_command c;
     cached_ssh := cached_ssh c; cached_prometheus := cached_prometheus c |}.

Definition set_prometheus_url (v : option string) (c : ClusterConfig) : ClusterConfig :=
  {| host := host c; timezone := timezone c;
     prometheus_url := v;
     prometheus_headers_file := prometheus_headers_file c;
     name := name c; sacct_bin := sacct_bin c; accounts := accounts c;
     sshconfig := sshconfig c;
     duc_inodes_command := duc_inodes_command c;
     duc_storage_command := duc_storage_command c;
     diskusage_report_command := diskusage_report_command c;
     cached_ssh := cached_ssh c; cached_prometheus := cached_prometheus c |}.

Definition set_cached_ssh (h : Handle) (c : ClusterConfig) : ClusterConfig :=
  {| host := host c; timezone := timezone c;
     prometheus_url := prometheus_url c;
     prometheus_headers_file := prometheus_headers_file c;
     name := name c; sacct_bin := sacct_bin c; accounts := accounts c;
     sshconfig := sshconfig c;
     duc_inodes_command := duc_inodes_command c;
     duc_storage_command := duc_storage_command c;
     diskusage_report_command := diskusage_report_command c;
     cached_ssh := Some h; cached_prometheus := cached_prometheus c |}.

Definition set_cached_prometheus (h : Handle) (c : ClusterConfig) : ClusterConfig :=
  {| host := host c; timezone := timezone c;
     prometheus_url := prometheus_url c;
     prometheus_headers_file := prometheus_headers_file c;
     name := name c; sacct_bin := sacct_bin c; accounts := accounts c;
     sshconfig := sshconfig c;
     duc_inodes_command := duc_inodes_command c;
     duc_storage_command := duc_storage_command c;
     diskusage_report_command := diskusage_report_command c;
     cached_ssh := cached_ssh c; cached_prometheus := Some h |}.

Definition set_cached_database_instance (h : Handle) (m : MongoConfig) : MongoConfig :=
  {| connection_string := connection_string m;
     database_name := database_name m;
     cached_database_instance := Some h |}.

(** Truth value of an optional [str]: [None] and the empty string are falsy. *)
Definition truthy_str (x : option string) : bool :=
  match x with
  | None => false
  | Some s => negb (String.eqb s "")
  end.

(** Truth value of an optional [Path]: only [None] is falsy. *)
Definition truthy_path (x : option Path) : bool :=
  match x with
  | None => false
  | Some _ => true
  end.

(** ** The strict record base

    What pydantic provides to every record class: the plain field mapping
    of an instance (its [__dict__], where [cached_property] also stores),
    the names bound to a [cached_property] on the class, and construction
    from keyword arguments. *)
Class BaseModel (T : Type) := {
  super_dict : T -> pydict;
  cached_properties : list string;
  init : pydict -> result T
}.

Definition is_cached_property {T} {M : BaseModel T} (k : string) : bool :=
  existsb (String.eqb k) (cached_properties (T := T)).

(** A [date] that is not a [datetime] becomes the [datetime] of its midnight. *)
Definition midnight (v : pyval) : pyval :=
  match v with
  | PDate y m d => PDatetime y m d 0 0 0
  | _ => v
  end.

(** [BaseModel.dict]: drop the cached properties, then lift the dates. *)
Definition dict {T} {M : BaseModel T} (self : T) : pydict :=
  let d := super_dict self in
  let d := List.filter (fun kv => negb (is_cached_property (T := T) (fst kv))) d in
  map (fun kv => (fst kv, midnight (snd kv))) d.

(** [BaseModel.replace]. *)
Definition replace {T} {M : BaseModel T} (self : T) (replacements : pydict) : result T :=
  let new_arguments := dict_merge (dict self) replacements in
  init new_arguments.

(** pydantic's [__eq__] on two instances of a class compares their [dict()]. *)
Definition model_eq {T} {M : BaseModel T} (a b : T) : Prop := dict a = dict b.

(** *** Field validation *)

(** Validation of a model goes through the fields in declaration order: a
    [ValidationError] of a field is collected and the later fields are
    still validated, any other exception leaves at once. *)
Definition both {A B} (x : result A) (y : result B) : result (A * B) :=
  match x with
  | Ok a =>
      match y with
      | Ok b => Ok (a, b)
      | Raise e => Raise e
      end
  | Raise ValidationError =>
      match y with
      | Ok _ => Raise ValidationError
      | Raise e => Raise e
      end
  | Raise e => Raise e
  end.

Definition as_str (v : pyval) : result string :=
  match v with
  | PStr s => Ok s
  | _ => Raise ValidationError
  end.

Definition as_optional {A} (conv : pyval -> result A) (v : pyval) : result (option A) :=
  match v with
  | PNone => Ok None
  | _ => a <- conv v;; Ok (Some a)
  end.

Fixpoint as_str_items (l : list pyval) : result (list string) :=
  match l with
  | [] => Ok []
  | v :: l' => s <- as_str v;; r <- as_str_items l';; Ok (s :: r)
  end.

Definition as_str_list (v : pyval) : result (list string) :=
  match v with
  | PList l => as_str_items l
  | _ => Raise ValidationError
  end.

(** [Union[str, ZoneInfo]] *)
Definition as_str_or_zone (v : pyval) : result (string + ZoneInfo) :=
  match v with
  | PStr s => Ok (inl s)
  | PZone z => Ok (inr z)
  | _ => Raise ValidationError
  end.

Definition required {A} (conv : pyval -> result A) (k : string) (kw : pydict) : result A :=
  match dict_get k kw with
  | Some v => conv v
  | None => Raise ValidationError
  end.

Definition with_default {A} (conv : pyval -> result A) (default : A) (k : string)
    (kw : pydict) : result A :=
  match dict_get k kw with
  | Some v => conv v
  | None => Ok default
  end.

(** [extra = Extra.forbid] *)
Definition forbid_extra (fields : list string) (kw : pydict) : result unit :=
  if forallb (fun k => existsb (String.eqb k) fields) (dict_keys kw) then Ok tt
  else Raise ValidationError.

(** The items of a dict: each key once, with the value read for it. *)
Fixpoint dict_items (d : pydict) : pydict :=
  match d with
  | [] => []
  | (k, v) :: d' => (k, v) :: List.filter (fun kv => negb (String.eqb (fst kv) k)) (dict_items d')
  end.

Definition of_optional_str (x : option string) : pyval :=
  match x with
  | None => PNone
  | Some s => PStr s
  end.

Definition of_optional_path (x : option Path) : pyval :=
  match x with
  | None => PNone
  | Some p => PPath p
  end.

Definition of_optional_list (x : option (list string)) : pyval :=
  match x with
  | None => PNone
  | Some l => PList (map PStr l)
  end.

Definition to_option {A} (r : result A) : option A :=
  match r with
  | Ok a => Some a
  | Raise _ => None
  end.

(** [d[k] = v]: the value of a key that is there is replaced in place, a
    new key goes last. *)
Fixpoint dict_set (k : string) (v : pyval) (d : pydict) : pydict :=
  match d with
  | [] => [(k, v)]
  | (k', v') :: d' =>
      if String.eqb k' k then (k, v) :: d' else (k', v') :: dict_set k v d'
  end.

(** The two items that [dict(iterable)] wants of each element: those of a
    list of two values, the two characters of a string, the two keys of
    a dict. *)
Definition as_pair (v : pyval) : option (pyval * pyval) :=
  match v with
  | PList [a; b] => Some (a, b)
  | PStr (String a (String b EmptyString)) =>
      Some (PStr (String a EmptyString), PStr (String b EmptyString))
  | PDict d =>
      match dict_keys (dict_items d) with
      | [a; b] => Some (PStr a, PStr b)
      | _ => None
      end
  | _ => None
  end.

(** [dict(l)] on a list, one element after the other.  A key that is no
    string is refused here already: such a dict is refused where its keys
    are validated as [str] or passed as keyword names, with a validation
    error as well. *)
Fixpoint dict_of_pairs (l : list pyval) (acc : pydict) : result pydict :=
  match l with
  | [] => Ok acc
  | v :: l' =>
      match as_pair v with
      | Some (PStr k, x) => dict_of_pairs l' (dict_set k x acc)
      | _ => Raise ValidationError
      end
  end.

(** pydantic's way to a dict: a dict as it is, any other value through
    [dict(v)], which raises on what is no iterable of pairs. *)
Definition as_dict (v : pyval) : result pydict :=
  match v with
  | PDict d => Ok d
  | PList l => dict_of_pairs l []
  | PStr EmptyString => Ok []
  | _ => Raise ValidationError
  end.

(** A field typed by a record class: the class is called on the keywords
    of the dict given, or of the dict made of the value given. *)
Definition as_model {T} (init : pydict -> result T) (v : pyval) : result T :=
  match as_dict v with
  | Ok d => init d
  | Raise e => Raise e
  end.

Definition of_cached (k : string) (x : option Handle) : pydict :=
  match x with
  | None => []
  | Some h => [(k, PObject (oid h))]
  end.

(** ** Process-wide state of the module *)

(** [config_var] is a [ContextVar] with default [None]: [None] here is the
    variable without a value in the current context.  [_config_folder] is
    the module global read by the path resolver. *)
Record Globals := {
  config_var : option Config;
  _config_folder : option string
}.

Definition set_config_var (v : option Config) (g : Globals) : Globals :=
  {| config_var := v; _config_folder := _config_folder g |}.

Definition set_config_folder (v : option string) (g : Globals) : Globals :=
  {| config_var := config_var g; _config_folder := v |}.

(** The validated fields pydantic hands to a validator of [Config] as
    [values]: a key is present exactly when its field is [Some]. *)
Record Values := {
  v_mongo : option MongoConfig;
  v_ldap : option LDAPConfig;
  v_account_matching : option AccountMatchingConfig;
  v_sshconfig : option (option Path);
  v_cache : option (option Path)
}.

(** The [ClusterConfig] objects a mapping refers to, by address. *)
Abbreviation Heap := (list ClusterConfig).

(** ** Generator-based context managers

    A function under [contextlib.contextmanager] whose single [yield] is
    not inside a [try]: the code before the [yield], which produces the
    yielded value and the locals kept across the [yield], and the code
    after it. *)
Record ContextManager (S A L : Type) := {
  cm_before : S -> result (A * L) * S;
  cm_after : L -> S -> result unit * S
}.
Arguments cm_before {S A L} _ _.
Arguments cm_after {S A L} _ _ _.

(** How the body of a [with] statement ends. *)
Inductive outcome (R : Type) :=
| Completed
| Returned (r : R)
| Raised (e : exn).
Arguments Completed {R}.
Arguments Returned {R} r.
Arguments Raised {R} e.

(** [with cm as x: body].  [__enter__] runs the generator up to its
    [yield].  When the body leaves without an exception, [__exit__] resumes
    the generator, which runs to its end.  When the body raises,
    [__exit__] throws the exception into the generator at the [yield]; no
    handler is there, so the exception leaves the generator at once and
    the statement re-raises it. *)
Definition with_statement {S A L R} (cm : ContextManager S A L)
    (body : A -> S -> outcome R * S) (s : S) : outcome R * S :=
  match cm_before cm s with
  | (Raise e, s1) => (Raised e, s1)
  | (Ok (x, locals), s1) =>
      match body x s1 with
      | (Raised e, s2) => (Raised e, s2)
      | (o, s2) =>
          match cm_after cm locals s2 with
          | (Ok _, s3) => (o, s3)
          | (Raise e, s3) => (Raised e, s3)
          end
      end
  end.

(** [config_var.set(v)] returns the token of the value it replaces, and
    [config_var.reset(token)] puts that value back. *)
Definition Token := option Config.

Definition ContextVar_set (v : Config) (g : Globals) : Token * Globals :=
  (config_var g, set_config_var (Some v) g).

Definition ContextVar_reset (token : Token) (g : Globals) : Globals :=
  set_config_var token g.

(** The argument of [parse_config]: a [str] or a [Path]. *)
Inductive pathlike :=
| AsStr (s : string)
| AsPath (p : Path).

(** The argument of [using_config]. *)
Inductive config_source :=
| FromPath (p : pathlike)
| FromConfig (c : Config).

Section Sarc.

Variable os : Host.

(** ** Lazy handles *)

(** [functools.cached_property]: the value found in the instance is
    returned as it is; otherwise the method runs and only a returned value
    is stored. *)
Definition cached_property {T : Type}
    (slot : T -> option Handle) (store : Handle -> T -> T)
    (method : T -> World -> result Handle * World)
    (self : T) (w : World) : result Handle * T * World :=
  match slot self with
  | Some h => (Ok h, self, w)
  | None =>
      match method self w with
      | (Ok h, w') => (Ok h, store h self, w')
      | (Raise e, w') => (Raise e, self, w')
      end
  end.

Definition ssh_method (self : ClusterConfig) (w : World) : result Handle * World :=
  let fconfig :=
    match sshconfig self with
    | None => Ok None
    | Some p =>
        if ssh_config_readable os p then Ok (Some p)
        else Raise (OSError (path_str p))
    end in
  match fconfig with
  | Raise e => (Raise e, w)
  | Ok sc =>
      let fconfig := {| ssh_config := sc; run_pty := true; run_in_stream := false |} in
      match Connection_rejects os (host self) with
      | Some e => (Raise e, w)
      | None =>
          let (h, w') := construct (Connection (host self) fconfig) w in
          (Ok h, w')
      end
  end.

Definition ssh : ClusterConfig -> World -> result Handle * ClusterConfig * World :=
  cached_property cached_ssh set_cached_ssh ssh_method.

Definition prometheus_method (self : ClusterConfig) (w : World) : result Handle * World :=
  let headers :=
    match prometheus_headers_file self with
    | Some f => json_load os f
    | None => Ok (PDict [])
    end in
  match headers with
  | Raise e => (Raise e, w)
  | Ok headers =>
      match prometheus_url self with
      | None =>
          (Raise (ConfigurationError
             ("No prometheus URL provided for cluster '"
              ++ str_of_optional (name self) ++ "'")), w)
      | Some url =>
          let (h, w') := construct (PrometheusConnect url headers) w in
          (Ok h, w')
      end
  end.

Definition prometheus : ClusterConfig -> World -> result Handle * ClusterConfig * World :=
  cached_property cached_prometheus set_cached_prometheus prometheus_method.

Definition database_instance_method (self : MongoConfig) (w : World) : result Handle * World :=
  if mongo_uri_valid os (connection_string self) then
    let (client, w) := construct (MongoClient (connection_string self)) w in
    if database_name_valid os (database_name self) then
      let (h, w') :=
        construct (Database (connection_string self) (database_name self)) w in
      (Ok h, w')
    else (Raise (InvalidName (database_name self)), w)
  else (Raise (PyMongoError (connection_string self)), w).

Definition database_instance : MongoConfig -> World -> result Handle * MongoConfig * World :=
  cached_property cached_database_instance set_cached_database_instance
    database_instance_method.

(** ** Cross-field defaulting on [Config] *)

(** The body of the loop of [_complete_cluster_fields] on one object. *)
Definition complete_cluster (k : string) (values : Values) (cluster : ClusterConfig)
    : ClusterConfig :=
  let cluster :=
    if negb (truthy_str (name cluster)) then set_name (Some k) cluster
    else cluster in
  match negb (truthy_path (sshconfig cluster)), v_sshconfig values with
  | true, Some root => set_sshconfig root cluster
  | _, _ => cluster
  end.

(** [for name, cluster in value.items(): ...], writing through the
    references held by the mapping. *)
Fixpoint complete_loop (items : list (string * nat)) (values : Values) (h : Heap)
    : Heap :=
  match items with
  | [] => h
  | (k, cluster) :: rest =>
      complete_loop rest values (alter (complete_cluster k values) cluster h)
  end.

(** The validator returns the mapping it was given. *)
Definition _complete_cluster_fields (value : list (string * nat)) (values : Values)
    (h : Heap) : list (string * nat) * Heap :=
  (value, complete_loop value values h).

(** [Config._absolute_path]: [value and value.expanduser().absolute()]. *)
Definition _absolute_path (value : option Path) : option Path :=
  match value with
  | None => None
  | Some p => Some (Path_absolute os p)
  end.

(** ** Path resolver *)

Definition relative_filepath (g : Globals) (path : option string) : option string :=
  match path with
  | None => None
  | Some p =>
      if contains "$SELF" p
      then Some (str_replace p "$SELF" (str_of_optional (_config_folder g)))
      else Some p
  end.

(** ** The record classes as strict records *)

(** A [Path] field takes a path as it is and builds one from a [str]. *)
Definition as_path (v : pyval) : result Path :=
  match v with
  | PPath p => Ok p
  | PStr s => Ok (Path_new os s)
  | _ => Raise ValidationError
  end.

(** [ClusterConfig._timezone].  [ZoneInfo(value)] raises [ValueError] on a
    malformed key, which pydantic reports as a validation error, and
    [ZoneInfoNotFoundError], which is no [ValueError], on a zone it does not
    find. *)
Definition _timezone (value : string + ZoneInfo) : result ZoneInfo :=
  match value with
  | inl s =>
      if zone_known os s then Ok (mkZone s)
      else if zone_key_malformed os s then Raise ValidationError
      else Raise (ZoneInfoNotFoundError s)
  | inr z => Ok z
  end.

Definition ClusterConfig_fields : list string :=
  ["host"; "timezone"; "prometheus_url"; "prometheus_headers_file"; "name";
   "sacct_bin"; "accounts"; "sshconfig"; "duc_inodes_command";
   "duc_storage_command"; "diskusage_report_command"].

Definition ClusterConfig_init (kw : pydict) : result ClusterConfig :=
  bind
    (both (required as_str "host" kw)
    (both (bind (required as_str_or_zone "timezone" kw) _timezone)
    (both (with_default (as_optional as_str) None "prometheus_url" kw)
    (both (with_default (as_optional as_str) None "prometheus_headers_file" kw)
    (both (with_default (as_optional as_str) None "name" kw)
    (both (with_default as_str "sacct" "sacct_bin" kw)
    (both (with_default (as_optional as_str_list) None "accounts" kw)
    (both (with_default (as_optional as_path) None "sshconfig" kw)
    (both (with_default (as_optional as_str) None "duc_inodes_command" kw)
    (both (with_default (as_optional as_str) None "duc_storage_command" kw)
    (both (with_default (as_optional as_str) None "diskusage_report_command" kw)
          (forbid_extra ClusterConfig_fields kw))))))))))))
    (fun '(f1, (f2, (f3, (f4, (f5, (f6, (f7, (f8, (f9, (f10, (f11, _))))))))))) =>
       Ok {| host := f1; timezone := f2; prometheus_url := f3;
             prometheus_headers_file := f4; name := f5; sacct_bin := f6;
             accounts := f7; sshconfig := f8; duc_inodes_command := f9;
             duc_storage_command := f10; diskusage_report_command := f11;
             cached_ssh := None; cached_prometheus := None |}).

Definition ClusterConfig_super_dict (c : ClusterConfig) : pydict :=
  ([("host", PStr (host c));
    ("timezone", PZone (timezone c));
    ("prometheus_url", of_optional_str (prometheus_url c));
    ("prometheus_headers_file", of_optional_str (prometheus_headers_file c));
    ("name", of_optional_str (name c));
    ("sacct_bin", PStr (sacct_bin c));
    ("accounts", of_optional_list (accounts c));
    ("sshconfig", of_optional_path (sshconfig c));
    ("duc_inodes_command", of_optional_str (duc_inodes_command c));
    ("duc_storage_command", of_optional_str (duc_storage_command c));
    ("diskusage_report_command", of_optional_str (diskusage_report_command c))]
   ++ of_cached "ssh" (cached_ssh c)
   ++ of_cached "prometheus" (cached_prometheus c))%list.

#[global] Instance ClusterConfig_model : BaseModel ClusterConfig := {
  super_dict := ClusterConfig_super_dict;
  cached_properties := ["ssh"; "prometheus"];
  init := ClusterConfig_init
}.

Definition MongoConfig_fields : list string :=
  ["connection_string"; "database_name"].

Definition MongoConfig_init (kw : pydict) : result MongoConfig :=
  bind
    (both (required as_str "connection_string" kw)
    (both (required as_str "database_name" kw)
          (forbid_extra MongoConfig_fields kw)))
    (fun '(f1, (f2, _)) =>
       Ok {| connection_string := f1; database_name := f2;
             cached_database_instance := None |}).

Definition MongoConfig_super_dict (m : MongoConfig) : pydict :=
  ([("connection_string", PStr (connection_string m));
    ("database_name", PStr (database_name m))]
   ++ of_cached "database_instance" (cached_database_instance m))%list.

#[global] Instance MongoConfig_model : BaseModel MongoConfig := {
  super_dict := MongoConfig_super_dict;
  cached_properties := ["database_instance"];
  init := MongoConfig_init
}.

Definition LDAPConfig_fields : list string :=
  ["local_private_key_file"; "local_certificate_file"; "ldap_service_uri";
   "mongo_collection_name"; "group_to_prof_json_path"; "exceptions_json_path"].

(** [LDAPConfig._relative_group_to_prof] and [LDAPConfig._relative_exception]. *)
Definition _relative_group_to_prof (g : Globals) (value : option string) : option string :=
  relative_filepath g value.

Definition _relative_exception (g : Globals) (value : option string) : option string :=
  relative_filepath g value.

Definition LDAPConfig_init (g : Globals) (kw : pydict) : result LDAPConfig :=
  bind
    (both (required as_str "local_private_key_file" kw)
    (both (required as_str "local_certificate_file" kw)
    (both (required as_str "ldap_service_uri" kw)
    (both (required as_str "mongo_collection_name" kw)
    (both (bind (with_default (as_optional as_str) None "group_to_prof_json_path" kw)
                (fun v => Ok (_relative_group_to_prof g v)))
    (both (bind (with_default (as_optional as_str) None "exceptions_json_path" kw)
                (fun v => Ok (_relative_exception g v)))
          (forbid_extra LDAPConfig_fields kw)))))))
    (fun '(f1, (f2, (f3, (f4, (f5, (f6, _)))))) =>
       Ok {| local_private_key_file := f1; local_certificate_file := f2;
             ldap_service_uri := f3; mongo_collection_name := f4;
             group_to_prof_json_path := f5; exceptions_json_path := f6 |}).

Definition LDAPConfig_super_dict (l : LDAPConfig) : pydict :=
  [("local_private_key_file", PStr (local_private_key_file l));
   ("local_certificate_file", PStr (local_certificate_file l));
   ("ldap_service_uri", PStr (ldap_service_uri l));
   ("mongo_collection_name", PStr (mongo_collection_name l));
   ("group_to_prof_json_path", of_optional_str (group_to_prof_json_path l));
   ("exceptions_json_path", of_optional_str (exceptions_json_path l))].

#[global] Instance LDAPConfig_model (g : Globals) : BaseModel LDAPConfig := {
  super_dict := LDAPConfig_super_dict;
  cached_properties := [];
  init := LDAPConfig_init g
}.

Definition AccountMatchingConfig_fields : list string :=
  ["drac_members_csv_path"; "drac_roles_csv_path"; "make_matches_config"].

Definition AccountMatchingConfig_init (kw : pydict) : result AccountMatchingConfig :=
  bind
    (both (required as_path "drac_members_csv_path" kw)
    (both (required as_path "drac_roles_csv_path" kw)
    (both (required as_path "make_matches_config" kw)
          (forbid_extra AccountMatchingConfig_fields kw))))
    (fun '(f1, (f2, (f3, _))) =>
       Ok {| drac_members_csv_path := f1; drac_roles_csv_path := f2;
             make_matches_config := f3 |}).

Definition AccountMatchingConfig_super_dict (a : AccountMatchingConfig) : pydict :=
  [("drac_members_csv_path", PPath (drac_members_csv_path a));
   ("drac_roles_csv_path", PPath (drac_roles_csv_path a));
   ("make_matches_config", PPath (make_matches_config a))].

#[global] Instance AccountMatchingConfig_model : BaseModel AccountMatchingConfig := {
  super_dict := AccountMatchingConfig_super_dict;
  cached_properties := [];
  init := AccountMatchingConfig_init
}.

(** [dict[str, ClusterConfig]]: every item of the dict is validated. *)
Fixpoint as_cluster_items (d : pydict) : result (list (string * ClusterConfig)) :=
  match d with
  | [] => Ok []
  | (k, v) :: d' =>
      bind (both (as_model ClusterConfig_init v) (as_cluster_items d'))
           (fun '(c, r) => Ok ((k, c) :: r))
  end.

Definition as_clusters (v : pyval) : result (list (string * ClusterConfig)) :=
  match as_dict v with
  | Ok d => as_cluster_items (dict_items d)
  | Raise e => Raise e
  end.

(** The [clusters] validator on the freshly built objects: object [i] of
    the mapping lives at address [i], and the mapping is read back once
    the validator has returned. *)
Definition complete_clusters (value : list (string * ClusterConfig)) (values : Values)
    : list (string * ClusterConfig) :=
  let h := snd <$> value in
  let refs := imap (fun i kv => (fst kv, i)) value in
  let (value', h') := _complete_cluster_fields refs values h in
  omap (fun kl => c ← h' !! snd kl; Some (fst kl, c)) value'.

Definition Config_fields : list string :=
  ["mongo"; "ldap"; "account_matching"; "sshconfig"; "cache"; "clusters"].

Definition Config_init (g : Globals) (kw : pydict) : result Config :=
  let r_mongo := required (as_model MongoConfig_init) "mongo" kw in
  let r_ldap := required (as_model (LDAPConfig_init g)) "ldap" kw in
  let r_account_matching :=
    required (as_model AccountMatchingConfig_init) "account_matching" kw in
  let r_sshconfig :=
    bind (with_default (as_optional as_path) None "sshconfig" kw)
         (fun v => Ok (_absolute_path v)) in
  let r_cache :=
    bind (with_default (as_optional as_path) None "cache" kw)
         (fun v => Ok (_absolute_path v)) in
  let values :=
    {| v_mongo := to_option r_mongo; v_ldap := to_option r_ldap;
       v_account_matching := to_option r_account_matching;
       v_sshconfig := to_option r_sshconfig; v_cache := to_option r_cache |} in
  let r_clusters :=
    bind (required as_clusters "clusters" kw)
         (fun value => Ok (complete_clusters value values)) in
  bind
    (both r_mongo (both r_ldap (both r_account_matching (both r_sshconfig
    (both r_cache (both r_clusters (forbid_extra Config_fields kw)))))))
    (fun '(f1, (f2, (f3, (f4, (f5, (f6, _)))))) =>
       Ok {| mongo := f1; ldap := f2; account_matching := f3;
             root_sshconfig := f4; cache := f5; clusters := f6 |}).

(** pydantic's [dict()] of a [Config] calls [dict()] on the records it holds. *)
Definition Config_super_dict (g : Globals) (c : Config) : pydict :=
  [("mongo", PDict (dict (mongo c)));
   ("ldap", PDict (dict (M := LDAPConfig_model g) (ldap c)));
   ("account_matching", PDict (dict (account_matching c)));
   ("sshconfig", of_optional_path (root_sshconfig c));
   ("cache", of_optional_path (cache c));
   ("clusters", PDict (map (fun kc => (fst kc, PDict (dict (snd kc)))) (clusters c)))].

#[global] Instance Config_model (g : Globals) : BaseModel Config := {
  super_dict := Config_super_dict g;
  cached_properties := [];
  init := Config_init g
}.

(** ** Construction in a store

    The objects that validation builds for [clusters] are new ones.  With
    the [ClusterConfig] objects that exist already held in a store, those
    of the record that [replace] is called on among them, the new objects
    go after them, and the validator writes through the references to the
    new objects. *)
Definition complete_clusters_in (h : Heap) (value : list (string * ClusterConfig))
    (values : Values) : list (string * ClusterConfig) * Heap :=
  let refs := imap (fun i kv => (fst kv, length h + i)) value in
  let (value', h') :=
    _complete_cluster_fields refs values (h ++ (snd <$> value))%list in
  (omap (fun kl => c ← h' !! snd kl; Some (fst kl, c)) value', h').

(** The constructor of [Config] in a store: the record built and the
    store left, which is the store given when the value for [clusters] is
    refused. *)
Definition Config_init_in (g : Globals) (h : Heap) (kw : pydict) : result Config * Heap :=
  let r_mongo := required (as_model MongoConfig_init) "mongo" kw in
  let r_ldap := required (as_model (LDAPConfig_init g)) "ldap" kw in
  let r_account_matching :=
    required (as_model AccountMatchingConfig_init) "account_matching" kw in
  let r_sshconfig :=
    bind (with_default (as_optional as_path) None "sshconfig" kw)
         (fun v => Ok (_absolute_path v)) in
  let r_cache :=
    bind (with_default (as_optional as_path) None "cache" kw)
         (fun v => Ok (_absolute_path v)) in
  let values :=
    {| v_mongo := to_option r_mongo; v_ldap := to_option r_ldap;
       v_account_matching := to_option r_account_matching;
       v_sshconfig := to_option r_sshconfig; v_cache := to_option r_cache |} in
  let (r_clusters, h') :=
    match required as_clusters "clusters" kw with
    | Ok value =>
        let (value', h') := complete_clusters_in h value values in (Ok value', h')
    | Raise e => (Raise e, h)
    end in
  (bind
     (both r_mongo (both r_ldap (both r_account_matching (both r_sshconfig
     (both r_cache (both r_clusters (forbid_extra Config_fields kw)))))))
     (fun '(f1, (f2, (f3, (f4, (f5, (f6, _)))))) =>
        Ok {| mongo := f1; ldap := f2; account_matching := f3;
              root_sshconfig := f4; cache := f5; clusters := f6 |}),
   h').

(** [replace] on a [Config], in a store. *)
Definition Config_replace_in (g : Globals) (h : Heap) (self : Config)
    (replacements : pydict) : result Config * Heap :=
  Config_init_in g h (dict_merge (dict (M := Config_model g) self) replacements).

(** ** Loader *)

(** [Config.parse_file]: load the file as JSON, then build the record from
    the object read. *)
Definition Config_parse_file (g : Globals) (path : Path) : result Config :=
  obj <- load_file os path;;
  match obj with
  | PDict d => Config_init g d
  | _ => Raise ValidationError
  end.

(** [Path(config_path)] *)
Definition Path_of (config_path : pathlike) : Path :=
  match config_path with
  | AsStr s => Path_new os s
  | AsPath p => p
  end.

Definition parse_config (config_path : pathlike) (g : Globals) : result Config * Globals :=
  let config_path := Path_of config_path in
  let g := set_config_folder (Some (path_str (Path_parent os config_path))) g in
  match Path_exists os config_path with
  | Raise e => (Raise e, g)
  | Ok false =>
      (Raise (ConfigurationError
         ("Cannot read SARC configuration file: '" ++ path_str config_path ++ "'"
          ++ " Use the $SARC_CONFIG environment variable to choose the config file.")), g)
  | Ok true =>
      match Config_parse_file g config_path with
      | Raise JSONDecodeError =>
          (Raise (ConfigurationError
             ("'" ++ path_str config_path ++ "' contains malformed JSON")), g)
      | r => (r, g)
      end
  end.

(** ** Current configuration *)

Definition config (g : Globals) : result Config * Globals :=
  match config_var g with
  | Some current => (Ok current, g)
  | None =>
      match parse_config
              (AsStr (default "config/sarc-dev.json" (env_SARC_CONFIG os))) g with
      | (Ok cfg, g') => (Ok cfg, set_config_var (Some cfg) g')
      | (Raise e, g') => (Raise e, g')
      end
  end.

Definition using_config (cfg : config_source)
    : ContextManager Globals Config Token :=
  {| cm_before := fun g =>
       let (r, g) :=
         match cfg with
         | FromPath p => parse_config p g
         | FromConfig c => (Ok c, g)
         end in
       match r with
       | Raise e => (Raise e, g)
       | Ok cfg =>
           let (token, g) := ContextVar_set cfg g in
           (Ok (cfg, token), g)
       end;
     cm_after := fun token g => (Ok tt, ContextVar_reset token g) |}.

End Sarc.

(** ** Instances as first constructed

    The instance with the fields of the given one and nothing cached yet. *)

Definition ClusterConfig_uncached (c : ClusterConfig) : ClusterConfig :=
  {| host := host c; timezone := timezone c;
     prometheus_url := prometheus_url c;
     prometheus_headers_file := prometheus_headers_file c;
     name := name c; sacct_bin := sacct_bin c; accounts := accounts c;
     sshconfig := sshconfig c;
     duc_inodes_command := duc_inodes_command c;
     duc_storage_command := duc_storage_command c;
     diskusage_report_command := diskusage_report_command c;
     cached_ssh := None; cached_prometheus := None |}.

Definition MongoConfig_uncached (m : MongoConfig) : MongoConfig :=
  {| connection_string := connection_string m;
     database_name := database_name m;
     cached_database_instance := None |}.

Definition Config_uncached (cfg : Config) : Config :=
  {| mongo := MongoConfig_uncached (mongo cfg); ldap := ldap cfg;
     account_matching := account_matching cfg;
     root_sshconfig := root_sshconfig cfg; cache := cache cfg;
     clusters := map (fun kc => (fst kc, ClusterConfig_uncached (snd kc))) (clusters cfg) |}.

(** ** Records that their validators leave unchanged *)

(** The two optional paths of an [LDAPConfig] are left alone by the
    resolver, as every path without the sentinel is. *)
Definition LDAPConfig_resolved (g : Globals) (l : LDAPConfig) : Prop :=
  relative_filepath g (group_to_prof_json_path l) = group_to_prof_json_path l
  /\ relative_filepath g (exceptions_json_path l) = exceptions_json_path l.

(** A cluster entry that cross-field defaulting has nothing to write to:
    it is named, or its name already is its key, and it lacks an
    [sshconfig] only when the root does. *)
Definition cluster_settled (root : option Path) (kc : string * ClusterConfig) : Prop :=
  (truthy_str (name (snd kc)) = true \/ name (snd kc) = Some (fst kc))
  /\ (sshconfig (snd kc) = None -> root = None).

(** A [Config] as construction leaves it: root paths absolute, paths of
    [ldap] resolved, one entry per cluster key, entries defaulted. *)
Definition Config_settled (os : Host) (g : Globals) (cfg : Config) : Prop :=
  _absolute_path os (root_sshconfig cfg) = root_sshconfig cfg
  /\ _absolute_path os (cache cfg) = cache cfg
  /\ LDAPConfig_resolved g (ldap cfg)
  /\ NoDup (fst <$> clusters cfg)
  /\ Forall (cluster_settled (root_sshconfig cfg)) (clusters cfg).

(** A cluster entry under a root [sshconfig]: its own if it has one. *)
Definition inherit_sshconfig (root : option Path) (c : ClusterConfig) : ClusterConfig :=
  if truthy_path (sshconfig c) then c else set_sshconfig root c.

(** ** Messages of the loader *)

Definition missing_message (p : Path) : string :=
  "Cannot read SARC configuration file: '" ++ path_str p ++ "'"
  ++ " Use the $SARC_CONFIG environment variable to choose the config file.".

Definition malformed_message (p : Path) : string :=
  "'" ++ path_str p ++ "' contains malformed JSON".

(** ** A sample deployment

    A small POSIX host and configuration, on which the statements below
    are evaluated. *)
Module Sample.

Fixpoint segments (cur s : string) : list string :=
  match s with
  | EmptyString => [cur]
  | String c s' =>
      if Ascii.eqb c "/"%char then cur :: segments "" s'
      else segments (cur ++ String c "") s'
  end.

Definition parts (s : string) : list string :=
  List.filter (fun x => negb (String.eqb x "") && negb (String.eqb x ".")) (segments "" s).

Definition root (s : string) : string :=
  if String.prefix "//" s && negb (String.prefix "///" s) then "//"
  else if String.prefix "/" s then "/" else "".

Definition join (r : string) (ps : list string) : string :=
  match ps with
  | [] => if String.eqb r "" then "." else r
  | _ => r ++ String.concat "/" ps
  end.

Definition new (s : string) : Path := mkPath (join (root s) (parts s)).

Definition parent (p : Path) : Path :=
  mkPath (join (root (path_str p)) (removelast (parts (path_str p)))).

Definition absolute (p : Path) : Path :=
  let s := path_str p in
  if String.prefix "/" s then p
  else if String.prefix "~/" s then new ("/home/sarc/" ++ String.substring 2 (String.length s) s)
  else new ("/srv/sarc/" ++ s).

Definition cluster_json : pyval :=
  PDict [("host", PStr "login.cluster"); ("timezone", PStr "America/Montreal")].

Definition config_json : pyval :=
  PDict
    [("mongo", PDict [("connection_string", PStr "mongodb://localhost:27017");
                      ("database_name", PStr "sarc")]);
     ("ldap", PDict [("local_private_key_file", PStr "secrets/ldap.key");
                     ("local_certificate_file", PStr "secrets/ldap.crt");
                     ("ldap_service_uri", PStr "ldaps://ldap.example");
                     ("mongo_collection_name", PStr "users");
                     ("group_to_prof_json_path", PStr "$SELF/group_to_prof.json")]);
     ("account_matching", PDict [("drac_members_csv_path", PStr "secrets/members.csv");
                                 ("drac_roles_csv_path", PStr "secrets/roles.csv");
                                 ("make_matches_config", PStr "secrets/matches.json")]);
     ("clusters", PDict [("alpha", cluster_json)])].

(** What follows the first colon of a host string, if there is one. *)
Fixpoint port_of (s : string) : option string :=
  match s with
  | EmptyString => None
  | String c s' => if Ascii.eqb c ":"%char then Some s' else port_of s'
  end.

Fixpoint all_digits (s : string) : bool :=
  match s with
  | EmptyString => true
  | String c s' =>
      Nat.leb 48 (nat_of_ascii c) && Nat.leb (nat_of_ascii c) 57 && all_digits s'
  end.

(** A name of 256 letters: longer than a file name may be. *)
Definition long_name : string := String.concat "" (repeat "x" 256).

(** A file system with the directory [/etc/sarc] and four files in it, of
    which [latin1.json] holds bytes that are no UTF-8 text; names longer
    than 255 bytes make [stat] fail. *)
Definition os : Host :=
  {| Path_new := new;
     Path_parent := parent;
     Path_exists := fun p =>
       if existsb (fun x => Nat.ltb 255 (String.length x)) (parts (path_str p))
       then Raise (OSError (path_str p))
       else Ok (existsb (String.eqb (path_str p))
                  ["/etc/sarc/config.json"; "/etc/sarc/broken.json";
                   "/etc/sarc/ssh_config"; "/etc/sarc/latin1.json"; "/etc/sarc";
                   "/etc"; "/"]);
     Path_absolute := absolute;
     zone_known := fun k =>
       existsb (String.eqb k) ["America/Montreal"; "America/Vancouver"; "UTC"];
     zone_key_malformed := fun k => String.eqb k "" || String.prefix "/" k;
     load_file := fun p =>
       if String.eqb (path_str p) "/etc/sarc/config.json" then Ok config_json
       else if String.eqb (path_str p) "/etc/sarc/broken.json" then Raise JSONDecodeError
       else if String.eqb (path_str p) "/etc/sarc/latin1.json" then Raise UnicodeDecodeError
       else Raise (OSError (path_str p));
     json_load := fun f =>
       if String.eqb f "/etc/sarc/headers.json"
       then Ok (PDict [("Authorization", PStr "Bearer token")])
       else Raise (OSError f);
     ssh_config_readable := fun p => String.eqb (path_str p) "/etc/sarc/ssh_config";
     Connection_rejects := fun h =>
       if String.eqb h "" then Some TypeError
       else match port_of h with
            | Some port => if all_digits port then None else Some ValueError
            | None => None
            end;
     mongo_uri_valid := String.prefix "mongodb://";
     database_name_valid := fun n =>
       negb (String.eqb n "")
       && negb (existsb (fun c => contains c n) [" "; "."; "$"; "/"]);
     env_SARC_CONFIG := None |}.

Definition g0 : Globals := {| config_var := None; _config_folder := None |}.

Definition w0 : World := {| next_oid := 0 |}.

Definition alpha : ClusterConfig :=
  {| host := "login.cluster"; timezone := mkZone "America/Montreal";
     prometheus_url := None; prometheus_headers_file := None;
     name := None; sacct_bin := "sacct"; accounts := None; sshconfig := None;
     duc_inodes_command := None; duc_storage_command := None;
     diskusage_report_command := None;
     cached_ssh := None; cached_prometheus := None |}.

Definition mongo0 : MongoConfig :=
  {| connection_string := "mongodb://localhost:27017"; database_name := "sarc";
     cached_database_instance := None |}.

Definition ldap0 : LDAPConfig :=
  {| local_private_key_file := "secrets/ldap.key";
     local_certificate_file := "secrets/ldap.crt";
     ldap_service_uri := "ldaps://ldap.example";
     mongo_collection_name := "users";
     group_to_prof_json_path := Some "/etc/sarc/group_to_prof.json";
     exceptions_json_path := None |}.

Definition matching0 : AccountMatchingConfig :=
  {| drac_members_csv_path := mkPath "secrets/members.csv";
     drac_roles_csv_path := mkPath "secrets/roles.csv";
     make_matches_config := mkPath "secrets/matches.json" |}.

(** The configuration read from [/etc/sarc/config.json]. *)
Definition cfg : Config :=
  {| mongo := mongo0; ldap := ldap0; account_matching := matching0;
     root_sshconfig := None; cache := None;
     clusters := [("alpha", set_name (Some "alpha") alpha)] |}.

(** Globals while [/etc/sarc/config.json] is current. *)
Definition g1 : Globals :=
  {| config_var := Some cfg; _config_folder := Some "/etc/sarc" |}.

(** A cluster entry given with an empty name. *)
Definition blank_json : pyval :=
  PDict [("host", PStr "login.cluster"); ("timezone", PStr "America/Montreal");
         ("name", PStr "")].

Definition blank : ClusterConfig := set_name (Some "") alpha.

Definition blank_kw : pydict :=
  match config_json with
  | PDict d => ("clusters", PDict [("alpha", blank_json)]) :: d
  | _ => []
  end.

(** A cluster without metrics URL whose headers file does not exist. *)
Definition headless : ClusterConfig :=
  {| host := "login.cluster"; timezone := mkZone "America/Montreal";
     prometheus_url := None;
     prometheus_headers_file := Some "/etc/sarc/missing.json";
     name := Some "alpha"; sacct_bin := "sacct"; accounts := None; sshconfig := None;
     duc_inodes_command := None; duc_storage_command := None;
     diskusage_report_command := None;
     cached_ssh := None; cached_prometheus := None |}.

(** The body of a [with] statement that fails at once. *)
Definition failing_body (c : Config) (g : Globals) : outcome unit * Globals :=
  (Raised (OSError "/dev/full"), g).

Definition ssh_config_path : Path := mkPath "/etc/sarc/ssh_config".

End Sample.

(** ** Dates *)

(** [datetime.datetime] *)
Record Datetime := {
  dt_year : nat; dt_month : nat; dt_day : nat;
  dt_hour : nat; dt_minute : nat; dt_second : nat
}.

(** [validate_date], over [datetime.strptime]; [None] is the [ValueError]
    of a string that does not match the format. *)
Definition validate_date (strptime : string -> string -> option Datetime)
    (value : pyval) : option pyval :=
  match value with
  | PStr s =>
      if contains "T" s then
        dt ← strptime s "%Y-%m-%dT%H:%M:%S";
        Some (PDate (dt_year dt) (dt_month dt) (dt_day dt))
      else
        dt ← strptime s "%Y-%m-%d";
        Some (PDate (dt_year dt) (dt_month dt) (dt_day dt))
  | PDatetime y m d _ _ _ => Some (PDate y m d)
  | _ => Some value
  end.

(** ** Declared fields without a default *)

Definition ClusterConfig_required : list string := ["host"; "timezone"].

Definition MongoConfig_required : list string := ["connection_string"; "database_name"].

Definition LDAPConfig_required : list string :=
  ["local_private_key_file"; "local_certificate_file"; "ldap_service_uri";
   "mongo_collection_name"].

Definition AccountMatchingConfig_required : list string :=
  ["drac_members_csv_path"; "drac_roles_csv_path"; "make_matches_config"].

Definition Config_required : list string :=
  ["mongo"; "ldap"; "account_matching"; "clusters"].

(** ** The cross-field loop, object by object *)

(** The keys under which a mapping refers to the object at [l], in the
    order of the mapping. *)
Definition keys_at (l : nat) (items : list (string * nat)) : list string :=
  map fst (List.filter (fun kl => Nat.eqb (snd kl) l) items).

(** The loop body run on one object for each of the given keys in turn. *)
Definition complete_all (ks : list string) (values : Values) (c : ClusterConfig)
    : ClusterConfig :=
  fold_left (fun c k => complete_cluster k values c) ks c.

(** ** Calls of the lazy accessors on one cluster *)

Inductive accessor :=
| CallSsh
| CallPrometheus.

(** The accessors called one after the other on the same instance, results
    dropped: what matters is the instance and the world they leave. *)
Fixpoint call_all (os : Host) (calls : list accessor) (c : ClusterConfig) (w : World)
    : ClusterConfig * World :=
  match calls with
  | [] => (c, w)
  | CallSsh :: rest =>
      let '(_, c', w') := ssh os c w in call_all os rest c' w'
  | CallPrometheus :: rest =>
      let '(_, c', w') := prometheus os c w in call_all os rest c' w'
  end.

(** The handles an instance holds were built from its own fields, by
    constructors that ran before now, and are two different objects. *)
Definition handles_consistent (os : Host) (c : ClusterConfig) (w : World) : Prop :=
  (forall h, cached_ssh c = Some h ->
     oid h < next_oid w
     /\ made h = Connection (host c)
                   {| ssh_config := sshconfig c; run_pty := true;
                      run_in_stream := false |})
  /\ (forall h, cached_prometheus c = Some h ->
       oid h < next_oid w
       /\ exists url headers,
            prometheus_url c = Some url
            /\ made h = PrometheusConnect url headers)
  /\ (forall h1 h2, cached_ssh c = Some h1 -> cached_prometheus c = Some h2 ->
       oid h1 <> oid h2).

(** ** A second sample: a clock and an environment *)
Module Almanac.

Definition digit (c : ascii) : option nat :=
  let n := nat_of_ascii c in
  if Nat.leb 48 n && Nat.leb n 57 then Some (n - 48) else None.

(** Exactly [n] digits, then the rest. *)
Fixpoint number (n : nat) (acc : nat) (s : string) : option (nat * string) :=
  match n with
  | O => Some (acc, s)
  | S n' =>
      match s with
      | EmptyString => None
      | String c s' =>
          match digit c with
          | Some d => number n' (10 * acc + d) s'
          | None => None
          end
      end
  end.

Definition sep (c : ascii) (s : string) : option string :=
  match s with
  | String c' s' => if Ascii.eqb c c' then Some s' else None
  | EmptyString => None
  end.

Definition date_fields (s : string) : option (nat * nat * nat * string) :=
  '(y, s) ← number 4 0 s; s ← sep "-" s;
  '(m, s) ← number 2 0 s; s ← sep "-" s;
  '(d, s) ← number 2 0 s;
  if Nat.leb 1 m && Nat.leb m 12 && Nat.leb 1 d && Nat.leb d 31 then Some (y, m, d, s)
  else None.

Definition time_fields (s : string) : option (nat * nat * nat * string) :=
  '(h, s) ← number 2 0 s; s ← sep ":" s;
  '(mi, s) ← number 2 0 s; s ← sep ":" s;
  '(se, s) ← number 2 0 s;
  if Nat.ltb h 24 && Nat.ltb mi 60 && Nat.ltb se 60 then Some (h, mi, se, s) else None.

(** [strptime] on zero-padded fields, for the two formats of
    [validate_date]. *)
Definition strptime (s fmt : string) : option Datetime :=
  if String.eqb fmt "%Y-%m-%d" then
    '(y, m, d, rest) ← date_fields s;
    if String.eqb rest "" then
      Some {| dt_year := y; dt_month := m; dt_day := d;
              dt_hour := 0; dt_minute := 0; dt_second := 0 |}
    else None
  else if String.eqb fmt "%Y-%m-%dT%H:%M:%S" then
    '(y, m, d, rest) ← date_fields s; rest ← sep "T" rest;
    '(h, mi, se, rest) ← time_fields rest;
    if String.eqb rest "" then
      Some {| dt_year := y; dt_month := m; dt_day := d;
              dt_hour := h; dt_minute := mi; dt_second := se |}
    else None
  else None.

(** The sample host with [SARC_CONFIG] set. *)
Definition os : Host :=
  {| Path_new := Path_new Sample.os;
     Path_parent := Path_parent Sample.os;
     Path_exists := Path_exists Sample.os;
     Path_absolute := Path_absolute Sample.os;
     zone_known := zone_known Sample.os;
     zone_key_malformed := zone_key_malformed Sample.os;
     load_file := load_file Sample.os;
     json_load := json_load Sample.os;
     ssh_config_readable := ssh_config_readable Sample.os;
     Connection_rejects := Connection_rejects Sample.os;
     mongo_uri_valid := mongo_uri_valid Sample.os;
     database_name_valid := database_name_valid Sample.os;
     env_SARC_CONFIG := Some "/etc/sarc/config.json" |}.

(** The sample configuration file with a root [sshconfig]. *)
Definition rooted_kw : pydict :=
  match Sample.config_json with
  | PDict d => ("sshconfig", PStr "ssh/config") :: d
  | _ => []
  end.

Definition ssh_handle : Handle :=
  {| oid := 0;
     made := Connection "login.cluster"
               {| ssh_config := None; run_pty := true; run_in_stream := false |} |}.

(** The sample cluster once its remote-execution handle has been built. *)
Definition connected : ClusterConfig := set_cached_ssh ssh_handle Sample.alpha.

(** The sample cluster with an empty host string. *)
Definition hostless : ClusterConfig :=
  {| host := ""; timezone := mkZone "America/Montreal";
     prometheus_url := None; prometheus_headers_file := None;
     name := None; sacct_bin := "sacct"; accounts := None; sshconfig := None;
     duc_inodes_command := None; duc_storage_command := None;
     diskusage_report_command := None;
     cached_ssh := None; cached_prometheus := None |}.

(** The sample cluster under an [sshconfig] that is not there. *)
Definition astray : ClusterConfig :=
  set_sshconfig (Some (mkPath "/etc/sarc/absent")) Sample.alpha.

(** The sample database settings with an empty database name. *)
Definition nameless : MongoConfig :=
  {| connection_string := "mongodb://localhost:27017"; database_name := "";
     cached_database_instance := None |}.

(** Globals while a file of the directory [/srv/$SELF] is current. *)
Definition g_sentinel : Globals :=
  {| config_var := None; _config_folder := Some "/srv/$SELF" |}.

(** The [ldap] section of the sample file. *)
Definition ldap_kw : pydict :=
  [("local_private_key_file", PStr "secrets/ldap.key");
   ("local_certificate_file", PStr "secrets/ldap.crt");
   ("ldap_service_uri", PStr "ldaps://ldap.example");
   ("mongo_collection_name", PStr "users");
   ("group_to_prof_json_path", PStr "$SELF/group_to_prof.json")].

(** The sample configuration after [sshconfig] was assigned a relative
    path. *)
Definition adrift : Config :=
  {| mongo := Sample.mongo0; ldap := Sample.ldap0;
     account_matching := Sample.matching0;
     root_sshconfig := Some (mkPath "ssh/config"); cache := None;
     clusters := [("alpha", set_sshconfig (Some (mkPath "ssh/config"))
                              (set_name (Some "alpha") Sample.alpha))] |}.

(** The sample configuration after the name of its cluster was assigned
    [None]. *)
Definition unnamed : Config :=
  {| mongo := Sample.mongo0; ldap := Sample.ldap0;
     account_matching := Sample.matching0;
     root_sshconfig := None; cache := None;
     clusters := [("alpha", Sample.alpha)] |}.

(** A store that holds the cluster of the sample configuration and
    another object. *)
Definition store : Heap := [set_name (Some "alpha") Sample.alpha; Sample.headless].

(** A body that unsets the current configuration and completes. *)
Definition clearing_body (c : Config) (g : Globals) : outcome unit * Globals :=
  (Completed, set_config_var None g).

(** A body that completes at once. *)
Definition quiet_body (c : Config) (g : Globals) : outcome unit * Globals :=
  (Completed, g).

End Almanac.

(** * Verification *)

Example sample_parse_config :
  parse_config Sample.os (AsStr "/etc//sarc/./config.json") Sample.g0
  = (Ok Sample.cfg,
     {| config_var := None; _config_folder := Some "/etc/sarc" |}).
Proof. vm_compute. reflexivity. Qed.

Example sample_replace :
  str_replace "$SELF/a/$SELF" "$SELF" "/etc" = "/etc/a//etc".
Proof. reflexivity. Qed.

(** Occurrences are taken left to right and do not overlap. *)
Example sample_replace_overlap : str_replace "aaa" "aa" "b" = "ba".
Proof. reflexivity. Qed.

Example sample_replace_partial :
  str_replace "x$SELF$SELFy$SEL" "$SELF" "/d" = "x/d/dy$SEL".
Proof. reflexivity. Qed.

Example sample_contains : contains "$SELF" "a$SEL$SELF" = true.
Proof. reflexivity. Qed.

(** A value for [clusters] that is no dict goes through [dict()]: the
    empty list gives a configuration without clusters. *)
Example sample_clusters_from_list :
  exists cfg,
    Config_init Sample.os Sample.g1 (("clusters", PList []) :: Sample.blank_kw) = Ok cfg
    /\ clusters cfg = [].
Proof. eexists. split; [vm_compute; reflexivity | reflexivity]. Qed.

(** The empty zone name is a malformed key: a validation error, collected
    like the error of any field, and not the error of a missing zone. *)
Example sample_timezone_malformed :
  ClusterConfig_init Sample.os [("host", PStr "login.cluster"); ("timezone", PStr "")]
  = Raise ValidationError
  /\ ClusterConfig_init Sample.os
       [("host", PStr "login.cluster"); ("timezone", PStr "Mars/Olympus")]
     = Raise (ZoneInfoNotFoundError "Mars/Olympus").
Proof. split; reflexivity. Qed.

(** Without [SARC_CONFIG] and without the default file, the first read of
    the current configuration fails and leaves no value behind. *)
Example sample_config_default :
  config Sample.os Sample.g0
  = (Raise (ConfigurationError (missing_message (mkPath "config/sarc-dev.json"))),
     {| config_var := None; _config_folder := Some "config" |}).
Proof. reflexivity. Qed.

(** A scope entered from a path and left by [return]. *)
Example sample_using_config_path :
  with_statement (using_config Sample.os (FromPath (AsStr "/etc/sarc/config.json")))
    (fun c g => (Returned (map fst (clusters c)), g)) Sample.g0
  = (Returned ["alpha"],
     {| config_var := None; _config_folder := Some "/etc/sarc" |}).
Proof. vm_compute. reflexivity. Qed.

(** ** Strings *)

Lemma append_assoc (a b c : string) : (a ++ b) ++ c = a ++ (b ++ c).
Proof. induction a as [|x a IH]; simpl; [reflexivity | f_equal; exact IH]. Qed.

Lemma prefix_append (s t : string) : String.prefix s (s ++ t) = true.
Proof.
  induction s as [|x s IH]; simpl.
  - now destruct t.
  - destruct (ascii_dec x x); [exact IH | congruence].
Qed.

Lemma contains_prefix (sub s : string) :
  String.prefix sub s = true -> contains sub s = true.
Proof. intros Hp. destruct s; cbn [contains]; now rewrite Hp. Qed.

Lemma contains_append_r (sub a s : string) :
  contains sub s = true -> contains sub (a ++ s) = true.
Proof.
  intros Hs. induction a as [|x a IH]; [exact Hs |].
  change (String x a ++ s) with (String x (a ++ s)). cbn [contains].
  rewrite IH. now destruct (String.prefix sub (String x (a ++ s))).
Qed.

(** A string occurs in whatever is written around it. *)
Lemma contains_middle (sub a b : string) : contains sub (a ++ sub ++ b) = true.
Proof. apply contains_append_r, contains_prefix, prefix_append. Qed.

Lemma replace_scan_absent (old new s : string) :
  contains old s = false -> replace_scan old new 0 s = s.
Proof.
  induction s as [|c s IH]; [reflexivity |].
  cbn [contains replace_scan].
  destruct (String.prefix old (String c s)) eqn:Hp; [discriminate |].
  intros Hs. now rewrite IH.
Qed.

(** Replacing a substring that does not occur changes nothing. *)
Lemma str_replace_absent (s old new : string) :
  contains old s = false -> str_replace s old new = s.
Proof.
  intros Hs. destruct old as [|o old].
  - destruct s; discriminate.
  - now apply replace_scan_absent.
Qed.

Section Proofs.

Variable os : Host.

(** ** Path resolver *)

Lemma relative_filepath_none (g : Globals) : relative_filepath g None = None.
Proof. reflexivity. Qed.

Lemma relative_filepath_plain (g : Globals) (path : string) :
  contains "$SELF" path = false -> relative_filepath g (Some path) = Some path.
Proof. intros Hs. unfold relative_filepath. now rewrite Hs. Qed.

Lemma relative_filepath_sentinel (g : Globals) (path : string) :
  contains "$SELF" path = true ->
  relative_filepath g (Some path)
  = Some (str_replace path "$SELF" (str_of_optional (_config_folder g))).
Proof. intros Hs. unfold relative_filepath. now rewrite Hs. Qed.

(** The resolver reads nothing of the process state but the directory. *)
Lemma relative_filepath_folder (g g' : Globals) (path : option string) :
  _config_folder g = _config_folder g' ->
  relative_filepath g path = relative_filepath g' path.
Proof. intros Hf. unfold relative_filepath. now rewrite Hf. Qed.

(** C7. The path resolver maps a null path to null, returns a path without
    the sentinel [$SELF] unchanged, so that resolving it again changes
    nothing, and replaces the sentinel of a sentinel-bearing path by the
    current config directory; the result depends on the process state only
    through that directory, so two resolutions of the same path under the
    same directory agree. *)
Theorem relative_filepath_resolves (g g' : Globals) (path : string) :
  _config_folder g = _config_folder g' ->
  relative_filepath g None = None
  /\ (contains "$SELF" path = false ->
      relative_filepath g (Some path) = Some path
      /\ relative_filepath g (relative_filepath g (Some path))
         = relative_filepath g (Some path))
  /\ (contains "$SELF" path = true ->
      relative_filepath g (Some path)
      = Some (str_replace path "$SELF" (str_of_optional (_config_folder g)))
      /\ relative_filepath g' (Some path) = relative_filepath g (Some path)).
Proof.
  intros Hf. split; [reflexivity | split].
  - intros Hs. rewrite (relative_filepath_plain g path Hs).
    split; [reflexivity | now apply relative_filepath_plain].
  - intros Hs. split.
    + now apply relative_filepath_sentinel.
    + symmetry. now apply relative_filepath_folder.
Qed.

(** ** Loader *)

Lemma parse_config_globals (config_path : pathlike) (g : Globals) :
  snd (parse_config os config_path g)
  = set_config_folder (Some (path_str (Path_parent os (Path_of os config_path)))) g.
Proof.
  unfold parse_config.
  destruct (Path_exists os (Path_of os config_path)) as [[|]|e0]; try reflexivity.
  destruct (Config_parse_file os _ _) as [c|e]; [reflexivity |].
  now destruct e.
Qed.

(** C8. Loading a path of which [exists()] answers that nothing is there
    fails with a [ConfigurationError] whose message names the path and
    points at the [SARC_CONFIG] environment variable; where [exists()]
    itself raises, that exception leaves [parse_config] as it is. *)
Theorem parse_config_missing (config_path : pathlike) (g : Globals) :
  (Path_exists os (Path_of os config_path) = Ok false ->
   fst (parse_config os config_path g)
   = Raise (ConfigurationError (missing_message (Path_of os config_path))))
  /\ (forall e, Path_exists os (Path_of os config_path) = Raise e ->
       fst (parse_config os config_path g) = Raise e)
  /\ contains (path_str (Path_of os config_path))
       (missing_message (Path_of os config_path)) = true
  /\ contains "$SARC_CONFIG" (missing_message (Path_of os config_path)) = true.
Proof.
  split; [| split; [| split]].
  - intros Hex. unfold parse_config. now rewrite Hex.
  - intros e Hex. unfold parse_config. now rewrite Hex.
  - apply contains_middle.
  - unfold missing_message.
    change ("'" ++ " Use the $SARC_CONFIG environment variable to choose the config file.")
      with (("' Use the " ++ "$SARC_CONFIG") ++ " environment variable to choose the config file.").
    rewrite <- !append_assoc. rewrite append_assoc. apply contains_middle.
Qed.

(** C3. Loading an existing file whose text is not JSON, the loader
    raising [json.JSONDecodeError], fails with a [ConfigurationError]
    naming the path; any other exception of the loader, such as the
    [UnicodeDecodeError] of bytes that are no text, leaves [parse_config]
    as it is. *)
Theorem parse_config_malformed (config_path : pathlike) (g : Globals) :
  Path_exists os (Path_of os config_path) = Ok true ->
  (load_file os (Path_of os config_path) = Raise JSONDecodeError ->
   fst (parse_config os config_path g)
   = Raise (ConfigurationError (malformed_message (Path_of os config_path))))
  /\ (forall e, load_file os (Path_of os config_path) = Raise e ->
       e <> JSONDecodeError ->
       fst (parse_config os config_path g) = Raise e)
  /\ contains (path_str (Path_of os config_path))
       (malformed_message (Path_of os config_path)) = true.
Proof.
  intros Hex. split; [| split].
  - intros Hload.
    unfold parse_config, Config_parse_file. rewrite Hex, Hload. reflexivity.
  - intros e Hload Hne.
    unfold parse_config, Config_parse_file. rewrite Hex, Hload. simpl.
    destruct e; try reflexivity. now destruct Hne.
  - apply contains_middle.
Qed.

(** C9. Every call of [parse_config], failing or not, leaves the
    sentinel-resolution directory set to the parent directory of its
    argument: the directory is written before the existence check and
    before validation, which already reads the new value, and no exit
    restores the old one. *)
Theorem parse_config_overwrites_folder (config_path : pathlike) (g : Globals) :
  let folder := Some (path_str (Path_parent os (Path_of os config_path))) in
  let g' := set_config_folder folder g in
  snd (parse_config os config_path g) = g'
  /\ _config_folder (snd (parse_config os config_path g)) = folder
  /\ (is_Ok (fst (parse_config os config_path g)) = true ->
      fst (parse_config os config_path g)
      = Config_parse_file os g' (Path_of os config_path))
  /\ (forall path,
      relative_filepath (snd (parse_config os config_path g)) path
      = relative_filepath g' path).
Proof.
  cbv zeta. rewrite parse_config_globals. repeat split.
  unfold parse_config.
  destruct (Path_exists os (Path_of os config_path)) as [[|]|e0]; try discriminate.
  destruct (Config_parse_file os _ _) as [c|e]; [reflexivity |].
  now destruct e.
Qed.

(** ** Scoped current configuration *)

Lemma parse_config_config_var (config_path : pathlike) (g : Globals) :
  config_var (snd (parse_config os config_path g)) = config_var g.
Proof. now rewrite parse_config_globals. Qed.

(** Entering the scope keeps the value it replaces in the token. *)
Lemma using_config_before (cfg : config_source) (g g1 : Globals)
    (c : Config) (token : Token) :
  cm_before (using_config os cfg) g = (Ok (c, token), g1) ->
  token = config_var g /\ config_var g1 = Some c.
Proof.
  unfold using_config, cm_before. destruct cfg as [p|c0].
  - pose proof (parse_config_config_var p g) as Hv.
    destruct (parse_config os p g) as [[c1|e] g2]; [| discriminate].
    simpl in *. intros [= <- <- <-]. now rewrite Hv.
  - simpl. now intros [= <- <- <-].
Qed.

(** When the body of the scope completes or returns, the value that was
    current on entry is current again, whatever the body did to it. *)
Lemma using_config_restores {R} (cfg : config_source)
    (body : Config -> Globals -> outcome R * Globals) (g g' : Globals) (o : outcome R) :
  with_statement (using_config os cfg) body g = (o, g') ->
  (forall e, o <> Raised e) ->
  config_var g' = config_var g.
Proof.
  unfold with_statement.
  destruct (cm_before (using_config os cfg) g) as [[[c token]|e] g1] eqn:Hb.
  - apply using_config_before in Hb as [-> _].
    destruct (body c g1) as [[| r | e] g2]; simpl.
    + now intros [= <- <-] _.
    + now intros [= <- <-] _.
    + intros [= <- <-] Hne. now destruct (Hne e).
  - intros [= <- <-] Hne. now destruct (Hne e).
Qed.

(** Nested scopes: once the inner scope is left the outer value is current,
    and once the outer scope is left the value from before it is. *)
Lemma using_config_nested {R} (a b : Config)
    (inner : Config -> Globals -> outcome R * Globals)
    (rest : outcome R -> Globals -> outcome R * Globals)
    (g g' : Globals) (o : outcome R) :
  (forall x gx, (forall e, fst (inner x gx) <> Raised e)) ->
  with_statement (using_config os (FromConfig a))
    (fun _ ga =>
       let (oi, gi) := with_statement (using_config os (FromConfig b)) inner ga in
       rest oi gi) g = (o, g') ->
  (forall e, o <> Raised e) ->
  (forall ga, config_var
     (snd (with_statement (using_config os (FromConfig b)) inner
             (set_config_var (Some a) ga))) = Some a)
  /\ config_var g' = config_var g.
Proof.
  intros Hinner Hrun Hne. split.
  - intros ga.
    destruct (with_statement (using_config os (FromConfig b)) inner
                (set_config_var (Some a) ga)) as [oi gi] eqn:Hi.
    apply using_config_restores in Hi; [exact Hi |].
    intros e ->.
    unfold with_statement in *. simpl in *.
    specialize (Hinner b (set_config_var (Some b) (set_config_var (Some a) ga))).
    destruct (inner b _) as [[| r | e'] g2]; simpl in *; try discriminate.
    now destruct (Hinner e').
  - now apply (using_config_restores _ _ _ _ _ Hrun).
Qed.

(** When the body raises, the statement re-raises and the code after the
    [yield] has not run: the globals are those the body left. *)
Lemma using_config_raise {R} (cfg : config_source)
    (body : Config -> Globals -> outcome R * Globals)
    (g g1 g2 : Globals) (c : Config) (token : Token) (e : exn) :
  cm_before (using_config os cfg) g = (Ok (c, token), g1) ->
  body c g1 = (Raised e, g2) ->
  with_statement (using_config os cfg) body g = (Raised e, g2).
Proof. intros Hb Hbody. unfold with_statement. now rewrite Hb, Hbody. Qed.

(** ** Lazy handles *)

Lemma cached_property_hit {T} (slot : T -> option Handle) (store : Handle -> T -> T)
    (method : T -> World -> result Handle * World) (self : T) (w : World) (h : Handle) :
  slot self = Some h ->
  cached_property slot store method self w = (Ok h, self, w).
Proof. intros Hs. unfold cached_property. now rewrite Hs. Qed.

(** A call that returns leaves its value in the slot, provided the store
    writes the slot it is read from. *)
Lemma cached_property_fills {T} (slot : T -> option Handle) (store : Handle -> T -> T)
    (method : T -> World -> result Handle * World)
    (self self' : T) (w w' : World) (h : Handle) :
  (forall x y, slot (store x y) = Some x) ->
  cached_property slot store method self w = (Ok h, self', w') ->
  slot self' = Some h.
Proof.
  intros Hstore. unfold cached_property.
  destruct (slot self) as [h0|] eqn:Hs.
  - now intros [= <- <- <-].
  - destruct (method self w) as [[h1|e] w1]; [| discriminate].
    intros [= <- <- <-]. apply Hstore.
Qed.

(** A failing call writes nothing. *)
Lemma cached_property_failure {T} (slot : T -> option Handle) (store : Handle -> T -> T)
    (method : T -> World -> result Handle * World)
    (self self' : T) (w w' : World) (e : exn) :
  cached_property slot store method self w = (Raise e, self', w') ->
  self' = self.
Proof.
  unfold cached_property. destruct (slot self) as [h0|]; [discriminate |].
  destruct (method self w) as [[h1|e1] w1]; [discriminate |].
  now intros [= <- <- <-].
Qed.

(** C5. For each lazy handle accessor: on an instance that holds no
    handle yet, and on which nothing the accessor calls raises, the call
    constructs a handle from the instance's fields, under an identity that
    was not in use, and leaves it in the instance; any call that succeeds
    leaves the handle it returns in the instance; and every later call on
    that instance, whatever happened to its fields, returns the handle with
    the same identity and constructs nothing. *)
Theorem lazy_handles_cached :
  (forall c w,
     cached_ssh c = None ->
     (forall p, sshconfig c = Some p -> ssh_config_readable os p = true) ->
     Connection_rejects os (host c) = None ->
     let h := {| oid := next_oid w;
                 made := Connection (host c)
                           {| ssh_config := sshconfig c; run_pty := true;
                              run_in_stream := false |} |} in
     ssh os c w = (Ok h, set_cached_ssh h c, {| next_oid := S (next_oid w) |}))
  /\ (forall c w h c1 w1,
     ssh os c w = (Ok h, c1, w1) ->
     cached_ssh c1 = Some h
     /\ (cached_ssh c = None -> oid h = next_oid w /\ next_oid w1 = S (next_oid w))
     /\ forall c2 w2, cached_ssh c2 = cached_ssh c1 -> ssh os c2 w2 = (Ok h, c2, w2))
  /\ (forall c w url headers,
     cached_prometheus c = None ->
     match prometheus_headers_file c with
     | Some f => json_load os f
     | None => Ok (PDict [])
     end = Ok headers ->
     prometheus_url c = Some url ->
     let h := {| oid := next_oid w; made := PrometheusConnect url headers |} in
     prometheus os c w
     = (Ok h, set_cached_prometheus h c, {| next_oid := S (next_oid w) |}))
  /\ (forall c w h c1 w1,
     prometheus os c w = (Ok h, c1, w1) ->
     cached_prometheus c1 = Some h
     /\ (cached_prometheus c = None ->
         oid h = next_oid w /\ next_oid w1 = S (next_oid w))
     /\ forall c2 w2, cached_prometheus c2 = cached_prometheus c1 ->
          prometheus os c2 w2 = (Ok h, c2, w2))
  /\ (forall m w,
     cached_database_instance m = None ->
     mongo_uri_valid os (connection_string m) = true ->
     database_name_valid os (database_name m) = true ->
     let h := {| oid := S (next_oid w);
                 made := Database (connection_string m) (database_name m) |} in
     database_instance os m w
     = (Ok h, set_cached_database_instance h m, {| next_oid := S (S (next_oid w)) |}))
  /\ (forall m w h m1 w1,
     database_instance os m w = (Ok h, m1, w1) ->
     cached_database_instance m1 = Some h
     /\ (cached_database_instance m = None ->
         oid h = S (next_oid w) /\ next_oid w1 = S (S (next_oid w)))
     /\ forall m2 w2, cached_database_instance m2 = cached_database_instance m1 ->
          database_instance os m2 w2 = (Ok h, m2, w2)).
Proof.
  split; [| split; [| split; [| split; [| split]]]].
  - intros c w Hnone Hread Hconn. cbv zeta.
    unfold ssh, cached_property, ssh_method. rewrite Hnone, Hconn.
    destruct (sshconfig c) as [p|]; [| reflexivity].
    now rewrite (Hread p eq_refl).
  - intros c w h c1 w1 Hcall.
    assert (Hslot : cached_ssh c1 = Some h)
      by (eapply cached_property_fills; [| exact Hcall]; reflexivity).
    split; [exact Hslot | split].
    + intros Hnone. revert Hcall. unfold ssh, cached_property, ssh_method.
      rewrite Hnone. destruct (sshconfig c) as [p|].
      * destruct (ssh_config_readable os p); [| discriminate].
        destruct (Connection_rejects os (host c)); [discriminate |].
        simpl. now intros [= <- <- <-].
      * destruct (Connection_rejects os (host c)); [discriminate |].
        simpl. now intros [= <- <- <-].
    + intros c2 w2 Heq. apply cached_property_hit. congruence.
  - intros c w url headers Hnone Hheaders Hurl. cbv zeta.
    unfold prometheus, cached_property, prometheus_method.
    now rewrite Hnone, Hheaders, Hurl.
  - intros c w h c1 w1 Hcall.
    assert (Hslot : cached_prometheus c1 = Some h)
      by (eapply cached_property_fills; [| exact Hcall]; reflexivity).
    split; [exact Hslot | split].
    + intros Hnone. revert Hcall. unfold prometheus, cached_property, prometheus_method.
      rewrite Hnone.
      destruct (match prometheus_headers_file c with
                | Some f => json_load os f
                | None => Ok (PDict [])
                end) as [hd|e]; [| discriminate].
      destruct (prometheus_url c) as [url|]; [| discriminate].
      simpl. now intros [= <- <- <-].
    + intros c2 w2 Heq. apply cached_property_hit. congruence.
  - intros m w Hnone Huri Hname. cbv zeta.
    unfold database_instance, cached_property, database_instance_method.
    now rewrite Hnone, Huri, Hname.
  - intros m w h m1 w1 Hcall.
    assert (Hslot : cached_database_instance m1 = Some h)
      by (eapply cached_property_fills; [| exact Hcall]; reflexivity).
    split; [exact Hslot | split].
    + intros Hnone. revert Hcall.
      unfold database_instance, cached_property, database_instance_method.
      rewrite Hnone. destruct (mongo_uri_valid os (connection_string m)); [| discriminate].
      simpl. destruct (database_name_valid os (database_name m)); [| discriminate].
      simpl. now intros [= <- <- <-].
    + intros m2 w2 Heq. apply cached_property_hit. congruence.
Qed.

(** C4 (amended). For a [ClusterConfig] without metrics URL and without a
    cached metrics handle, whose headers file, if it names one, loads: the
    accessor fails with a [ConfigurationError] naming the cluster, the
    failure leaves the instance as it was, and once a URL has been assigned
    a call on that instance constructs a handle for the URL and caches it. *)
Theorem prometheus_without_url (c : ClusterConfig) (w : World) (headers : pyval) :
  prometheus_url c = None ->
  cached_prometheus c = None ->
  match prometheus_headers_file c with
  | Some f => json_load os f
  | None => Ok (PDict [])
  end = Ok headers ->
  let msg := "No prometheus URL provided for cluster '"
             ++ str_of_optional (name c) ++ "'" in
  prometheus os c w = (Raise (ConfigurationError msg), c, w)
  /\ contains (str_of_optional (name c)) msg = true
  /\ forall url,
       let c' := set_prometheus_url (Some url) c in
       let h := {| oid := next_oid w; made := PrometheusConnect url headers |} in
       prometheus os c' w
       = (Ok h, set_cached_prometheus h c', {| next_oid := S (next_oid w) |}).
Proof.
  intros Hurl Hcache Hheaders msg. split; [| split].
  - unfold prometheus, cached_property, prometheus_method.
    now rewrite Hcache, Hheaders, Hurl.
  - apply contains_middle.
  - intros url c' h. unfold prometheus, cached_property, prometheus_method.
    subst c'. simpl. now rewrite Hcache, Hheaders.
Qed.

(** ** Cross-field defaulting *)

(** What the loop body leaves in the two fields it may write. *)
Lemma complete_cluster_fields (k : string) (values : Values) (c : ClusterConfig) :
  name (complete_cluster k values c)
  = (if truthy_str (name c) then name c else Some k)
  /\ sshconfig (complete_cluster k values c)
    = match v_sshconfig values with
      | Some root => if truthy_path (sshconfig c) then sshconfig c else root
      | None => sshconfig c
      end
  /\ complete_cluster k values c
    = set_sshconfig (sshconfig (complete_cluster k values c))
        (set_name (name (complete_cluster k values c)) c).
Proof.
  unfold complete_cluster.
  destruct c as [h tz url hf n sb ac sc d1 d2 d3 cs cp]; simpl.
  destruct (truthy_str n), sc as [p|], (v_sshconfig values) as [root|];
    simpl; repeat split.
Qed.

Lemma complete_loop_length (items : list (string * nat)) (values : Values) (h : Heap) :
  length (complete_loop items values h) = length h.
Proof.
  revert h. induction items as [|[k l] rest IH]; intros h; simpl; [reflexivity |].
  rewrite IH. apply length_alter.
Qed.

(** Objects the mapping does not refer to are not written. *)
Lemma complete_loop_other (items : list (string * nat)) (values : Values)
    (h : Heap) (l : nat) :
  l ∉ items.*2 -> complete_loop items values h !! l = h !! l.
Proof.
  revert h. induction items as [|[k l0] rest IH]; intros h Hl; simpl; [reflexivity |].
  rewrite fmap_cons, not_elem_of_cons in Hl. destruct Hl as [Hne Hl].
  rewrite IH by exact Hl. apply list_lookup_alter_ne. simpl in Hne. congruence.
Qed.

(** An object the mapping refers to once is written once, by the loop
    body run with its key. *)
Lemma complete_loop_lookup (items : list (string * nat)) (values : Values)
    (h : Heap) (k : string) (l : nat) :
  NoDup items.*2 -> (k, l) ∈ items ->
  complete_loop items values h !! l = complete_cluster k values <$> h !! l.
Proof.
  revert h. induction items as [|[k0 l0] rest IH]; intros h Hnd Hin.
  - now apply elem_of_nil in Hin.
  - rewrite fmap_cons, NoDup_cons in Hnd. destruct Hnd as [Hl0 Hnd]. simpl in Hl0.
    apply elem_of_cons in Hin as [[= -> ->] | Hin]; simpl.
    + rewrite complete_loop_other by exact Hl0. apply list_lookup_alter_eq.
    + rewrite IH by assumption. f_equal. apply list_lookup_alter_ne.
      intros ->. apply Hl0. apply (list_elem_of_fmap_2 snd) in Hin. exact Hin.
Qed.

(** C10. The validator takes a falsy name for an unset one: an object of
    the mapping whose name is the empty string gets its key as name, the
    final store is the one obtained had the name been [None], and the
    write goes to the object the mapping refers to, the mapping itself
    being returned as it was and no object being added. *)
Theorem complete_cluster_fields_falsy_name (value : list (string * nat))
    (values : Values) (h : Heap) (k : string) (l : nat) (c : ClusterConfig) :
  NoDup value.*2 -> (k, l) ∈ value -> h !! l = Some c -> name c = Some "" ->
  let (value', h') := _complete_cluster_fields value values h in
  value' = value
  /\ length h' = length h
  /\ (exists c', h' !! l = Some c' /\ name c' = Some k)
  /\ h' = snd (_complete_cluster_fields value values (<[l := set_name None c]> h)).
Proof.
  intros Hnd Hin Hl Hname. unfold _complete_cluster_fields. simpl.
  split; [reflexivity | split; [apply complete_loop_length | split]].
  - exists (complete_cluster k values c). split.
    + rewrite (complete_loop_lookup _ _ _ k) by assumption. now rewrite Hl.
    + destruct (complete_cluster_fields k values c) as [-> _]. now rewrite Hname.
  - apply list_eq. intros i.
    destruct (decide (i ∈ value.*2)) as [Hi | Hi].
    + apply list_elem_of_fmap in Hi as [[ki li] [-> Hi]]. simpl.
      rewrite !(complete_loop_lookup _ _ _ ki) by assumption.
      destruct (decide (li = l)) as [-> | Hne].
      * rewrite Hl, list_lookup_insert_eq by (now apply lookup_lt_Some in Hl).
        simpl. f_equal. unfold complete_cluster.
        destruct c as [ho tz url hf n sb ac sc d1 d2 d3 cs cp]; simpl in *.
        now subst n.
      * now rewrite list_lookup_insert_ne by congruence.
    + rewrite !complete_loop_other by assumption.
      rewrite list_lookup_insert_ne; [reflexivity |].
      intros <-. apply Hi. apply (list_elem_of_fmap_2 snd) in Hin. exact Hin.
Qed.

(** *** The validator on the objects of a freshly validated mapping *)

Local Open Scope list_scope.

Lemma complete_loop_fresh (value : list (string * ClusterConfig)) (values : Values)
    (hp : list ClusterConfig) :
  complete_loop (imap (fun i kv => (fst kv, length hp + i)) value) values
    (hp ++ (snd <$> value))
  = hp ++ ((fun kv => complete_cluster (fst kv) values (snd kv)) <$> value).
Proof.
  revert hp. induction value as [|[k c] rest IH]; intros hp; [reflexivity |].
  rewrite imap_cons, !fmap_cons. cbn [complete_loop fst snd].
  rewrite alter_app_r. cbn [alter list_alter].
  replace (hp ++ complete_cluster k values c :: (snd <$> rest))
    with ((hp ++ [complete_cluster k values c]) ++ (snd <$> rest))
    by (now rewrite <- app_assoc).
  rewrite (imap_ext _ (fun i kv => (fst kv, length (hp ++ [complete_cluster k values c]) + i))).
  - rewrite IH. now rewrite <- app_assoc.
  - intros i x _. simpl. rewrite length_app. simpl. f_equal. lia.
Qed.

Lemma read_back_fresh (value : list (string * ClusterConfig))
    (f : string * ClusterConfig -> ClusterConfig) (hp : list ClusterConfig) :
  omap (fun kl : string * nat => c ← (hp ++ (f <$> value)) !! snd kl; Some (fst kl, c))
    (imap (fun i kv => (fst kv, length hp + i)) value)
  = (fun kv => (fst kv, f kv)) <$> value.
Proof.
  revert hp. induction value as [|[k c] rest IH]; intros hp; [reflexivity |].
  rewrite imap_cons, !fmap_cons. cbn [omap list_omap fst snd].
  rewrite list_lookup_middle by lia. cbn [mbind option_bind]. f_equal.
  replace (hp ++ f (k, c) :: (f <$> rest))
    with ((hp ++ [f (k, c)]) ++ (f <$> rest))
    by (now rewrite <- app_assoc).
  rewrite (imap_ext _ (fun i kv => (fst kv, length (hp ++ [f (k, c)]) + i))).
  - apply IH.
  - intros i x _. simpl. rewrite length_app. simpl. f_equal. lia.
Qed.

(** Read back, every entry holds the result of the loop body run on it
    with its own key. *)
Lemma complete_clusters_map (value : list (string * ClusterConfig)) (values : Values) :
  complete_clusters value values
  = (fun kv => (fst kv, complete_cluster (fst kv) values (snd kv))) <$> value.
Proof.
  unfold complete_clusters, _complete_cluster_fields.
  pose proof (complete_loop_fresh value values []) as Hloop.
  cbn [length Nat.add app] in Hloop. rewrite Hloop.
  exact (read_back_fresh value
           (fun kv => complete_cluster (fst kv) values (snd kv)) []).
Qed.

Lemma both_Ok {A B} (x : result A) (y : result B) (p : A * B) :
  both x y = Ok p -> x = Ok (fst p) /\ y = Ok (snd p).
Proof.
  destruct x as [a|[]], y as [b|e]; simpl; try discriminate.
  now intros [= <-].
Qed.

Lemma bind_Ok {A B} (r : result A) (f : A -> result B) (b : B) :
  bind r f = Ok b -> exists a, r = Ok a /\ f a = Ok b.
Proof. destruct r as [a|e]; simpl; [eauto | discriminate]. Qed.

Lemma as_cluster_items_Ok (d : pydict) (l : list (string * ClusterConfig)) :
  as_cluster_items os d = Ok l ->
  Forall2 (fun kv kc => fst kc = fst kv
                        /\ as_model (ClusterConfig_init os) (snd kv) = Ok (snd kc)) d l.
Proof.
  revert l. induction d as [|[k v] d IH]; intros l; simpl.
  - intros [= <-]. constructor.
  - intros Hb. apply bind_Ok in Hb as [[c r] [Hboth [= <-]]].
    apply both_Ok in Hboth as [Hc Hr]. constructor; [now split | now apply IH].
Qed.

(** What a successful construction of [Config] did for [sshconfig] and
    [clusters]. *)
Lemma Config_init_Ok (g : Globals) (kw : pydict) (cfg : Config) :
  Config_init os g kw = Ok cfg ->
  exists value values,
    required (as_clusters os) "clusters" kw = Ok value
    /\ v_sshconfig values = Some (root_sshconfig cfg)
    /\ clusters cfg = complete_clusters value values.
Proof.
  unfold Config_init. intros Hinit.
  apply bind_Ok in Hinit as [[f1 [f2 [f3 [f4 [f5 [f6 u]]]]]] [Hb [= <-]]].
  apply both_Ok in Hb as [_ Hb]. apply both_Ok in Hb as [_ Hb].
  apply both_Ok in Hb as [_ Hb]. apply both_Ok in Hb as [Hssh Hb].
  apply both_Ok in Hb as [_ Hb]. apply both_Ok in Hb as [Hcl _].
  cbn [fst snd] in *.
  apply bind_Ok in Hcl as [value [Hvalue [= <-]]].
  eexists value, _. split; [exact Hvalue | split; [| reflexivity]].
  cbn [v_sshconfig]. now rewrite Hssh.
Qed.

(** C2 (amended). In every [Config] that was constructed, the entries of
    [clusters] are those of the mapping given, key by key, and each entry
    whose validated name is absent or empty is named after its key, each
    entry whose validated [sshconfig] is absent has the root [sshconfig],
    possibly absent; an entry with a non-empty name keeps it, an entry
    with an [sshconfig] keeps it, and no other field changes. *)
Theorem Config_init_completes_clusters (g : Globals) (kw d : pydict) (cfg : Config) :
  Config_init os g kw = Ok cfg ->
  dict_get "clusters" kw = Some (PDict d) ->
  Forall2
    (fun kv kc =>
       fst kc = fst kv
       /\ exists c,
           as_model (ClusterConfig_init os) (snd kv) = Ok c
           /\ name (snd kc) = (if truthy_str (name c) then name c else Some (fst kv))
           /\ sshconfig (snd kc)
              = (if truthy_path (sshconfig c) then sshconfig c else root_sshconfig cfg)
           /\ snd kc = set_sshconfig (sshconfig (snd kc)) (set_name (name (snd kc)) c))
    (dict_items d) (clusters cfg).
Proof.
  intros Hinit Hd.
  apply Config_init_Ok in Hinit as (value & values & Hvalue & Hroot & ->).
  unfold required in Hvalue. rewrite Hd in Hvalue. simpl in Hvalue.
  apply as_cluster_items_Ok in Hvalue.
  rewrite complete_clusters_map. apply Forall2_fmap_r.
  eapply Forall2_impl; [exact Hvalue |].
  intros [k v] [k' c] [Hk Hc]. simpl in *. subst k'. split; [reflexivity |].
  exists c. split; [exact Hc |].
  destruct (complete_cluster_fields k values c) as (Hn & Hs & Hrest).
  rewrite Hroot in Hs. now rewrite Hn, Hs at 1.
Qed.

(** ** Strict record base: [dict] and [replace] *)

(** Two dicts with the same keys in the same order, whose values agree
    under the keys in [P], are read alike at every key in [P]. *)
Lemma dict_get_agree (P : string -> Prop) (d1 d2 : pydict) :
  Forall2 (fun a b => fst a = fst b /\ (P (fst a) -> snd a = snd b)) d1 d2 ->
  forall k, P k -> dict_get k d1 = dict_get k d2.
Proof.
  induction 1 as [|[k1 v1] [k2 v2] d1 d2 [Hk Hv] _ IH]; intros k Hne; [reflexivity |].
  simpl in *. subst k2. destruct (String.eqb_spec k k1) as [-> | _].
  - now rewrite Hv.
  - now apply IH.
Qed.

Lemma as_str_items_map (l : list string) : as_str_items (map PStr l) = Ok l.
Proof. induction l as [|x l IH]; simpl; [reflexivity | now rewrite IH]. Qed.

Lemma optional_str_roundtrip (x : option string) :
  as_optional as_str (of_optional_str x) = Ok x.
Proof. now destruct x. Qed.

Lemma optional_path_roundtrip (x : option Path) :
  as_optional (as_path os) (of_optional_path x) = Ok x.
Proof. now destruct x. Qed.

Lemma optional_list_roundtrip (x : option (list string)) :
  as_optional as_str_list (of_optional_list x) = Ok x.
Proof. destruct x as [l|]; simpl; [| reflexivity]. now rewrite as_str_items_map. Qed.

Lemma ClusterConfig_dict (c : ClusterConfig) :
  dict (M := ClusterConfig_model os) c
  = [("host", PStr (host c));
     ("timezone", PZone (timezone c));
     ("prometheus_url", of_optional_str (prometheus_url c));
     ("prometheus_headers_file", of_optional_str (prometheus_headers_file c));
     ("name", of_optional_str (name c));
     ("sacct_bin", PStr (sacct_bin c));
     ("accounts", of_optional_list (accounts c));
     ("sshconfig", of_optional_path (sshconfig c));
     ("duc_inodes_command", of_optional_str (duc_inodes_command c));
     ("duc_storage_command", of_optional_str (duc_storage_command c));
     ("diskusage_report_command", of_optional_str (diskusage_report_command c))].
Proof.
  destruct c as [h tz url hf n sb ac sc d1 d2 d3 cs cp].
  destruct cs, cp, url, hf, n, ac, sc, d1, d2, d3; reflexivity.
Qed.

Ltac init_lookups :=
  unfold required, with_default;
  simpl (dict_get _ _); simpl (forbid_extra _ _); cbv beta iota;
  rewrite ?optional_str_roundtrip, ?optional_path_roundtrip, ?optional_list_roundtrip.

Ltac both_inv H :=
  repeat (let H1 := fresh "Hf" in
          apply both_Ok in H as [H1 H]; cbn [fst snd] in H1, H;
          try (injection H1 as <-)).

Lemma ClusterConfig_replace_nil (c : ClusterConfig) :
  replace (M := ClusterConfig_model os) c [] = Ok (ClusterConfig_uncached c).
Proof.
  unfold replace, dict_merge. rewrite ClusterConfig_dict.
  cbn [init ClusterConfig_model app].
  unfold ClusterConfig_init. init_lookups. reflexivity.
Qed.

Ltac agree_fields :=
  repeat (constructor;
          [split; [reflexivity | intros Hne; try reflexivity; now destruct Hne] |]);
  constructor.

Ltac not_a_field H :=
  unfold forbid_extra in H; cbn [dict_keys map fst forallb existsb] in H;
  repeat match goal with
         | N : _ <> _ |- _ => apply String.eqb_neq in N; rewrite N in H; clear N
         end;
  discriminate H.

Lemma ClusterConfig_replace_one (c r : ClusterConfig) (x : string) (v : pyval) :
  replace (M := ClusterConfig_model os) c [(x, v)] = Ok r ->
  forall k, k <> x ->
  dict_get k (dict (M := ClusterConfig_model os) r)
  = dict_get k (dict (M := ClusterConfig_model os) c).
Proof.
  unfold replace, dict_merge. rewrite !ClusterConfig_dict.
  cbn [init ClusterConfig_model app]. unfold ClusterConfig_init. intros Hinit.
  apply (dict_get_agree (fun k => k <> x)).
  destruct (existsb (String.eqb x) ClusterConfig_fields) eqn:Hx.
  - apply existsb_exists in Hx as [f [Hf Heq]]. apply String.eqb_eq in Heq. subst x.
    simpl in Hf.
    repeat (destruct Hf as [<- | Hf]; [
      revert Hinit; init_lookups; intros Hinit;
      apply bind_Ok in Hinit
        as [[f1 [f2 [f3 [f4 [f5 [f6 [f7 [f8 [f9 [f10 [f11 u]]]]]]]]]]] [Hb [= <-]]];
      both_inv Hb; agree_fields |]).
    destruct Hf.
  - apply bind_Ok in Hinit
      as [[f1 [f2 [f3 [f4 [f5 [f6 [f7 [f8 [f9 [f10 [f11 u]]]]]]]]]]] [Hb _]].
    do 11 (apply both_Ok in Hb as [_ Hb]).
    unfold forbid_extra in Hb. cbn [dict_keys map fst forallb] in Hb.
    rewrite Hx in Hb. discriminate Hb.
Qed.

Lemma MongoConfig_dict (m : MongoConfig) :
  dict m = [("connection_string", PStr (connection_string m));
            ("database_name", PStr (database_name m))].
Proof. destruct m as [cs dn [h|]]; reflexivity. Qed.

Lemma MongoConfig_replace_nil (m : MongoConfig) :
  replace m [] = Ok (MongoConfig_uncached m).
Proof.
  unfold replace, dict_merge. rewrite MongoConfig_dict.
  cbn [init MongoConfig_model app]. unfold MongoConfig_init. init_lookups. reflexivity.
Qed.

Lemma MongoConfig_replace_one (m r : MongoConfig) (x : string) (v : pyval) :
  replace m [(x, v)] = Ok r ->
  forall k, k <> x -> dict_get k (dict r) = dict_get k (dict m).
Proof.
  unfold replace, dict_merge. rewrite !MongoConfig_dict.
  cbn [init MongoConfig_model app]. unfold MongoConfig_init. intros Hinit.
  apply (dict_get_agree (fun k => k <> x)).
  destruct (existsb (String.eqb x) MongoConfig_fields) eqn:Hx.
  - apply existsb_exists in Hx as [f [Hf Heq]]. apply String.eqb_eq in Heq. subst x.
    simpl in Hf.
    repeat (destruct Hf as [<- | Hf]; [
      revert Hinit; init_lookups; intros Hinit;
      apply bind_Ok in Hinit as [[f1 [f2 u]] [Hb [= <-]]];
      both_inv Hb; agree_fields |]).
    destruct Hf.
  - apply bind_Ok in Hinit as [[f1 [f2 u]] [Hb _]].
    do 2 (apply both_Ok in Hb as [_ Hb]).
    unfold forbid_extra in Hb. cbn [dict_keys map fst forallb] in Hb.
    rewrite Hx in Hb. discriminate Hb.
Qed.

Lemma AccountMatchingConfig_dict (a : AccountMatchingConfig) :
  dict (M := AccountMatchingConfig_model os) a
  = [("drac_members_csv_path", PPath (drac_members_csv_path a));
     ("drac_roles_csv_path", PPath (drac_roles_csv_path a));
     ("make_matches_config", PPath (make_matches_config a))].
Proof. reflexivity. Qed.

Lemma AccountMatchingConfig_replace_nil (a : AccountMatchingConfig) :
  replace (M := AccountMatchingConfig_model os) a [] = Ok a.
Proof. now destruct a. Qed.

Lemma AccountMatchingConfig_replace_one (a r : AccountMatchingConfig)
    (x : string) (v : pyval) :
  replace (M := AccountMatchingConfig_model os) a [(x, v)] = Ok r ->
  forall k, k <> x ->
  dict_get k (dict (M := AccountMatchingConfig_model os) r)
  = dict_get k (dict (M := AccountMatchingConfig_model os) a).
Proof.
  unfold replace, dict_merge. rewrite !AccountMatchingConfig_dict.
  cbn [init AccountMatchingConfig_model app]. unfold AccountMatchingConfig_init.
  intros Hinit. apply dict_get_agree.
  destruct (existsb (String.eqb x) AccountMatchingConfig_fields) eqn:Hx.
  - apply existsb_exists in Hx as [f [Hf Heq]]. apply String.eqb_eq in Heq. subst x.
    simpl in Hf.
    repeat (destruct Hf as [<- | Hf]; [
      revert Hinit; init_lookups; intros Hinit;
      apply bind_Ok in Hinit as [[f1 [f2 [f3 u]]] [Hb [= <-]]];
      both_inv Hb; agree_fields |]).
    destruct Hf.
  - apply bind_Ok in Hinit as [[f1 [f2 [f3 u]]] [Hb _]].
    do 3 (apply both_Ok in Hb as [_ Hb]).
    unfold forbid_extra in Hb. cbn [dict_keys map fst forallb] in Hb.
    rewrite Hx in Hb. discriminate Hb.
Qed.

Lemma LDAPConfig_dict (g : Globals) (l : LDAPConfig) :
  dict (M := LDAPConfig_model g) l
  = [("local_private_key_file", PStr (local_private_key_file l));
     ("local_certificate_file", PStr (local_certificate_file l));
     ("ldap_service_uri", PStr (ldap_service_uri l));
     ("mongo_collection_name", PStr (mongo_collection_name l));
     ("group_to_prof_json_path", of_optional_str (group_to_prof_json_path l));
     ("exceptions_json_path", of_optional_str (exceptions_json_path l))].
Proof. destruct l as [a b c d [e|] [f|]]; reflexivity. Qed.

Lemma LDAPConfig_replace_nil (g : Globals) (l : LDAPConfig) :
  LDAPConfig_resolved g l ->
  replace (M := LDAPConfig_model g) l [] = Ok l.
Proof.
  intros [Hg He]. unfold replace, dict_merge. rewrite LDAPConfig_dict.
  cbn [init LDAPConfig_model app]. unfold LDAPConfig_init. init_lookups.
  cbn [bind]. unfold _relative_group_to_prof, _relative_exception.
  rewrite Hg, He. now destruct l.
Qed.

Lemma LDAPConfig_replace_one (g : Globals) (l r : LDAPConfig) (x : string) (v : pyval) :
  LDAPConfig_resolved g l ->
  replace (M := LDAPConfig_model g) l [(x, v)] = Ok r ->
  forall k, k <> x ->
  dict_get k (dict (M := LDAPConfig_model g) r)
  = dict_get k (dict (M := LDAPConfig_model g) l).
Proof.
  intros [Hg He]. unfold replace, dict_merge. rewrite !LDAPConfig_dict.
  cbn [init LDAPConfig_model app]. unfold LDAPConfig_init. intros Hinit.
  apply (dict_get_agree (fun k => k <> x)).
  destruct (existsb (String.eqb x) LDAPConfig_fields) eqn:Hx.
  - apply existsb_exists in Hx as [f [Hf Heq]]. apply String.eqb_eq in Heq. subst x.
    simpl in Hf.
    repeat (destruct Hf as [<- | Hf]; [
      revert Hinit; init_lookups; cbn [bind];
      unfold _relative_group_to_prof, _relative_exception;
      rewrite ?Hg, ?He; intros Hinit;
      apply bind_Ok in Hinit as [[f1 [f2 [f3 [f4 [f5 [f6 u]]]]]] [Hb [= <-]]];
      both_inv Hb; agree_fields |]).
    destruct Hf.
  - apply bind_Ok in Hinit as [[f1 [f2 [f3 [f4 [f5 [f6 u]]]]]] [Hb _]].
    do 6 (apply both_Ok in Hb as [_ Hb]).
    unfold forbid_extra in Hb. cbn [dict_keys map fst forallb] in Hb.
    rewrite Hx in Hb. discriminate Hb.
Qed.

Lemma filter_all {A} (f : A -> bool) (l : list A) :
  Forall (fun a => f a = true) l -> List.filter f l = l.
Proof.
  induction 1 as [|a l Ha _ IH]; simpl; [reflexivity |]. now rewrite Ha, IH.
Qed.

Lemma dict_items_NoDup (d : pydict) : NoDup (fst <$> d) -> dict_items d = d.
Proof.
  induction d as [|[k v] d IH]; intros Hnd; [reflexivity |].
  rewrite fmap_cons, NoDup_cons in Hnd. destruct Hnd as [Hk Hnd].
  simpl. rewrite IH by exact Hnd. f_equal. apply filter_all.
  apply Forall_forall. intros [k' v'] Hin. simpl.
  destruct (String.eqb_spec k' k) as [-> | _]; [| reflexivity].
  destruct Hk. simpl. apply (list_elem_of_fmap_2 fst) in Hin. exact Hin.
Qed.

Lemma ClusterConfig_dict_uncached (c : ClusterConfig) :
  dict (M := ClusterConfig_model os) (ClusterConfig_uncached c)
  = dict (M := ClusterConfig_model os) c.
Proof. now rewrite !ClusterConfig_dict. Qed.

Lemma MongoConfig_dict_uncached (m : MongoConfig) :
  dict (MongoConfig_uncached m) = dict m.
Proof. now rewrite !MongoConfig_dict. Qed.

Lemma as_cluster_items_roundtrip (cl : list (string * ClusterConfig)) :
  as_cluster_items os
    (map (fun kc => (fst kc, PDict (dict (M := ClusterConfig_model os) (snd kc)))) cl)
  = Ok (map (fun kc => (fst kc, ClusterConfig_uncached (snd kc))) cl).
Proof.
  induction cl as [|[k c] cl IH]; [reflexivity |].
  cbn [map as_cluster_items fst snd as_model as_dict]. rewrite IH.
  change (ClusterConfig_init os (dict (M := ClusterConfig_model os) c))
    with (replace (M := ClusterConfig_model os) c []).
  now rewrite ClusterConfig_replace_nil.
Qed.

Lemma complete_cluster_settled (root : option Path) (values : Values)
    (kc : string * ClusterConfig) :
  v_sshconfig values = Some root ->
  cluster_settled root kc ->
  complete_cluster (fst kc) values (ClusterConfig_uncached (snd kc))
  = ClusterConfig_uncached (snd kc).
Proof.
  intros Hroot [Hname Hssh]. destruct kc as [k c]. simpl in *.
  unfold complete_cluster. rewrite Hroot.
  destruct c as [h tz url hf n sb ac sc d1 d2 d3 cs cp]; simpl in *.
  destruct Hname as [-> | ->].
  - destruct sc as [p|]; simpl; [reflexivity |]. now rewrite Hssh.
  - destruct (truthy_str (Some k)); destruct sc as [p|]; simpl; try reflexivity;
      now rewrite Hssh.
Qed.

Lemma complete_clusters_settled (root : option Path) (values : Values)
    (cl : list (string * ClusterConfig)) :
  v_sshconfig values = Some root ->
  Forall (cluster_settled root) cl ->
  complete_clusters (map (fun kc => (fst kc, ClusterConfig_uncached (snd kc))) cl) values
  = map (fun kc => (fst kc, ClusterConfig_uncached (snd kc))) cl.
Proof.
  intros Hroot Hall. rewrite complete_clusters_map.
  induction Hall as [|kc cl Hkc _ IH]; [reflexivity |].
  cbn [map fmap list_fmap fst snd]. f_equal; [| exact IH].
  f_equal. now apply (complete_cluster_settled root).
Qed.


Lemma Config_dict (g : Globals) (cfg : Config) :
  dict (M := Config_model os g) cfg
  = [("mongo", PDict (dict (mongo cfg)));
     ("ldap", PDict (dict (M := LDAPConfig_model g) (ldap cfg)));
     ("account_matching",
      PDict (dict (M := AccountMatchingConfig_model os) (account_matching cfg)));
     ("sshconfig", of_optional_path (root_sshconfig cfg));
     ("cache", of_optional_path (cache cfg));
     ("clusters",
      PDict (map (fun kc => (fst kc, PDict (dict (M := ClusterConfig_model os) (snd kc))))
               (clusters cfg)))].
Proof.
  unfold dict at 1.
  cbn [super_dict Config_model Config_super_dict cached_properties is_cached_property
       existsb negb List.filter map fst snd midnight].
  now destruct (root_sshconfig cfg), (cache cfg).
Qed.

Lemma mongo_roundtrip (m : MongoConfig) :
  as_model MongoConfig_init (PDict (dict m)) = Ok (MongoConfig_uncached m).
Proof. exact (MongoConfig_replace_nil m). Qed.

Lemma ldap_roundtrip (g : Globals) (l : LDAPConfig) :
  LDAPConfig_resolved g l ->
  as_model (LDAPConfig_init g) (PDict (dict (M := LDAPConfig_model g) l)) = Ok l.
Proof. exact (LDAPConfig_replace_nil g l). Qed.

Lemma account_matching_roundtrip (a : AccountMatchingConfig) :
  as_model (AccountMatchingConfig_init os)
    (PDict (dict (M := AccountMatchingConfig_model os) a)) = Ok a.
Proof. exact (AccountMatchingConfig_replace_nil a). Qed.

Lemma clusters_roundtrip (cl : list (string * ClusterConfig)) :
  NoDup (fst <$> cl) ->
  as_clusters os
    (PDict (map (fun kc => (fst kc, PDict (dict (M := ClusterConfig_model os) (snd kc)))) cl))
  = Ok (map (fun kc => (fst kc, ClusterConfig_uncached (snd kc))) cl).
Proof.
  intros Hnd. unfold as_clusters. cbn [as_dict]. rewrite dict_items_NoDup.
  - apply as_cluster_items_roundtrip.
  - change map with (@fmap list _). rewrite <- list_fmap_compose. exact Hnd.
Qed.

Local Opaque dict.

Lemma Config_replace_nil (g : Globals) (cfg : Config) :
  Config_settled os g cfg ->
  replace (M := Config_model os g) cfg [] = Ok (Config_uncached cfg).
Proof.
  intros (Hssh & Hcache & Hldap & Hnd & Hcl).
  unfold replace, dict_merge. rewrite Config_dict.
  cbn [init Config_model app]. unfold Config_init. cbv zeta.
  unfold required, with_default. simpl (dict_get _ _). simpl (forbid_extra _ _).
  cbv beta iota.
  rewrite mongo_roundtrip, (ldap_roundtrip g _ Hldap), account_matching_roundtrip,
    !optional_path_roundtrip, (clusters_roundtrip _ Hnd).
  cbn [bind to_option]. rewrite Hssh, Hcache.
  rewrite (complete_clusters_settled (root_sshconfig cfg)) by (reflexivity || assumption).
  reflexivity.
Qed.


Lemma clusters_dict_uncached (cl : list (string * ClusterConfig)) :
  map (fun kc => (fst kc, PDict (dict (M := ClusterConfig_model os) (snd kc))))
    (map (fun kc => (fst kc, ClusterConfig_uncached (snd kc))) cl)
  = map (fun kc => (fst kc, PDict (dict (M := ClusterConfig_model os) (snd kc)))) cl.
Proof.
  induction cl as [|[k c] cl IH]; [reflexivity |].
  cbn [map fst snd]. now rewrite IH, ClusterConfig_dict_uncached.
Qed.

Lemma Config_dict_uncached (g : Globals) (cfg : Config) :
  dict (M := Config_model os g) (Config_uncached cfg) = dict (M := Config_model os g) cfg.
Proof.
  rewrite !Config_dict. unfold Config_uncached.
  cbn [mongo ldap account_matching root_sshconfig cache clusters].
  now rewrite MongoConfig_dict_uncached, clusters_dict_uncached.
Qed.

Lemma complete_cluster_inherit (root : option Path) (values : Values)
    (kc : string * ClusterConfig) :
  v_sshconfig values = Some root ->
  truthy_str (name (snd kc)) = true \/ name (snd kc) = Some (fst kc) ->
  complete_cluster (fst kc) values (ClusterConfig_uncached (snd kc))
  = inherit_sshconfig root (ClusterConfig_uncached (snd kc)).
Proof.
  intros Hroot Hname. destruct kc as [k c]. simpl in *.
  unfold complete_cluster, inherit_sshconfig. rewrite Hroot.
  destruct c as [h tz url hf n sb ac sc d1 d2 d3 cs cp]; simpl in *.
  destruct Hname as [-> | ->].
  - now destruct sc.
  - destruct (truthy_str (Some k)); now destruct sc.
Qed.

Lemma complete_clusters_inherit (root root0 : option Path) (values : Values)
    (cl : list (string * ClusterConfig)) :
  v_sshconfig values = Some root ->
  Forall (cluster_settled root0) cl ->
  complete_clusters (map (fun kc => (fst kc, ClusterConfig_uncached (snd kc))) cl) values
  = map (fun kc => (fst kc, inherit_sshconfig root (ClusterConfig_uncached (snd kc)))) cl.
Proof.
  intros Hroot Hall. rewrite complete_clusters_map.
  induction Hall as [|kc cl [Hkc _] _ IH]; [reflexivity |].
  cbn [map fmap list_fmap fst snd]. f_equal; [| exact IH].
  f_equal. now apply (complete_cluster_inherit root).
Qed.

Ltac config_lookups H g Hldap Hnd Hssh Hcache :=
  unfold required, with_default in H; simpl (dict_get _ _) in H;
  simpl (forbid_extra _ _) in H; cbv beta iota in H;
  rewrite ?mongo_roundtrip, ?(ldap_roundtrip g _ Hldap), ?account_matching_roundtrip,
    ?optional_path_roundtrip, ?(clusters_roundtrip _ Hnd) in H;
  cbn [bind to_option] in H; rewrite ?Hssh, ?Hcache in H.

Ltac config_agree :=
  cbn [mongo ldap account_matching root_sshconfig cache clusters];
  rewrite ?MongoConfig_dict_uncached, ?clusters_dict_uncached;
  agree_fields.

Lemma Config_replace_one (g : Globals) (cfg r : Config) (x : string) (v : pyval) :
  Config_settled os g cfg ->
  replace (M := Config_model os g) cfg [(x, v)] = Ok r ->
  (x <> "sshconfig" ->
   forall k, k <> x ->
   dict_get k (dict (M := Config_model os g) r)
   = dict_get k (dict (M := Config_model os g) cfg))
  /\ (x = "sshconfig" ->
      (forall k, k <> "sshconfig" /\ k <> "clusters" ->
       dict_get k (dict (M := Config_model os g) r)
       = dict_get k (dict (M := Config_model os g) cfg))
      /\ clusters r
         = map (fun kc => (fst kc, inherit_sshconfig (root_sshconfig r)
                                     (ClusterConfig_uncached (snd kc))))
             (clusters cfg)).
Proof.
  intros (Hssh & Hcache & Hldap & Hnd & Hcl).
  unfold replace, dict_merge. rewrite !Config_dict.
  cbn [init Config_model app]. unfold Config_init. cbv zeta. intros Hinit.
  destruct (existsb (String.eqb x) Config_fields) eqn:Hx.
  - apply existsb_exists in Hx as [f [Hf Heq]]. apply String.eqb_eq in Heq. subst x.
    simpl in Hf.
    destruct Hf as [<- | [<- | [<- | [<- | [<- | [<- | []]]]]]];
      config_lookups Hinit g Hldap Hnd Hssh Hcache;
      apply bind_Ok in Hinit as [[f1 [f2 [f3 [f4 [f5 [f6 u]]]]]] [Hb [= <-]]];
      both_inv Hb.
    all: split; [intros Hx | intros Hx; try discriminate Hx].
    all: try (rewrite ?(complete_clusters_settled (root_sshconfig cfg))
                by (reflexivity || assumption);
              apply (dict_get_agree (fun k => k <> _)); config_agree).
    rewrite Hf. cbn [to_option].
    rewrite (complete_clusters_inherit f4 (root_sshconfig cfg))
      by (reflexivity || assumption).
    split; [| reflexivity].
    apply (dict_get_agree (fun k => k <> "sshconfig" /\ k <> "clusters")).
    cbn [mongo ldap account_matching root_sshconfig cache clusters].
    rewrite ?MongoConfig_dict_uncached.
    repeat (constructor;
            [split; [reflexivity | intros [Hn1 Hn2]; try reflexivity;
                                   try (now destruct Hn1); now destruct Hn2] |]);
    constructor.
  - apply bind_Ok in Hinit as [[f1 [f2 [f3 [f4 [f5 [f6 u]]]]]] [Hb _]].
    do 6 (apply both_Ok in Hb as [_ Hb]).
    unfold forbid_extra in Hb. cbn [dict_keys map fst forallb] in Hb.
    rewrite Hx in Hb. discriminate Hb.
Qed.

Local Transparent dict.

End Proofs.

(** * Rebuilding a record *)

Section Rebuild.

Variable os : Host.

Local Open Scope list_scope.

Ltac fields_inv H :=
  repeat (let H1 := fresh "Hf" in
          apply both_Ok in H as [H1 H]; cbn [fst snd] in H1, H).

Ltac same_field Heq :=
  repeat (constructor;
          [cbn; split; [reflexivity |
                   intros <-;
                   unfold required, with_default in *; rewrite Heq in *; congruence] |]);
  constructor.

(** A field of a constructed record depends on what the keywords give
    for that field only. *)
Lemma MongoConfig_init_local (kw1 kw2 : pydict) (r1 r2 : MongoConfig) (x : string) :
  MongoConfig_init kw1 = Ok r1 ->
  MongoConfig_init kw2 = Ok r2 ->
  dict_get x kw1 = dict_get x kw2 ->
  dict_get x (dict r1) = dict_get x (dict r2).
Proof.
  unfold MongoConfig_init. intros H1 H2 Heq. rewrite !MongoConfig_dict.
  apply bind_Ok in H1 as [[a1 [a2 u]] [Hb1 [= <-]]].
  apply bind_Ok in H2 as [[b1 [b2 v]] [Hb2 [= <-]]].
  fields_inv Hb1. fields_inv Hb2.
  apply (dict_get_agree (fun k => k = x)); [| reflexivity].
  same_field Heq.
Qed.

Lemma ClusterConfig_init_local (kw1 kw2 : pydict) (r1 r2 : ClusterConfig) (x : string) :
  ClusterConfig_init os kw1 = Ok r1 ->
  ClusterConfig_init os kw2 = Ok r2 ->
  dict_get x kw1 = dict_get x kw2 ->
  dict_get x (dict (M := ClusterConfig_model os) r1)
  = dict_get x (dict (M := ClusterConfig_model os) r2).
Proof.
  unfold ClusterConfig_init. intros H1 H2 Heq. rewrite !ClusterConfig_dict.
  apply bind_Ok in H1
    as [[a1 [a2 [a3 [a4 [a5 [a6 [a7 [a8 [a9 [a10 [a11 u]]]]]]]]]]] [Hb1 [= <-]]].
  apply bind_Ok in H2
    as [[b1 [b2 [b3 [b4 [b5 [b6 [b7 [b8 [b9 [b10 [b11 v]]]]]]]]]]] [Hb2 [= <-]]].
  fields_inv Hb1. fields_inv Hb2.
  apply (dict_get_agree (fun k => k = x)); [| reflexivity].
  same_field Heq.
Qed.

Lemma AccountMatchingConfig_init_local (kw1 kw2 : pydict)
    (r1 r2 : AccountMatchingConfig) (x : string) :
  AccountMatchingConfig_init os kw1 = Ok r1 ->
  AccountMatchingConfig_init os kw2 = Ok r2 ->
  dict_get x kw1 = dict_get x kw2 ->
  dict_get x (dict (M := AccountMatchingConfig_model os) r1)
  = dict_get x (dict (M := AccountMatchingConfig_model os) r2).
Proof.
  unfold AccountMatchingConfig_init. intros H1 H2 Heq. rewrite !AccountMatchingConfig_dict.
  apply bind_Ok in H1 as [[a1 [a2 [a3 u]]] [Hb1 [= <-]]].
  apply bind_Ok in H2 as [[b1 [b2 [b3 v]]] [Hb2 [= <-]]].
  fields_inv Hb1. fields_inv Hb2.
  apply (dict_get_agree (fun k => k = x)); [| reflexivity].
  same_field Heq.
Qed.

Lemma LDAPConfig_init_local (g : Globals) (kw1 kw2 : pydict) (r1 r2 : LDAPConfig)
    (x : string) :
  LDAPConfig_init g kw1 = Ok r1 ->
  LDAPConfig_init g kw2 = Ok r2 ->
  dict_get x kw1 = dict_get x kw2 ->
  dict_get x (dict (M := LDAPConfig_model g) r1)
  = dict_get x (dict (M := LDAPConfig_model g) r2).
Proof.
  unfold LDAPConfig_init. intros H1 H2 Heq. rewrite !LDAPConfig_dict.
  apply bind_Ok in H1 as [[a1 [a2 [a3 [a4 [a5 [a6 u]]]]]] [Hb1 [= <-]]].
  apply bind_Ok in H2 as [[b1 [b2 [b3 [b4 [b5 [b6 v]]]]]] [Hb2 [= <-]]].
  fields_inv Hb1. fields_inv Hb2.
  apply (dict_get_agree (fun k => k = x)); [| reflexivity].
  same_field Heq.
Qed.


(** In a store, the validator leaves the objects that were there and puts
    the defaulted objects of the new mapping after them. *)
Lemma complete_clusters_in_eq (h : Heap) (value : list (string * ClusterConfig))
    (values : Values) :
  complete_clusters_in h value values
  = (complete_clusters value values,
     h ++ (snd <$> complete_clusters value values)).
Proof.
  unfold complete_clusters_in, _complete_cluster_fields.
  rewrite complete_loop_fresh, complete_clusters_map.
  rewrite (read_back_fresh value
             (fun kv => complete_cluster (fst kv) values (snd kv)) h).
  f_equal. f_equal. now rewrite <- list_fmap_compose.
Qed.

(** Construction in a store builds the record that [Config_init] builds,
    and extends the store. *)
Lemma Config_init_in_eq (g : Globals) (h : Heap) (kw : pydict) :
  fst (Config_init_in os g h kw) = Config_init os g kw
  /\ exists new, snd (Config_init_in os g h kw) = h ++ new.
Proof.
  unfold Config_init_in, Config_init. cbv zeta.
  destruct (required (as_clusters os) "clusters" kw) as [value|e].
  - rewrite complete_clusters_in_eq. cbn [fst snd bind]. split; [reflexivity | eauto].
  - cbn [fst snd bind]. split; [reflexivity |]. exists []. now rewrite app_nil_r.
Qed.

(** The objects that a successful construction adds to the store are the
    cluster objects of the record built. *)
Lemma Config_init_in_store (g : Globals) (h : Heap) (kw : pydict) (r : Config) :
  Config_init os g kw = Ok r ->
  snd (Config_init_in os g h kw) = h ++ (snd <$> clusters r).
Proof.
  unfold Config_init_in, Config_init. cbv zeta. intros Hinit.
  apply bind_Ok in Hinit as [[a1 [a2 [a3 [a4 [a5 [a6 u]]]]]] [Hb [= <-]]].
  fields_inv Hb. cbn [clusters].
  destruct (required (as_clusters os) "clusters" kw) as [value|e]; [| discriminate].
  rewrite complete_clusters_in_eq. cbn [snd]. cbn [bind] in Hf4.
  now injection Hf4 as <-.
Qed.

(** Of the values validated so far, the validator reads [sshconfig]
    only. *)
Lemma complete_clusters_ext (value : list (string * ClusterConfig))
    (values1 values2 : Values) :
  v_sshconfig values1 = v_sshconfig values2 ->
  complete_clusters value values1 = complete_clusters value values2.
Proof.
  intros Heq. rewrite !complete_clusters_map.
  apply list_fmap_ext. intros i [k c] _. cbn [fst snd]. f_equal.
  unfold complete_cluster. now rewrite Heq.
Qed.

(** For [clusters] of a [Config], the field depends on what is given for
    [sshconfig] as well. *)
Lemma Config_init_local (g : Globals) (kw1 kw2 : pydict) (r1 r2 : Config) (x : string) :
  Config_init os g kw1 = Ok r1 ->
  Config_init os g kw2 = Ok r2 ->
  dict_get x kw1 = dict_get x kw2 ->
  (x = "clusters" -> dict_get "sshconfig" kw1 = dict_get "sshconfig" kw2) ->
  dict_get x (dict (M := Config_model os g) r1)
  = dict_get x (dict (M := Config_model os g) r2).
Proof.
  unfold Config_init. cbv zeta. intros H1 H2 Heq Hssh. rewrite !Config_dict.
  apply bind_Ok in H1 as [[a1 [a2 [a3 [a4 [a5 [a6 u]]]]]] [Hb1 [= <-]]].
  apply bind_Ok in H2 as [[b1 [b2 [b3 [b4 [b5 [b6 v]]]]]] [Hb2 [= <-]]].
  fields_inv Hb1. fields_inv Hb2.
  apply (dict_get_agree (fun k => k = x)); [| reflexivity].
  do 5 (constructor;
          [cbn; split; [reflexivity |
                   intros <-;
                   unfold required, with_default in *; rewrite Heq in *; congruence] |]).
  constructor; [| constructor].
  cbn. split; [reflexivity |]. intros <-.
  specialize (Hssh eq_refl).
  apply bind_Ok in Hf4 as [value1 [Hv1 [= <-]]].
  apply bind_Ok in Hf10 as [value2 [Hv2 [= <-]]].
  unfold required in Hv1, Hv2. rewrite Heq in Hv1. rewrite Hv1 in Hv2.
  injection Hv2 as <-. do 2 f_equal.
  apply complete_clusters_ext. cbn [v_sshconfig]. unfold with_default.
  now rewrite Hssh.
Qed.


Lemma dict_get_replaced (d : pydict) (x : string) (v : pyval) :
  dict_get x (dict_merge d [(x, v)]) = Some v.
Proof. unfold dict_merge. cbn [app dict_get]. now rewrite String.eqb_refl. Qed.


End Rebuild.

(** * The statements on the sample deployment *)

(** C1. [using_config] does not restore the current configuration when the
    body of the scope raises: whatever was current on entry, a scope on an
    already built configuration whose body fails ends with the override
    still current; entered with no current configuration on the sample
    deployment, it leaves the sample configuration current. *)
Theorem using_config_keeps_override_on_exception :
  (forall (os : Host) (c : Config) (g : Globals) (e : exn),
     with_statement (using_config os (FromConfig c))
       (fun _ g' => (Raised (R := unit) e, g')) g
     = (Raised e, set_config_var (Some c) g))
  /\ with_statement (using_config Sample.os (FromConfig Sample.cfg))
       Sample.failing_body Sample.g0
     = (Raised (OSError "/dev/full"), set_config_var (Some Sample.cfg) Sample.g0)
  /\ config_var
       (snd (with_statement (using_config Sample.os (FromConfig Sample.cfg))
               Sample.failing_body Sample.g0))
     = Some Sample.cfg
  /\ config_var Sample.g0 = None.
Proof.
  split.
  - intros os c g e. unfold with_statement, using_config, cm_before.
    unfold ContextVar_set. reflexivity.
  - split.
    + unfold Sample.failing_body. reflexivity.
    + split; reflexivity.
Qed.

(** The same scope left without an exception restores the entry value. *)
Example using_config_completed :
  with_statement (using_config Sample.os (FromConfig Sample.cfg))
    (fun _ g => (Completed (R := unit), g)) Sample.g0
  = (Completed, Sample.g0).
Proof. reflexivity. Qed.

(** C2 as stated fails: an entry given with the empty name does not keep it. *)
Lemma Config_init_renames_empty_name :
  exists cfg c0 c,
    Config_init Sample.os Sample.g1 Sample.blank_kw = Ok cfg
    /\ as_model (ClusterConfig_init Sample.os) Sample.blank_json = Ok c0
    /\ name c0 = Some ""
    /\ clusters cfg = [("alpha", c)]
    /\ name c = Some "alpha".
Proof.
  eexists _, _, _. split; [vm_compute; reflexivity |].
  split; [vm_compute; reflexivity |]. repeat split.
Qed.

Lemma Config_init_completes_clusters_witness :
  Config_init Sample.os Sample.g1 Sample.blank_kw
  = Ok {| mongo := Sample.mongo0; ldap := Sample.ldap0;
          account_matching := Sample.matching0;
          root_sshconfig := None; cache := None;
          clusters := [("alpha", set_name (Some "alpha") Sample.alpha)] |}
  /\ dict_get "clusters" Sample.blank_kw = Some (PDict [("alpha", Sample.blank_json)])
  /\ Forall2
       (fun kv kc =>
          fst kc = fst kv
          /\ exists c,
              as_model (ClusterConfig_init Sample.os) (snd kv) = Ok c
              /\ name (snd kc) = (if truthy_str (name c) then name c else Some (fst kv))
              /\ sshconfig (snd kc)
                 = (if truthy_path (sshconfig c) then sshconfig c else None)
              /\ snd kc = set_sshconfig (sshconfig (snd kc)) (set_name (name (snd kc)) c))
       (dict_items [("alpha", Sample.blank_json)])
       [("alpha", set_name (Some "alpha") Sample.alpha)].
Proof.
  assert (Hinit : Config_init Sample.os Sample.g1 Sample.blank_kw
                  = Ok {| mongo := Sample.mongo0; ldap := Sample.ldap0;
                          account_matching := Sample.matching0;
                          root_sshconfig := None; cache := None;
                          clusters := [("alpha", set_name (Some "alpha") Sample.alpha)] |})
    by (vm_compute; reflexivity).
  assert (Hd : dict_get "clusters" Sample.blank_kw
               = Some (PDict [("alpha", Sample.blank_json)])) by reflexivity.
  split; [exact Hinit | split; [exact Hd |]].
  exact (Config_init_completes_clusters Sample.os Sample.g1 Sample.blank_kw _ _ Hinit Hd).
Defined.

(** C3 as stated fails: an existing file whose bytes are no UTF-8 text
    cannot be read as JSON either, and loading it fails with the
    [UnicodeDecodeError] of the loader, not with a [ConfigurationError]. *)
Lemma parse_config_undecodable_file :
  Path_exists Sample.os (Path_of Sample.os (AsStr "/etc/sarc/latin1.json")) = Ok true
  /\ is_Ok (load_file Sample.os (Path_of Sample.os (AsStr "/etc/sarc/latin1.json")))
     = false
  /\ fst (parse_config Sample.os (AsStr "/etc/sarc/latin1.json") Sample.g0)
     = Raise UnicodeDecodeError
  /\ forall msg,
       fst (parse_config Sample.os (AsStr "/etc/sarc/latin1.json") Sample.g0)
       <> Raise (ConfigurationError msg).
Proof. repeat split. intros msg. vm_compute. discriminate. Qed.

Lemma parse_config_malformed_witness :
  Path_exists Sample.os (Path_of Sample.os (AsStr "/etc/sarc/broken.json")) = Ok true
  /\ load_file Sample.os (Path_of Sample.os (AsStr "/etc/sarc/broken.json"))
     = Raise JSONDecodeError
  /\ fst (parse_config Sample.os (AsStr "/etc/sarc/broken.json") Sample.g0)
     = Raise (ConfigurationError "'/etc/sarc/broken.json' contains malformed JSON")
  /\ Path_exists Sample.os (Path_of Sample.os (AsStr "/etc/sarc/latin1.json")) = Ok true
  /\ load_file Sample.os (Path_of Sample.os (AsStr "/etc/sarc/latin1.json"))
     = Raise UnicodeDecodeError
  /\ fst (parse_config Sample.os (AsStr "/etc/sarc/latin1.json") Sample.g0)
     = Raise UnicodeDecodeError.
Proof.
  assert (Hne : UnicodeDecodeError <> JSONDecodeError) by discriminate.
  split; [reflexivity | split; [reflexivity | split]].
  - exact (proj1 (parse_config_malformed Sample.os (AsStr "/etc/sarc/broken.json")
                    Sample.g0 eq_refl) eq_refl).
  - split; [reflexivity | split; [reflexivity |]].
    exact (proj1 (proj2 (parse_config_malformed Sample.os
                           (AsStr "/etc/sarc/latin1.json") Sample.g0 eq_refl))
             UnicodeDecodeError eq_refl Hne).
Defined.

(** C4 as stated fails: without a URL, a headers file that cannot be read
    makes the accessor fail with the error of the read. *)
Lemma prometheus_reads_headers_first :
  prometheus_url Sample.headless = None
  /\ prometheus Sample.os Sample.headless Sample.w0
     = (Raise (OSError "/etc/sarc/missing.json"), Sample.headless, Sample.w0).
Proof. split; reflexivity. Qed.

Lemma prometheus_without_url_witness :
  prometheus_url Sample.alpha = None
  /\ cached_prometheus Sample.alpha = None
  /\ prometheus Sample.os Sample.alpha Sample.w0
     = (Raise (ConfigurationError "No prometheus URL provided for cluster 'None'"),
        Sample.alpha, Sample.w0)
  /\ prometheus Sample.os (set_prometheus_url (Some "http://prom:9090") Sample.alpha)
       Sample.w0
     = (Ok {| oid := 0; made := PrometheusConnect "http://prom:9090" (PDict []) |},
        set_cached_prometheus
          {| oid := 0; made := PrometheusConnect "http://prom:9090" (PDict []) |}
          (set_prometheus_url (Some "http://prom:9090") Sample.alpha),
        {| next_oid := 1 |}).
Proof.
  pose proof (prometheus_without_url Sample.os Sample.alpha Sample.w0 (PDict [])
                eq_refl eq_refl eq_refl) as (Hfail & _ & Hretry).
  split; [reflexivity | split; [reflexivity | split]].
  - exact Hfail.
  - exact (Hretry "http://prom:9090").
Defined.

Lemma lazy_handles_cached_witness :
  (let h := {| oid := 0;
               made := Connection "login.cluster"
                         {| ssh_config := None; run_pty := true;
                            run_in_stream := false |} |} in
   ssh Sample.os Sample.alpha Sample.w0
   = (Ok h, set_cached_ssh h Sample.alpha, {| next_oid := 1 |})
   /\ forall c2 w2,
        cached_ssh c2 = cached_ssh (set_cached_ssh h Sample.alpha) ->
        ssh Sample.os c2 w2 = (Ok h, c2, w2))
  /\ (let c := set_prometheus_url (Some "http://prom:9090") Sample.alpha in
      let h := {| oid := 0; made := PrometheusConnect "http://prom:9090" (PDict []) |} in
      prometheus Sample.os c Sample.w0
      = (Ok h, set_cached_prometheus h c, {| next_oid := 1 |})
      /\ forall c2 w2,
           cached_prometheus c2 = cached_prometheus (set_cached_prometheus h c) ->
           prometheus Sample.os c2 w2 = (Ok h, c2, w2))
  /\ (let h := {| oid := 1;
                  made := Database "mongodb://localhost:27017" "sarc" |} in
      database_instance Sample.os Sample.mongo0 Sample.w0
      = (Ok h, set_cached_database_instance h Sample.mongo0, {| next_oid := 2 |})
      /\ forall m2 w2,
           cached_database_instance m2
           = cached_database_instance (set_cached_database_instance h Sample.mongo0) ->
           database_instance Sample.os m2 w2 = (Ok h, m2, w2)).
Proof.
  destruct (lazy_handles_cached Sample.os)
    as (Hssh1 & Hssh & Hprom1 & Hprom & Hdb1 & Hdb).
  assert (Hread : forall p, sshconfig Sample.alpha = Some p ->
                            ssh_config_readable Sample.os p = true)
    by (intros p Hp; discriminate Hp).
  pose proof (Hssh1 Sample.alpha Sample.w0 eq_refl Hread eq_refl) as Hs.
  pose proof (Hprom1 (set_prometheus_url (Some "http://prom:9090") Sample.alpha)
                Sample.w0 "http://prom:9090" (PDict []) eq_refl eq_refl eq_refl) as Hp.
  pose proof (Hdb1 Sample.mongo0 Sample.w0 eq_refl eq_refl eq_refl) as Hd.
  cbv zeta in Hs, Hp, Hd. cbv zeta.
  split; [| split].
  - split; [exact Hs |]. exact (proj2 (proj2 (Hssh _ _ _ _ _ Hs))).
  - split; [exact Hp |]. exact (proj2 (proj2 (Hprom _ _ _ _ _ Hp))).
  - split; [exact Hd |]. exact (proj2 (proj2 (Hdb _ _ _ _ _ Hd))).
Defined.



Lemma relative_filepath_resolves_witness :
  _config_folder Sample.g1 = _config_folder (set_config_var None Sample.g1)
  /\ contains "$SELF" "secrets/ldap.key" = false
  /\ relative_filepath Sample.g1 (Some "secrets/ldap.key") = Some "secrets/ldap.key"
  /\ contains "$SELF" "$SELF/group_to_prof.json" = true
  /\ relative_filepath Sample.g1 (Some "$SELF/group_to_prof.json")
     = Some "/etc/sarc/group_to_prof.json"
  /\ relative_filepath (set_config_var None Sample.g1) (Some "$SELF/group_to_prof.json")
     = relative_filepath Sample.g1 (Some "$SELF/group_to_prof.json").
Proof.
  pose proof (relative_filepath_resolves Sample.g1 (set_config_var None Sample.g1)
                "secrets/ldap.key" eq_refl) as (_ & Hplain & _).
  pose proof (relative_filepath_resolves Sample.g1 (set_config_var None Sample.g1)
                "$SELF/group_to_prof.json" eq_refl) as (_ & _ & Hsentinel).
  split; [reflexivity | split; [reflexivity | split]].
  - exact (proj1 (Hplain eq_refl)).
  - split; [reflexivity | split].
    + exact (proj1 (Hsentinel eq_refl)).
    + exact (proj2 (Hsentinel eq_refl)).
Defined.

(** C8 as stated fails: a name too long for the file system names no
    existing file, and neither does the directory [/etc/sarc]; loading the
    first fails with the [OSError] of [exists()], loading the second with
    the [OSError] of the read, and neither with a [ConfigurationError]. *)
Lemma parse_config_missing_other_errors :
  Path_exists Sample.os (Path_of Sample.os (AsStr ("/etc/sarc/" ++ Sample.long_name)))
  = Raise (OSError ("/etc/sarc/" ++ Sample.long_name))
  /\ fst (parse_config Sample.os (AsStr ("/etc/sarc/" ++ Sample.long_name)) Sample.g0)
     = Raise (OSError ("/etc/sarc/" ++ Sample.long_name))
  /\ Path_exists Sample.os (Path_of Sample.os (AsStr "/etc/sarc")) = Ok true
  /\ load_file Sample.os (Path_of Sample.os (AsStr "/etc/sarc"))
     = Raise (OSError "/etc/sarc")
  /\ fst (parse_config Sample.os (AsStr "/etc/sarc") Sample.g0)
     = Raise (OSError "/etc/sarc").
Proof. repeat split; vm_compute; reflexivity. Qed.

Lemma parse_config_missing_witness :
  Path_exists Sample.os (Path_of Sample.os (AsStr "/does/not/exist.json")) = Ok false
  /\ fst (parse_config Sample.os (AsStr "/does/not/exist.json") Sample.g0)
     = Raise (ConfigurationError
         "Cannot read SARC configuration file: '/does/not/exist.json' Use the $SARC_CONFIG environment variable to choose the config file.")
  /\ fst (parse_config Sample.os (AsStr ("/etc/sarc/" ++ Sample.long_name)) Sample.g0)
     = Raise (OSError (path_str (Path_of Sample.os
                                   (AsStr ("/etc/sarc/" ++ Sample.long_name))))).
Proof.
  assert (Hlong : Path_exists Sample.os
                    (Path_of Sample.os (AsStr ("/etc/sarc/" ++ Sample.long_name)))
                  = Raise (OSError (path_str (Path_of Sample.os
                               (AsStr ("/etc/sarc/" ++ Sample.long_name))))))
    by (vm_compute; reflexivity).
  split; [reflexivity | split].
  - exact (proj1 (parse_config_missing Sample.os (AsStr "/does/not/exist.json")
                    Sample.g0) eq_refl).
  - exact (proj1 (proj2 (parse_config_missing Sample.os
                           (AsStr ("/etc/sarc/" ++ Sample.long_name)) Sample.g0))
             _ Hlong).
Defined.

Lemma parse_config_overwrites_folder_witness :
  is_Ok (fst (parse_config Sample.os (AsStr "/etc/sarc/config.json") Sample.g0)) = true
  /\ fst (parse_config Sample.os (AsStr "/etc/sarc/config.json") Sample.g0)
     = Config_parse_file Sample.os
         (set_config_folder (Some "/etc/sarc") Sample.g0)
         (Path_of Sample.os (AsStr "/etc/sarc/config.json"))
  /\ _config_folder
       (snd (parse_config Sample.os (AsStr "/does/not/exist.json") Sample.g1))
     = Some "/does/not".
Proof.
  split; [reflexivity | split].
  - exact (proj1 (proj2 (proj2
      (parse_config_overwrites_folder Sample.os (AsStr "/etc/sarc/config.json")
         Sample.g0))) eq_refl).
  - exact (proj1 (proj2
      (parse_config_overwrites_folder Sample.os (AsStr "/does/not/exist.json")
         Sample.g1))).
Defined.

Lemma complete_cluster_fields_falsy_name_witness :
  NoDup (snd <$> [("alpha", 0)])
  /\ ("alpha", 0) ∈ [("alpha", 0)]
  /\ [Sample.blank] !! 0 = Some Sample.blank
  /\ name Sample.blank = Some ""
  /\ let (value', h') :=
       _complete_cluster_fields [("alpha", 0)]
         {| v_mongo := None; v_ldap := None; v_account_matching := None;
            v_sshconfig := Some None; v_cache := Some None |}
         [Sample.blank] in
     value' = [("alpha", 0)]
     /\ length h' = length [Sample.blank]
     /\ (exists c', h' !! 0 = Some c' /\ name c' = Some "alpha")
     /\ h' = snd (_complete_cluster_fields [("alpha", 0)]
                    {| v_mongo := None; v_ldap := None; v_account_matching := None;
                       v_sshconfig := Some None; v_cache := Some None |}
                    (<[0 := set_name None Sample.blank]> [Sample.blank])).
Proof.
  assert (Hnd : NoDup (snd <$> [("alpha", 0)])) by apply NoDup_singleton.
  assert (Hin : ("alpha", 0) ∈ [("alpha", 0)]) by apply list_elem_of_here.
  split; [exact Hnd | split; [exact Hin | split; [reflexivity | split; [reflexivity |]]]].
  exact (complete_cluster_fields_falsy_name [("alpha", 0)]
           {| v_mongo := None; v_ldap := None; v_account_matching := None;
              v_sshconfig := Some None; v_cache := Some None |}
           [Sample.blank] "alpha" 0 Sample.blank Hnd Hin eq_refl eq_refl).
Defined.

(** * Further properties of the module *)

Section Further.

Variable os : Host.

(** ** Path resolver and [dict] *)

Lemma replace_scan_skip (old new t s : string) :
  replace_scan old new (String.length t) (t ++ s) = replace_scan old new 0 s.
Proof.
  induction t as [|c t IH]; [reflexivity |].
  change (String c t ++ s) with (String c (t ++ s)). cbn [String.length replace_scan].
  exact IH.
Qed.

Lemma str_replace_head (old new s : string) :
  old <> "" -> str_replace (old ++ s) old new = new ++ str_replace s old new.
Proof.
  destruct old as [|a t]; [congruence |]. intros _. unfold str_replace.
  change (String a t ++ s) with (String a (t ++ s)). cbn [replace_scan].
  change (String a (t ++ s)) with (String a t ++ s). rewrite prefix_append.
  replace (String.length (String a t) - 1) with (String.length t)
    by (cbn [String.length]; lia).
  now rewrite replace_scan_skip.
Qed.

Lemma relative_filepath_replace (g : Globals) (path : string) :
  relative_filepath g (Some path)
  = Some (str_replace path "$SELF" (str_of_optional (_config_folder g))).
Proof.
  unfold relative_filepath. destruct (contains "$SELF" path) eqn:Hs; [reflexivity |].
  now rewrite str_replace_absent.
Qed.

(** X9. The membership test of the resolver changes no result: for every
    path, null or not, with or without the sentinel, the resolver returns
    the path with every [$SELF] replaced by the current directory. *)
Theorem relative_filepath_always_replaces (g : Globals) (path : option string) :
  relative_filepath g path
  = (fun p => str_replace p "$SELF" (str_of_optional (_config_folder g))) <$> path.
Proof. destruct path as [p|]; [apply relative_filepath_replace | reflexivity]. Qed.

(** X10. A path that starts with the sentinel and holds no other resolves
    to the current directory followed by the rest of the path. *)
Theorem relative_filepath_leading_sentinel (g : Globals) (rest : string) :
  contains "$SELF" rest = false ->
  relative_filepath g (Some ("$SELF" ++ rest))
  = Some (str_of_optional (_config_folder g) ++ rest).
Proof.
  intros Hrest. rewrite relative_filepath_replace.
  rewrite str_replace_head by discriminate. now rewrite str_replace_absent.
Qed.

Lemma dict_get_filter (p : string -> bool) (d : pydict) (k : string) :
  dict_get k (List.filter (fun kv => p (fst kv)) d)
  = if p k then dict_get k d else None.
Proof.
  induction d as [|[k' v] d IH]; [now destruct (p k) |].
  cbn [List.filter fst]. destruct (p k') eqn:Hk'; cbn [dict_get].
  - destruct (String.eqb_spec k k') as [-> | Hne]; [now rewrite Hk' | exact IH].
  - destruct (String.eqb_spec k k') as [-> | Hne]; [now rewrite IH, Hk' | exact IH].
Qed.

Lemma dict_get_map (f : pyval -> pyval) (d : pydict) (k : string) :
  dict_get k (map (fun kv => (fst kv, f (snd kv))) d) = f <$> dict_get k d.
Proof.
  induction d as [|[k' v] d IH]; [reflexivity |].
  cbn [map dict_get fst snd]. now destruct (String.eqb k k').
Qed.

(** X11. For every record class, [dict()] reads like pydantic's mapping
    with the cached properties of the class removed and every plain date
    lifted to its midnight: no key of a cached property is present, and no
    value is a plain date. *)
Theorem dict_drops_cached_and_lifts_dates {T} (M : BaseModel T) (self : T) (k : string) :
  dict_get k (dict self)
  = (if is_cached_property (T := T) k then None
     else midnight <$> dict_get k (super_dict self))
  /\ forall y m d, dict_get k (dict self) <> Some (PDate y m d).
Proof.
  assert (Hget : dict_get k (dict self)
    = if is_cached_property (T := T) k then None
      else midnight <$> dict_get k (super_dict self)).
  { unfold dict. rewrite dict_get_map.
    rewrite (dict_get_filter (fun k => negb (is_cached_property (T := T) k))).
    now destruct (is_cached_property k). }
  split; [exact Hget |]. intros y m d. rewrite Hget.
  destruct (is_cached_property k); [discriminate |].
  destruct (dict_get k (super_dict self)) as [[]|]; discriminate.
Qed.

(** X27. Whatever [strptime] does, a value that [validate_date] accepts
    comes back unchanged when validated again, is never a [datetime], and
    a [datetime], in particular the midnight that [dict()] makes of a
    date, comes back as its date. *)
Theorem validate_date_normalises (strptime : string -> string -> option Datetime)
    (value r : pyval) :
  validate_date strptime value = Some r ->
  validate_date strptime r = Some r
  /\ (forall y m d h mi s, r <> PDatetime y m d h mi s)
  /\ (forall y m d h mi s, value = PDatetime y m d h mi s -> r = PDate y m d)
  /\ (forall y m d, value = midnight (PDate y m d) -> r = PDate y m d).
Proof.
  intros Hv. repeat split.
  - destruct value; simpl in Hv; try (injection Hv as <-; reflexivity).
    destruct (contains "T" s).
    + destruct (strptime s _); simpl in Hv; [injection Hv as <-; reflexivity | discriminate].
    + destruct (strptime s _); simpl in Hv; [injection Hv as <-; reflexivity | discriminate].
  - intros y m d h mi s ->. destruct value; simpl in Hv; try discriminate.
    destruct (contains "T" s0); destruct (strptime s0 _); simpl in Hv; discriminate.
  - intros y m d h mi s ->. simpl in Hv. congruence.
  - intros y m d ->. simpl in Hv. congruence.
Qed.

(** ** Handles of one instance *)

Lemma ssh_keeps_consistent (c c' : ClusterConfig) (w w' : World) (r : result Handle) :
  ssh os c w = (r, c', w') ->
  handles_consistent os c w ->
  handles_consistent os c' w'
  /\ ClusterConfig_uncached c' = ClusterConfig_uncached c
  /\ next_oid w <= next_oid w'.
Proof.
  unfold ssh, cached_property, ssh_method. intros Hcall Hcons.
  pose proof Hcons as (Hs & Hp & Hd).
  destruct (cached_ssh c) as [h0|] eqn:Hc.
  { injection Hcall as <- <- <-. auto. }
  assert (Hfresh :
    handles_consistent os
      (set_cached_ssh {| oid := next_oid w;
                         made := Connection (host c)
                                   {| ssh_config := sshconfig c; run_pty := true;
                                      run_in_stream := false |} |} c)
      {| next_oid := S (next_oid w) |}).
  { split; [| split].
    - intros h [= <-]. simpl. split; [lia | reflexivity].
    - intros h Hh. simpl in Hh. destruct (Hp h Hh) as [Hlt Hm]. simpl. split; [lia |].
      exact Hm.
    - intros h1 h2 [= <-] Hh2. simpl in Hh2. destruct (Hp h2 Hh2) as [Hlt _].
      simpl. lia. }
  destruct (sshconfig c) as [p|] eqn:Hsc.
  - destruct (ssh_config_readable os p); [| injection Hcall as <- <- <-; auto].
    destruct (Connection_rejects os (host c)); simpl in Hcall;
      injection Hcall as <- <- <-; [auto |].
    split; [exact Hfresh | split; [now destruct c | simpl; lia]].
  - destruct (Connection_rejects os (host c)); simpl in Hcall;
      injection Hcall as <- <- <-; [auto |].
    split; [exact Hfresh | split; [now destruct c | simpl; lia]].
Qed.

Lemma prometheus_keeps_consistent (c c' : ClusterConfig) (w w' : World)
    (r : result Handle) :
  prometheus os c w = (r, c', w') ->
  handles_consistent os c w ->
  handles_consistent os c' w'
  /\ ClusterConfig_uncached c' = ClusterConfig_uncached c
  /\ next_oid w <= next_oid w'.
Proof.
  unfold prometheus, cached_property, prometheus_method. intros Hcall Hcons.
  pose proof Hcons as (Hs & Hp & Hd).
  destruct (cached_prometheus c) as [h0|] eqn:Hc.
  { injection Hcall as <- <- <-. auto. }
  destruct (match prometheus_headers_file c with
            | Some f => json_load os f | None => Ok (PDict []) end) as [hd|e].
  - destruct (prometheus_url c) as [url|] eqn:Hurl; simpl in Hcall;
      injection Hcall as <- <- <-; [| auto].
    split; [| split; [now destruct c | simpl; lia]].
    split; [| split].
    + intros h Hh. simpl in Hh. destruct (Hs h Hh) as [Hlt Hm]. simpl. split; [lia |].
      exact Hm.
    + intros h [= <-]. simpl. split; [lia | eauto].
    + intros h1 h2 Hh1 [= <-]. simpl in Hh1. destruct (Hs h1 Hh1) as [Hlt _].
      simpl. lia.
  - injection Hcall as <- <- <-. auto.
Qed.

(** X14. Whatever accessors are called on a cluster, in whatever order
    and with whatever outcome, its fields do not change, and the handles it
    holds were built from those fields by constructors that have run, and
    are two different objects. *)
Theorem lazy_handles_stay_consistent (calls : list accessor) (c : ClusterConfig)
    (w : World) :
  handles_consistent os c w ->
  handles_consistent os (fst (call_all os calls c w)) (snd (call_all os calls c w))
  /\ ClusterConfig_uncached (fst (call_all os calls c w)) = ClusterConfig_uncached c
  /\ next_oid w <= next_oid (snd (call_all os calls c w)).
Proof.
  revert c w. induction calls as [|[] calls IH]; intros c w Hc.
  - simpl. auto.
  - cbn [call_all]. destruct (ssh os c w) as [[r c'] w'] eqn:Hcall.
    destruct (ssh_keeps_consistent _ _ _ _ _ Hcall Hc) as (Hc' & Hf & Hle).
    destruct (IH c' w' Hc') as (H1 & H2 & H3).
    split; [exact H1 | split; [congruence | lia]].
  - cbn [call_all]. destruct (prometheus os c w) as [[r c'] w'] eqn:Hcall.
    destruct (prometheus_keeps_consistent _ _ _ _ _ Hcall Hc) as (Hc' & Hf & Hle).
    destruct (IH c' w' Hc') as (H1 & H2 & H3).
    split; [exact H1 | split; [congruence | lia]].
Qed.

(** ** Scoped current configuration and loader *)

Local Open Scope list_scope.

(** X1. When the body of a [using_config] scope completes or returns,
    the configuration current on entry is current again, whatever the body
    did to the current configuration and whether the scope was given a
    path or a configuration. *)
Theorem using_config_scope_restores {R} (cfg : config_source)
    (body : Config -> Globals -> outcome R * Globals) (g : Globals) :
  (forall e, fst (with_statement (using_config os cfg) body g) <> Raised e) ->
  config_var (snd (with_statement (using_config os cfg) body g)) = config_var g.
Proof.
  intros Hne.
  destruct (with_statement (using_config os cfg) body g) as [o g'] eqn:Hrun.
  exact (using_config_restores os cfg body g g' o Hrun Hne).
Qed.

(** X3. A [using_config] scope given a path that fails to load raises the
    error of the load, never runs its body and leaves the current
    configuration as it was. *)
Theorem using_config_parse_failure {R} (p : pathlike)
    (body : Config -> Globals -> outcome R * Globals) (g : Globals) (e : exn) :
  fst (parse_config os p g) = Raise e ->
  with_statement (using_config os (FromPath p)) body g
  = (Raised e, snd (parse_config os p g))
  /\ config_var (snd (parse_config os p g)) = config_var g.
Proof.
  intros Hfail. split.
  - unfold with_statement, using_config, cm_before.
    destruct (parse_config os p g) as [r g1]. simpl in *. now subst r.
  - apply parse_config_config_var.
Qed.

(** X4. Once a [using_config] scope is entered, [config()] returns the
    configuration of the scope without loading anything, and that
    configuration is the one given or the one parsed from the path given. *)
Theorem config_inside_scope (cfg : config_source) (g g1 : Globals) (c : Config)
    (token : Token) :
  cm_before (using_config os cfg) g = (Ok (c, token), g1) ->
  config os g1 = (Ok c, g1)
  /\ match cfg with
     | FromPath p => fst (parse_config os p g) = Ok c
     | FromConfig c0 => c = c0
     end.
Proof.
  intros Hb. destruct (using_config_before os _ _ _ _ _ Hb) as [_ Hv]. split.
  - unfold config. now rewrite Hv.
  - revert Hb. unfold using_config, cm_before. destruct cfg as [p|c0].
    + destruct (parse_config os p g) as [[c1|e] g2]; [| discriminate].
      simpl. now intros [= <- _ _].
    + simpl. now intros [= <- _ _].
Qed.

(** X5. A call of [config()] that returns leaves its result current, and
    every further call returns the same configuration and changes
    nothing. *)
Theorem config_is_cached (g g' : Globals) (c : Config) :
  config os g = (Ok c, g') ->
  config_var g' = Some c /\ config os g' = (Ok c, g').
Proof.
  unfold config. destruct (config_var g) as [cur|] eqn:Hcur.
  - intros [= <- <-]. now rewrite Hcur.
  - destruct (parse_config os _ g) as [[c1|e] g1]; [| discriminate].
    intros [= <- <-]. split; reflexivity.
Qed.

(** X6. [config()] fails only when no configuration is current, with the
    error of loading the file named by [SARC_CONFIG] (or the default
    file), and a failure leaves no configuration current. *)
Theorem config_failure_sets_nothing (g g' : Globals) (e : exn) :
  config os g = (Raise e, g') ->
  config_var g = None /\ config_var g' = None
  /\ fst (parse_config os (AsStr (default "config/sarc-dev.json" (env_SARC_CONFIG os))) g)
     = Raise e.
Proof.
  unfold config. destruct (config_var g) as [cur|] eqn:Hcur; [discriminate |].
  pose proof (parse_config_config_var os
    (AsStr (default "config/sarc-dev.json" (env_SARC_CONFIG os))) g) as Hv.
  destruct (parse_config os _ g) as [[c1|e1] g1]; [discriminate |].
  intros [= <- <-]. simpl in *. rewrite Hv. auto.
Qed.

(** X7. [parse_config] fails in four ways only: with the exception of
    [exists()] when that call raised; with the file-not-found
    [ConfigurationError] when [exists()] answered that nothing is there;
    with the malformed-JSON [ConfigurationError] when parsing raised
    [JSONDecodeError]; and otherwise with the exception of parsing itself,
    passed on unchanged and never a [JSONDecodeError]. *)
Theorem parse_config_error_kinds (p : pathlike) (g : Globals) (e : exn) :
  fst (parse_config os p g) = Raise e ->
  Path_exists os (Path_of os p) = Raise e
  \/ (Path_exists os (Path_of os p) = Ok false
      /\ e = ConfigurationError (missing_message (Path_of os p)))
  \/ (Path_exists os (Path_of os p) = Ok true
      /\ Config_parse_file os
           (set_config_folder (Some (path_str (Path_parent os (Path_of os p)))) g)
           (Path_of os p) = Raise JSONDecodeError
      /\ e = ConfigurationError (malformed_message (Path_of os p)))
  \/ (Path_exists os (Path_of os p) = Ok true
      /\ e <> JSONDecodeError
      /\ Config_parse_file os
           (set_config_folder (Some (path_str (Path_parent os (Path_of os p)))) g)
           (Path_of os p) = Raise e).
Proof.
  unfold parse_config.
  destruct (Path_exists os (Path_of os p)) as [[|]|e1]; simpl.
  - destruct (Config_parse_file os _ _) as [c|e0] eqn:Hp; [discriminate |].
    destruct e0; simpl; intros [= <-];
      try (right; right; left; now repeat split);
      right; right; right; repeat split; discriminate.
  - intros [= <-]. right. now left.
  - intros [= <-]. now left.
Qed.

Lemma with_using_config {R} (c : Config)
    (body : Config -> Globals -> outcome R * Globals) (g : Globals) :
  with_statement (using_config os (FromConfig c)) body g
  = match body c (set_config_var (Some c) g) with
    | (Raised e, g2) => (Raised e, g2)
    | (o, g2) => (o, set_config_var (config_var g) g2)
    end.
Proof.
  unfold with_statement, using_config, cm_before, cm_after, ContextVar_set,
    ContextVar_reset.
  now destruct (body c (set_config_var (Some c) g)) as [[| r | e] g2].
Qed.

(** X2. A [using_config] scope nested in another: once the inner scope
    is left without an exception the configuration of the outer scope is
    current, and once the outer scope is left the configuration from
    before it is. *)
Theorem using_config_nests (a b : Config)
    (inner : Config -> Globals -> outcome unit * Globals) (g : Globals) :
  (forall e, fst (inner b (set_config_var (Some b) (set_config_var (Some a) g)))
             <> Raised e) ->
  let outer_body := fun (_ : Config) (ga : Globals) =>
    let (o, gi) := with_statement (using_config os (FromConfig b)) inner ga in
    (Returned (config_var gi), gi) in
  fst (with_statement (using_config os (FromConfig a)) outer_body g)
  = Returned (Some a)
  /\ config_var (snd (with_statement (using_config os (FromConfig a)) outer_body g))
     = config_var g.
Proof.
  intros Hinner outer_body. rewrite (with_using_config a). subst outer_body. cbv beta.
  rewrite (with_using_config b).
  destruct (inner b _) as [[| r | e] g2] eqn:Hin; simpl.
  - split; reflexivity.
  - split; reflexivity.
  - now destruct (Hinner e).
Qed.

(** ** Lazy handles *)

(** X12. A call of a lazy accessor, successful or not, leaves [dict()] of
    the instance as it was: handles never show in the serialized form nor
    in equality. *)
Theorem handles_stay_out_of_dict :
  (forall c w r c1 w1,
     ssh os c w = (r, c1, w1) ->
     dict (M := ClusterConfig_model os) c1 = dict (M := ClusterConfig_model os) c)
  /\ (forall c w r c1 w1,
     prometheus os c w = (r, c1, w1) ->
     dict (M := ClusterConfig_model os) c1 = dict (M := ClusterConfig_model os) c)
  /\ (forall m w r m1 w1,
     database_instance os m w = (r, m1, w1) -> dict m1 = dict m).
Proof.
  split; [| split].
  - intros c w r c1 w1. unfold ssh, cached_property.
    destruct (cached_ssh c); [now intros [= <- <- <-] |].
    destruct (ssh_method os c w) as [[h|e] w']; intros [= <- <- <-];
      now rewrite !ClusterConfig_dict.
  - intros c w r c1 w1. unfold prometheus, cached_property.
    destruct (cached_prometheus c); [now intros [= <- <- <-] |].
    destruct (prometheus_method os c w) as [[h|e] w']; intros [= <- <- <-];
      now rewrite !ClusterConfig_dict.
  - intros m w r m1 w1. unfold database_instance, cached_property.
    destruct (cached_database_instance m); [now intros [= <- <- <-] |].
    destruct (database_instance_method os m w) as [[h|e] w']; intros [= <- <- <-];
      now rewrite !MongoConfig_dict.
Qed.

(** X13. A call of a lazy accessor that raises leaves the instance as it
    was, with nothing cached.  [ssh] and [prometheus] have then built no
    client; [database_instance] has built none when the connection string
    was refused, and only the client, never a database handle, when the
    database name was. *)
Theorem failed_handle_not_cached :
  (forall c w e c1 w1, ssh os c w = (Raise e, c1, w1) -> c1 = c /\ w1 = w)
  /\ (forall c w e c1 w1, prometheus os c w = (Raise e, c1, w1) -> c1 = c /\ w1 = w)
  /\ (forall m w e m1 w1,
        database_instance os m w = (Raise e, m1, w1) ->
        m1 = m
        /\ ((e = PyMongoError (connection_string m) /\ w1 = w)
            \/ (e = InvalidName (database_name m)
                /\ mongo_uri_valid os (connection_string m) = true
                /\ w1 = {| next_oid := S (next_oid w) |}))).
Proof.
  split; [| split].
  - intros c w e c1 w1. unfold ssh, cached_property, ssh_method.
    destruct (cached_ssh c); [discriminate |].
    destruct (sshconfig c) as [p|]; [destruct (ssh_config_readable os p) |];
      try destruct (Connection_rejects os (host c)); simpl;
      try discriminate; now intros [= <- <- <-].
  - intros c w e c1 w1. unfold prometheus, cached_property, prometheus_method.
    destruct (cached_prometheus c); [discriminate |].
    destruct (match prometheus_headers_file c with
              | Some f => json_load os f | None => Ok (PDict []) end) as [hd|e0].
    + destruct (prometheus_url c); simpl; [discriminate |]. now intros [= <- <- <-].
    + now intros [= <- <- <-].
  - intros m w e m1 w1. unfold database_instance, cached_property, database_instance_method.
    destruct (cached_database_instance m); [discriminate |].
    destruct (mongo_uri_valid os (connection_string m)); simpl.
    + destruct (database_name_valid os (database_name m)); simpl; [discriminate |].
      intros [= <- <- <-]. split; [reflexivity | right; auto].
    + intros [= <- <- <-]. split; [reflexivity | left; auto].
Qed.

(** X15. On an instance without cached remote-execution handle, [ssh]
    fails in two cases only: when the instance names an [sshconfig] that
    cannot be read, with the error of the read, and when [Connection]
    refuses the host string, with the exception of [Connection]; otherwise
    it constructs, caches and returns a connection to the instance's host
    with a pty and without input stream, under the instance's
    [sshconfig]. *)
Theorem ssh_first_call (c : ClusterConfig) (w : World) :
  cached_ssh c = None ->
  let fconfig := {| ssh_config := sshconfig c; run_pty := true; run_in_stream := false |} in
  let h := {| oid := next_oid w; made := Connection (host c) fconfig |} in
  let readable :=
    match sshconfig c with
    | Some p => ssh_config_readable os p
    | None => true
    end in
  (readable = false ->
   exists p, sshconfig c = Some p
             /\ ssh os c w = (Raise (OSError (path_str p)), c, w))
  /\ (readable = true ->
      forall e, Connection_rejects os (host c) = Some e ->
                ssh os c w = (Raise e, c, w))
  /\ (readable = true ->
      Connection_rejects os (host c) = None ->
      ssh os c w = (Ok h, set_cached_ssh h c, {| next_oid := S (next_oid w) |})).
Proof.
  intros Hnone. cbv zeta. unfold ssh, cached_property, ssh_method. rewrite Hnone.
  destruct (sshconfig c) as [p|]; [destruct (ssh_config_readable os p) |];
    (split; [| split]); try discriminate.
  - intros _ e ->. reflexivity.
  - intros _ ->. reflexivity.
  - intros _. now exists p.
  - intros _ e ->. reflexivity.
  - intros _ ->. reflexivity.
Qed.

(** X17. On an instance without cached database handle,
    [database_instance] fails in two cases only: when the client refuses
    the connection string, before anything was built, and when the client,
    once built, refuses the database name; otherwise it constructs the
    client, then constructs, caches and returns the database named by the
    instance on that connection. *)
Theorem database_instance_first_call (m : MongoConfig) (w : World) :
  cached_database_instance m = None ->
  let h := {| oid := S (next_oid w);
              made := Database (connection_string m) (database_name m) |} in
  if mongo_uri_valid os (connection_string m)
  then if database_name_valid os (database_name m)
       then database_instance os m w
            = (Ok h, set_cached_database_instance h m,
               {| next_oid := S (S (next_oid w)) |})
       else database_instance os m w
            = (Raise (InvalidName (database_name m)), m,
               {| next_oid := S (next_oid w) |})
  else database_instance os m w = (Raise (PyMongoError (connection_string m)), m, w).
Proof.
  intros Hnone. cbv zeta. unfold database_instance, cached_property, database_instance_method.
  rewrite Hnone. destruct (mongo_uri_valid os (connection_string m)); [| reflexivity].
  now destruct (database_name_valid os (database_name m)).
Qed.

(** X16. On an instance with a metrics URL and no cached metrics handle,
    [prometheus] fails exactly when the headers file named cannot be
    loaded; otherwise the handle is built for the URL with the headers
    loaded, or with no header when no file is named. *)
Theorem prometheus_with_url (c : ClusterConfig) (w : World) (url : string) :
  cached_prometheus c = None ->
  prometheus_url c = Some url ->
  match prometheus_headers_file c with
  | None =>
      let h := {| oid := next_oid w; made := PrometheusConnect url (PDict []) |} in
      prometheus os c w
      = (Ok h, set_cached_prometheus h c, {| next_oid := S (next_oid w) |})
  | Some f =>
      match json_load os f with
      | Ok headers =>
          let h := {| oid := next_oid w; made := PrometheusConnect url headers |} in
          prometheus os c w
          = (Ok h, set_cached_prometheus h c, {| next_oid := S (next_oid w) |})
      | Raise e => prometheus os c w = (Raise e, c, w)
      end
  end.
Proof.
  intros Hnone Hurl. unfold prometheus, cached_property, prometheus_method.
  rewrite Hnone, Hurl.
  destruct (prometheus_headers_file c) as [f|]; [destruct (json_load os f) |]; reflexivity.
Qed.

(** X18. A record made by [replace] holds no cached handle, whatever the
    original held: the handles of the new record are built anew. *)
Theorem replace_drops_handles :
  (forall (c r : ClusterConfig) kw,
     replace (M := ClusterConfig_model os) c kw = Ok r ->
     cached_ssh r = None /\ cached_prometheus r = None)
  /\ (forall (m r : MongoConfig) kw,
     replace m kw = Ok r -> cached_database_instance r = None).
Proof.
  split.
  - intros c r kw. unfold replace. cbn [init ClusterConfig_model].
    unfold ClusterConfig_init. intros Hinit.
    apply bind_Ok in Hinit
      as [[f1 [f2 [f3 [f4 [f5 [f6 [f7 [f8 [f9 [f10 [f11 u]]]]]]]]]]] [_ [= <-]]].
    split; reflexivity.
  - intros m r kw. unfold replace. cbn [init MongoConfig_model].
    unfold MongoConfig_init. intros Hinit.
    apply bind_Ok in Hinit as [[f1 [f2 u]] [_ [= <-]]]. reflexivity.
Qed.

(** ** Cross-field defaulting, with shared objects *)

Lemma complete_loop_at (items : list (string * nat)) (values : Values)
    (h : list ClusterConfig) (l : nat) :
  complete_loop items values h !! l
  = complete_all (keys_at l items) values <$> h !! l.
Proof.
  revert h. induction items as [|[k l0] rest IH]; intros h.
  - simpl. now destruct (h !! l).
  - cbn [complete_loop]. rewrite IH. unfold keys_at. cbn [List.filter snd].
    destruct (Nat.eqb_spec l0 l) as [-> | Hne].
    + rewrite list_lookup_alter_eq. cbn [map fst]. now destruct (h !! l).
    + now rewrite list_lookup_alter_ne.
Qed.

Lemma complete_cluster_writes (k : string) (values : Values) (c : ClusterConfig) :
  complete_cluster k values c
  = set_sshconfig (sshconfig (complete_cluster k values c))
      (set_name (name (complete_cluster k values c)) c)
  /\ (truthy_str (name c) = true -> name (complete_cluster k values c) = name c)
  /\ (truthy_path (sshconfig c) = true ->
      sshconfig (complete_cluster k values c) = sshconfig c)
  /\ (v_sshconfig values = None ->
      sshconfig (complete_cluster k values c) = sshconfig c).
Proof.
  unfold complete_cluster.
  destruct c as [h tz url hf n sb ac sc d1 d2 d3 cs cp]; simpl.
  destruct (truthy_str n), sc as [p|], (v_sshconfig values) as [root|];
    simpl; repeat split; intros; congruence.
Qed.

Lemma writes_compose (c c1 r : ClusterConfig) (n1 n : option string) (s1 s : option Path) :
  c1 = set_sshconfig s1 (set_name n1 c) ->
  r = set_sshconfig s (set_name n c1) ->
  r = set_sshconfig s (set_name n c).
Proof. intros -> ->. now destruct c. Qed.

Lemma complete_all_writes (ks : list string) (values : Values) (c : ClusterConfig) :
  complete_all ks values c
  = set_sshconfig (sshconfig (complete_all ks values c))
      (set_name (name (complete_all ks values c)) c)
  /\ (truthy_str (name c) = true -> name (complete_all ks values c) = name c)
  /\ (truthy_path (sshconfig c) = true ->
      sshconfig (complete_all ks values c) = sshconfig c)
  /\ (v_sshconfig values = None ->
      sshconfig (complete_all ks values c) = sshconfig c).
Proof.
  revert c. induction ks as [|k ks IH]; intros c.
  - simpl. repeat split. now destruct c.
  - cbn [complete_all fold_left]. fold (complete_all ks values (complete_cluster k values c)).
    destruct (IH (complete_cluster k values c)) as (Hw & Hn & Hs & Hv).
    destruct (complete_cluster_writes k values c) as (Hw1 & Hn1 & Hs1 & Hv1).
    repeat split.
    + exact (writes_compose _ _ _ _ _ _ _ Hw1 Hw).
    + intros Ht. rewrite Hn; [now apply Hn1 |]. now rewrite Hn1.
    + intros Ht. rewrite Hs; [now apply Hs1 |]. now rewrite Hs1.
    + intros Hnone. rewrite Hv by exact Hnone. now apply Hv1.
Qed.

(** X19. Whether or not objects are shared between keys, the validator
    writes nothing but [name] and [sshconfig], never changes a non-empty
    name nor an [sshconfig] that is present, writes no [sshconfig] when the
    root field is missing from [values], and leaves the objects the
    mapping does not refer to as they were. *)
Theorem complete_cluster_fields_frame (value : list (string * nat)) (values : Values)
    (h : list ClusterConfig) (l : nat) (c : ClusterConfig) :
  h !! l = Some c ->
  exists c',
    snd (_complete_cluster_fields value values h) !! l = Some c'
    /\ c' = set_sshconfig (sshconfig c') (set_name (name c') c)
    /\ (truthy_str (name c) = true -> name c' = name c)
    /\ (truthy_path (sshconfig c) = true -> sshconfig c' = sshconfig c)
    /\ (v_sshconfig values = None -> sshconfig c' = sshconfig c)
    /\ (l ∉ value.*2 -> c' = c).
Proof.
  intros Hl. unfold _complete_cluster_fields. cbn [snd].
  exists (complete_all (keys_at l value) values c).
  rewrite complete_loop_at, Hl.
  destruct (complete_all_writes (keys_at l value) values c) as (Hw & Hn & Hs & Hv).
  repeat split; try assumption.
  intros Hout. pose proof (complete_loop_other value values h l Hout) as Hsame.
  rewrite complete_loop_at, Hl in Hsame. simpl in Hsame. congruence.
Qed.


Ltac empty_cases :=
  repeat (simpl in *;
          match goal with
          | H : String.eqb ?a "" = _ |- context [String.eqb ?a ""] => rewrite H
          | |- context [String.eqb ?a ""] => destruct (String.eqb a "") eqn:?
          end).

Lemma complete_cluster_again (k : string) (values : Values) (c : ClusterConfig) :
  complete_cluster k values (complete_cluster k values c) = complete_cluster k values c.
Proof.
  unfold complete_cluster, truthy_str.
  destruct c as [h tz url hf n sb ac sc d1 d2 d3 cs cp].
  destruct n as [s|], sc as [p|], (v_sshconfig values) as [[root|]|];
    empty_cases; reflexivity.
Qed.

Lemma complete_cluster_stays (k k' : string) (values : Values) (c : ClusterConfig) :
  complete_cluster k values c = c ->
  complete_cluster k values (complete_cluster k' values c) = complete_cluster k' values c.
Proof.
  unfold complete_cluster, truthy_str.
  destruct c as [h tz url hf n sb ac sc d1 d2 d3 cs cp].
  destruct n as [s|], sc as [p|], (v_sshconfig values) as [[root|]|];
    empty_cases; intros Heq; try reflexivity; try discriminate Heq;
    injection Heq as Heq; subst; empty_cases; try reflexivity; try congruence;
    repeat match goal with
           | H : String.eqb _ "" = true |- _ => apply String.eqb_eq in H
           end; subst; simpl; reflexivity.
Qed.

Lemma complete_all_settles (ks : list string) (values : Values) (c : ClusterConfig)
    (k : string) :
  complete_cluster k values c = c \/ In k ks ->
  complete_cluster k values (complete_all ks values c) = complete_all ks values c.
Proof.
  revert c. induction ks as [|k0 ks IH]; intros c Hk.
  - destruct Hk as [Hk | []]. exact Hk.
  - cbn [complete_all fold_left]. fold (complete_all ks values (complete_cluster k0 values c)).
    apply IH. destruct Hk as [Hk | [-> | Hk]].
    + left. now apply complete_cluster_stays.
    + left. apply complete_cluster_again.
    + now right.
Qed.

Lemma complete_all_fixed (ks : list string) (values : Values) (c : ClusterConfig) :
  (forall k, In k ks -> complete_cluster k values c = c) ->
  complete_all ks values c = c.
Proof.
  induction ks as [|k0 ks IH]; intros Hall; [reflexivity |].
  cbn [complete_all fold_left]. rewrite (Hall k0) by now left.
  apply IH. intros k Hk. apply Hall. now right.
Qed.

(** X20. Running the validator again on the store it left changes
    nothing, whether or not objects are shared between keys. *)
Theorem complete_cluster_fields_idempotent (value : list (string * nat))
    (values : Values) (h : list ClusterConfig) :
  snd (_complete_cluster_fields value values
         (snd (_complete_cluster_fields value values h)))
  = snd (_complete_cluster_fields value values h).
Proof.
  unfold _complete_cluster_fields. cbn [snd]. apply list_eq. intros l.
  rewrite !complete_loop_at. destruct (h !! l) as [c|]; [| reflexivity].
  simpl. f_equal. apply complete_all_fixed.
  intros k Hk. apply complete_all_settles. now right.
Qed.

(** ** Construction of the records *)

Lemma both_fails_l {A B} (x : result A) (y : result B) :
  is_Ok x = false -> is_Ok (both x y) = false.
Proof. destruct x as [a|[]], y as [b|e]; simpl; congruence. Qed.

Lemma both_fails_r {A B} (x : result A) (y : result B) :
  is_Ok y = false -> is_Ok (both x y) = false.
Proof. destruct x as [a|[]], y as [b|e]; simpl; congruence. Qed.

Lemma bind_fails {A B} (r : result A) (f : A -> result B) :
  is_Ok r = false -> is_Ok (bind r f) = false.
Proof. destruct r; simpl; congruence. Qed.

Lemma forbid_extra_rejects (fields : list string) (kw : pydict) (k : string) :
  In k (dict_keys kw) -> existsb (String.eqb k) fields = false ->
  is_Ok (forbid_extra fields kw) = false.
Proof.
  intros Hin Hk. unfold forbid_extra.
  destruct (forallb _ (dict_keys kw)) eqn:Hall; [| reflexivity].
  rewrite forallb_forall in Hall. specialize (Hall k Hin). congruence.
Qed.

Ltac last_field := repeat (apply both_fails_r).

(** X24. For each of the five record classes, construction from keyword
    arguments that hold a key the class does not declare fails. *)
Theorem undeclared_field_rejected (g : Globals) (kw : pydict) (k : string) :
  In k (dict_keys kw) ->
  (existsb (String.eqb k) ClusterConfig_fields = false ->
   is_Ok (ClusterConfig_init os kw) = false)
  /\ (existsb (String.eqb k) MongoConfig_fields = false ->
      is_Ok (MongoConfig_init kw) = false)
  /\ (existsb (String.eqb k) LDAPConfig_fields = false ->
      is_Ok (LDAPConfig_init g kw) = false)
  /\ (existsb (String.eqb k) AccountMatchingConfig_fields = false ->
      is_Ok (AccountMatchingConfig_init os kw) = false)
  /\ (existsb (String.eqb k) Config_fields = false ->
      is_Ok (Config_init os g kw) = false).
Proof.
  intros Hin. repeat split; intros Hk; apply bind_fails; last_field;
    now apply (forbid_extra_rejects _ kw k).
Qed.

Lemma required_missing {A} (conv : pyval -> result A) (f : string) (kw : pydict) :
  dict_get f kw = None -> is_Ok (required conv f kw) = false.
Proof. intros Hf. unfold required. now rewrite Hf. Qed.

Ltac missing_field Hf :=
  apply bind_fails;
  repeat first
    [ apply both_fails_l; first [ now apply required_missing
                                | apply bind_fails; now apply required_missing ]
    | apply both_fails_r ].

(** X25. For each of the five record classes, construction from keyword
    arguments that lack a field declared without default fails. *)
Theorem required_field_missing (g : Globals) (kw : pydict) (f : string) :
  dict_get f kw = None ->
  (In f ClusterConfig_required -> is_Ok (ClusterConfig_init os kw) = false)
  /\ (In f MongoConfig_required -> is_Ok (MongoConfig_init kw) = false)
  /\ (In f LDAPConfig_required -> is_Ok (LDAPConfig_init g kw) = false)
  /\ (In f AccountMatchingConfig_required ->
      is_Ok (AccountMatchingConfig_init os kw) = false)
  /\ (In f Config_required -> is_Ok (Config_init os g kw) = false).
Proof.
  intros Hf. repeat split; intros Hin; simpl in Hin;
    repeat (destruct Hin as [<- | Hin]; [missing_field Hf |]); destruct Hin.
Qed.

Lemma filter_keys_subset (f : string * pyval -> bool) (d : pydict) (k : string) :
  k ∈ fst <$> List.filter f d -> k ∈ fst <$> d.
Proof.
  induction d as [|a d IH]; [easy |]. cbn [List.filter].
  destruct (f a); rewrite ?fmap_cons, ?elem_of_cons; intuition.
Qed.

Lemma NoDup_filter_keys (f : string * pyval -> bool) (d : pydict) :
  NoDup (fst <$> d) -> NoDup (fst <$> List.filter f d).
Proof.
  induction d as [|a d IH]; [easy |]. rewrite fmap_cons, NoDup_cons. intros [Ha Hd].
  cbn [List.filter]. destruct (f a); [| now apply IH].
  rewrite fmap_cons, NoDup_cons. split; [| now apply IH].
  intros Hin. apply Ha. now apply filter_keys_subset in Hin.
Qed.

Lemma NoDup_dict_items (d : pydict) : NoDup (fst <$> dict_items d).
Proof.
  induction d as [|[k v] d IH]; [constructor |].
  cbn [dict_items]. rewrite fmap_cons, NoDup_cons. split.
  - cbn [fst]. intros Hin. apply list_elem_of_fmap in Hin as [[k' v'] [Hk Hin]].
    simpl in Hk. subst k'. apply list_elem_of_In, filter_In in Hin as [_ Hf].
    simpl in Hf. now rewrite String.eqb_refl in Hf.
  - now apply NoDup_filter_keys.
Qed.

Lemma as_cluster_items_keys (d : pydict) (l : list (string * ClusterConfig)) :
  as_cluster_items os d = Ok l -> fst <$> l = fst <$> d.
Proof.
  intros Hl. apply as_cluster_items_Ok in Hl.
  induction Hl as [|[k v] [k' c] d l [Hk _] _ IH]; [reflexivity |].
  rewrite !fmap_cons. simpl in *. now rewrite Hk, IH.
Qed.

Lemma complete_cluster_is_settled (k : string) (values : Values) (root : option Path)
    (c : ClusterConfig) :
  v_sshconfig values = Some root ->
  cluster_settled root (k, complete_cluster k values c).
Proof.
  intros Hroot. destruct (complete_cluster_fields k values c) as (Hn & Hs & _).
  rewrite Hroot in Hs. unfold cluster_settled. cbn [fst snd]. rewrite Hn, Hs. split.
  - destruct (truthy_str (name c)) eqn:Ht; [now left | now right].
  - destruct (sshconfig c); simpl; [discriminate | easy].
Qed.


Lemma Config_init_clusters_settled (g : Globals) (kw : pydict) (cfg : Config) :
  Config_init os g kw = Ok cfg ->
  NoDup (fst <$> clusters cfg)
  /\ Forall (cluster_settled (root_sshconfig cfg)) (clusters cfg).
Proof.
  intros Hinit. apply Config_init_Ok in Hinit as (value & values & Hvalue & Hroot & ->).
  rewrite complete_clusters_map. split.
  - rewrite <- list_fmap_compose.
    change (fst ∘ _) with (@fst string ClusterConfig).
    unfold required in Hvalue. destruct (dict_get "clusters" kw) as [v|]; [| discriminate].
    unfold as_clusters in Hvalue. destruct (as_dict v) as [d|e]; [| discriminate].
    rewrite (as_cluster_items_keys _ _ Hvalue). apply NoDup_dict_items.
  - apply Forall_fmap. apply Forall_forall. intros [k c] _. cbn [fst snd compose].
    now apply complete_cluster_is_settled.
Qed.

(** X21. Every constructed [Config] has one cluster entry per key, and its
    entries are defaulted: each is named, or named after an empty key, and
    lacks an [sshconfig] only when the root does. *)
Theorem Config_init_settles_clusters (g : Globals) (kw : pydict) (cfg : Config) :
  Config_init os g kw = Ok cfg ->
  NoDup (fst <$> clusters cfg)
  /\ Forall (cluster_settled (root_sshconfig cfg)) (clusters cfg)
  /\ Forall (fun kc => truthy_str (name (snd kc)) = true \/ fst kc = "") (clusters cfg).
Proof.
  intros Hinit. destruct (Config_init_clusters_settled g kw cfg Hinit) as [Hnd Hall].
  split; [exact Hnd | split; [exact Hall |]].
  eapply Forall_impl; [exact Hall |]. intros [k c] [[Ht | Hn] _]; cbn [fst snd] in *.
  - now left.
  - destruct (String.eqb_spec k "") as [-> | Hne]; [now right | left].
    rewrite Hn. unfold truthy_str. now apply String.eqb_neq in Hne as ->.
Qed.

(** X22. A constructed [Config] whose root paths the path normalisation
    leaves alone and whose [ldap] paths the resolver leaves alone is
    rebuilt by [replace()] into an equal record. *)
Theorem Config_init_round_trips (g : Globals) (kw : pydict) (cfg : Config) :
  Config_init os g kw = Ok cfg ->
  _absolute_path os (root_sshconfig cfg) = root_sshconfig cfg ->
  _absolute_path os (cache cfg) = cache cfg ->
  LDAPConfig_resolved g (ldap cfg) ->
  exists r, replace (M := Config_model os g) cfg [] = Ok r
            /\ model_eq (M := Config_model os g) r cfg.
Proof.
  intros Hinit Hssh Hcache Hldap.
  destruct (Config_init_clusters_settled g kw cfg Hinit) as [Hnd Hall].
  exists (Config_uncached cfg). split.
  - apply Config_replace_nil.
    split; [exact Hssh | split; [exact Hcache | split; [exact Hldap | now split]]].
  - apply Config_dict_uncached.
Qed.

Lemma Config_init_parts (g : Globals) (kw : pydict) (cfg : Config) :
  Config_init os g kw = Ok cfg ->
  required (as_model MongoConfig_init) "mongo" kw = Ok (mongo cfg)
  /\ required (as_model (LDAPConfig_init g)) "ldap" kw = Ok (ldap cfg)
  /\ required (as_model (AccountMatchingConfig_init os)) "account_matching" kw
     = Ok (account_matching cfg)
  /\ (exists v, with_default (as_optional (as_path os)) None "sshconfig" kw = Ok v
                /\ root_sshconfig cfg = _absolute_path os v)
  /\ (exists v, with_default (as_optional (as_path os)) None "cache" kw = Ok v
                /\ cache cfg = _absolute_path os v).
Proof.
  unfold Config_init. intros Hinit.
  apply bind_Ok in Hinit as [[f1 [f2 [f3 [f4 [f5 [f6 u]]]]]] [Hb [= <-]]].
  apply both_Ok in Hb as [H1 Hb]. apply both_Ok in Hb as [H2 Hb].
  apply both_Ok in Hb as [H3 Hb]. apply both_Ok in Hb as [H4 Hb].
  apply both_Ok in Hb as [H5 _]. cbn [fst snd] in *.
  apply bind_Ok in H4 as [v4 [H4 [= <-]]]. apply bind_Ok in H5 as [v5 [H5 [= <-]]].
  repeat split; try assumption; eauto.
Qed.

Lemma LDAPConfig_init_paths (g : Globals) (kw : pydict) (l : LDAPConfig) :
  LDAPConfig_init g kw = Ok l ->
  (exists v, with_default (as_optional as_str) None "group_to_prof_json_path" kw = Ok v
             /\ group_to_prof_json_path l = relative_filepath g v)
  /\ (exists v, with_default (as_optional as_str) None "exceptions_json_path" kw = Ok v
                /\ exceptions_json_path l = relative_filepath g v).
Proof.
  unfold LDAPConfig_init. intros Hinit.
  apply bind_Ok in Hinit as [[f1 [f2 [f3 [f4 [f5 [f6 u]]]]]] [Hb [= <-]]].
  apply both_Ok in Hb as [_ Hb]. apply both_Ok in Hb as [_ Hb].
  apply both_Ok in Hb as [_ Hb]. apply both_Ok in Hb as [_ Hb].
  apply both_Ok in Hb as [H5 Hb]. apply both_Ok in Hb as [H6 _]. cbn [fst snd] in *.
  apply bind_Ok in H5 as [v5 [H5 [= <-]]]. apply bind_Ok in H6 as [v6 [H6 [= <-]]].
  split; eauto.
Qed.

(** X8. In a configuration that [parse_config] returned, the two
    optional paths of [ldap] given as strings are those strings with the
    sentinel replaced by the directory of the file just loaded, whatever
    directory was current before the call. *)
Theorem parse_config_resolves_ldap_paths (p : pathlike) (g : Globals) (cfg : Config)
    (kw ld : pydict) :
  fst (parse_config os p g) = Ok cfg ->
  load_file os (Path_of os p) = Ok (PDict kw) ->
  dict_get "ldap" kw = Some (PDict ld) ->
  let folder := path_str (Path_parent os (Path_of os p)) in
  (forall s, dict_get "group_to_prof_json_path" ld = Some (PStr s) ->
             group_to_prof_json_path (ldap cfg) = Some (str_replace s "$SELF" folder))
  /\ (forall s, dict_get "exceptions_json_path" ld = Some (PStr s) ->
                exceptions_json_path (ldap cfg) = Some (str_replace s "$SELF" folder)).
Proof.
  intros Hparse Hload Hldap folder. revert Hparse. unfold parse_config.
  destruct (Path_exists os (Path_of os p)) as [[|]|e0]; try discriminate.
  unfold Config_parse_file. rewrite Hload. cbn [bind].
  set (g' := set_config_folder _ g).
  destruct (Config_init os g' kw) as [c|e] eqn:Hinit; [| now destruct e].
  cbn [fst]. intros [= ->].
  apply Config_init_parts in Hinit as (_ & Hl & _).
  unfold required in Hl. rewrite Hldap in Hl. cbn [as_model as_dict] in Hl.
  apply LDAPConfig_init_paths in Hl as [(v5 & H5 & ->) (v6 & H6 & ->)].
  unfold with_default in H5, H6. split; intros s Hs.
  - rewrite Hs in H5. injection H5 as <-. apply relative_filepath_replace.
  - rewrite Hs in H6. injection H6 as <-. apply relative_filepath_replace.
Qed.

(** X23. In a constructed [Config], the root [sshconfig] and [cache] are
    the absolute, user-expanded form of the path given, built from the
    string when a string is given, and are absent when the field is
    missing or null. *)
Theorem Config_init_absolute_root (g : Globals) (kw : pydict) (cfg : Config) :
  Config_init os g kw = Ok cfg ->
  (forall s, dict_get "sshconfig" kw = Some (PStr s) ->
             root_sshconfig cfg = Some (Path_absolute os (Path_new os s)))
  /\ (forall q, dict_get "sshconfig" kw = Some (PPath q) ->
                root_sshconfig cfg = Some (Path_absolute os q))
  /\ (dict_get "sshconfig" kw = None \/ dict_get "sshconfig" kw = Some PNone ->
      root_sshconfig cfg = None)
  /\ (forall s, dict_get "cache" kw = Some (PStr s) ->
                cache cfg = Some (Path_absolute os (Path_new os s)))
  /\ (dict_get "cache" kw = None \/ dict_get "cache" kw = Some PNone ->
      cache cfg = None).
Proof.
  intros Hinit. apply Config_init_parts in Hinit as (_ & _ & _ & (v & Hv & ->) & (v' & Hv' & ->)).
  unfold with_default in Hv, Hv'. repeat split.
  - intros s Hs. rewrite Hs in Hv. now injection Hv as <-.
  - intros q Hq. rewrite Hq in Hv. now injection Hv as <-.
  - intros [Hs | Hs]; rewrite Hs in Hv; now injection Hv as <-.
  - intros s Hs. rewrite Hs in Hv'. now injection Hv' as <-.
  - intros [Hs | Hs]; rewrite Hs in Hv'; now injection Hv' as <-.
Qed.

(** X26. A [ClusterConfig] given its timezone as the name of a known zone
    is constructed as if it had been given the zone itself, and holds that
    zone; given the name of an unknown zone, construction fails. *)
Theorem ClusterConfig_init_timezone (kw : pydict) (s : string) :
  dict_get "timezone" kw = Some (PStr s) ->
  (zone_known os s = true ->
   ClusterConfig_init os (("timezone", PZone (mkZone s)) :: kw) = ClusterConfig_init os kw
   /\ forall c, ClusterConfig_init os kw = Ok c -> timezone c = mkZone s)
  /\ (zone_known os s = false -> is_Ok (ClusterConfig_init os kw) = false).
Proof.
  intros Htz. split.
  - intros Hknown. split.
    + unfold ClusterConfig_init, required, with_default, forbid_extra.
      cbn [dict_get dict_keys map fst forallb existsb ClusterConfig_fields].
      simpl (String.eqb _ _). cbv beta iota. rewrite Htz.
      cbn [as_str_or_zone bind _timezone orb andb]. now rewrite Hknown.
    + intros c. unfold ClusterConfig_init. intros Hinit.
      apply bind_Ok in Hinit
        as [[f1 [f2 [f3 [f4 [f5 [f6 [f7 [f8 [f9 [f10 [f11 u]]]]]]]]]]] [Hb [= <-]]].
      apply both_Ok in Hb as [_ Hb]. apply both_Ok in Hb as [H2 _]. cbn [fst snd] in H2.
      unfold required in H2. rewrite Htz in H2. cbn [as_str_or_zone bind _timezone] in H2.
      rewrite Hknown in H2. now injection H2 as <-.
  - intros Hunknown. unfold ClusterConfig_init.
    apply bind_fails, both_fails_r, both_fails_l.
    unfold required. rewrite Htz. cbn [as_str_or_zone bind _timezone].
    rewrite Hunknown. now destruct (zone_key_malformed os s).
Qed.

End Further.

(** * The further properties on the samples *)

Lemma using_config_scope_restores_witness :
  (forall e,
     fst (with_statement (using_config Sample.os (FromConfig Sample.cfg))
            Almanac.clearing_body Sample.g0) <> Raised e)
  /\ config_var
       (snd (with_statement (using_config Sample.os (FromConfig Sample.cfg))
               Almanac.clearing_body Sample.g0))
     = config_var Sample.g0.
Proof.
  assert (Hne : forall e,
    fst (with_statement (using_config Sample.os (FromConfig Sample.cfg))
           Almanac.clearing_body Sample.g0) <> Raised e)
    by (intros e; discriminate).
  split; [exact Hne |].
  exact (using_config_scope_restores Sample.os (FromConfig Sample.cfg)
           Almanac.clearing_body Sample.g0 Hne).
Defined.

Lemma using_config_nests_witness :
  (forall e,
     fst (Almanac.quiet_body (Config_uncached Sample.cfg)
            (set_config_var (Some (Config_uncached Sample.cfg))
               (set_config_var (Some Sample.cfg) Sample.g0))) <> Raised e)
  /\ fst (with_statement (using_config Sample.os (FromConfig Sample.cfg))
            (fun (_ : Config) (ga : Globals) =>
               let (o, gi) :=
                 with_statement
                   (using_config Sample.os (FromConfig (Config_uncached Sample.cfg)))
                   Almanac.quiet_body ga in
               (Returned (config_var gi), gi)) Sample.g0)
     = Returned (Some Sample.cfg).
Proof.
  assert (Hne : forall e,
    fst (Almanac.quiet_body (Config_uncached Sample.cfg)
           (set_config_var (Some (Config_uncached Sample.cfg))
              (set_config_var (Some Sample.cfg) Sample.g0))) <> Raised e)
    by (intros e; discriminate).
  split; [exact Hne |].
  exact (proj1 (using_config_nests Sample.os Sample.cfg (Config_uncached Sample.cfg)
                  Almanac.quiet_body Sample.g0 Hne)).
Defined.

Lemma using_config_parse_failure_witness :
  fst (parse_config Sample.os (AsStr "/does/not/exist.json") Sample.g1)
  = Raise (ConfigurationError (missing_message (mkPath "/does/not/exist.json")))
  /\ with_statement (using_config Sample.os (FromPath (AsStr "/does/not/exist.json")))
       Almanac.clearing_body Sample.g1
     = (Raised (ConfigurationError (missing_message (mkPath "/does/not/exist.json"))),
        snd (parse_config Sample.os (AsStr "/does/not/exist.json") Sample.g1))
  /\ config_var (snd (parse_config Sample.os (AsStr "/does/not/exist.json") Sample.g1))
     = Some Sample.cfg.
Proof.
  assert (Hfail : fst (parse_config Sample.os (AsStr "/does/not/exist.json") Sample.g1)
    = Raise (ConfigurationError (missing_message (mkPath "/does/not/exist.json"))))
    by reflexivity.
  split; [exact Hfail |].
  exact (using_config_parse_failure Sample.os (AsStr "/does/not/exist.json")
           Almanac.clearing_body Sample.g1 _ Hfail).
Defined.

Lemma config_inside_scope_witness :
  cm_before (using_config Sample.os (FromPath (AsStr "/etc/sarc/config.json"))) Sample.g0
  = (Ok (Sample.cfg, None),
     {| config_var := Some Sample.cfg; _config_folder := Some "/etc/sarc" |})
  /\ config Sample.os
       {| config_var := Some Sample.cfg; _config_folder := Some "/etc/sarc" |}
     = (Ok Sample.cfg,
        {| config_var := Some Sample.cfg; _config_folder := Some "/etc/sarc" |}).
Proof.
  assert (Hb : cm_before
      (using_config Sample.os (FromPath (AsStr "/etc/sarc/config.json"))) Sample.g0
    = (Ok (Sample.cfg, None),
       {| config_var := Some Sample.cfg; _config_folder := Some "/etc/sarc" |}))
    by (vm_compute; reflexivity).
  split; [exact Hb |].
  exact (proj1 (config_inside_scope Sample.os _ _ _ _ _ Hb)).
Defined.

Lemma config_is_cached_witness :
  config Almanac.os Sample.g0
  = (Ok Sample.cfg,
     {| config_var := Some Sample.cfg; _config_folder := Some "/etc/sarc" |})
  /\ config Almanac.os
       {| config_var := Some Sample.cfg; _config_folder := Some "/etc/sarc" |}
     = (Ok Sample.cfg,
        {| config_var := Some Sample.cfg; _config_folder := Some "/etc/sarc" |}).
Proof.
  assert (Hc : config Almanac.os Sample.g0
    = (Ok Sample.cfg,
       {| config_var := Some Sample.cfg; _config_folder := Some "/etc/sarc" |}))
    by (vm_compute; reflexivity).
  split; [exact Hc |].
  exact (proj2 (config_is_cached Almanac.os _ _ _ Hc)).
Defined.

Lemma config_failure_sets_nothing_witness :
  config Sample.os Sample.g0
  = (Raise (ConfigurationError (missing_message (mkPath "config/sarc-dev.json"))),
     {| config_var := None; _config_folder := Some "config" |})
  /\ config_var Sample.g0 = None.
Proof.
  assert (Hc : config Sample.os Sample.g0
    = (Raise (ConfigurationError (missing_message (mkPath "config/sarc-dev.json"))),
       {| config_var := None; _config_folder := Some "config" |}))
    by reflexivity.
  split; [exact Hc |].
  exact (proj1 (config_failure_sets_nothing Sample.os _ _ _ Hc)).
Defined.

Lemma parse_config_error_kinds_witness :
  fst (parse_config Sample.os (AsStr "/etc/sarc/broken.json") Sample.g0)
  = Raise (ConfigurationError (malformed_message (mkPath "/etc/sarc/broken.json")))
  /\ Path_exists Sample.os (Path_of Sample.os (AsStr "/etc/sarc/broken.json")) = Ok true.
Proof.
  assert (Hfail : fst (parse_config Sample.os (AsStr "/etc/sarc/broken.json") Sample.g0)
    = Raise (ConfigurationError (malformed_message (mkPath "/etc/sarc/broken.json"))))
    by reflexivity.
  split; [exact Hfail |].
  destruct (parse_config_error_kinds Sample.os _ _ _ Hfail)
    as [Hex | [[Hex _] | [[Hex _] | [Hex _]]]];
    [discriminate Hex | discriminate Hex | exact Hex | exact Hex].
Defined.

Lemma parse_config_resolves_ldap_paths_witness :
  exists cfg,
    fst (parse_config Sample.os (AsStr "/etc/sarc/config.json") Sample.g0) = Ok cfg
    /\ group_to_prof_json_path (ldap cfg)
       = Some (str_replace "$SELF/group_to_prof.json" "$SELF" "/etc/sarc").
Proof.
  exists Sample.cfg.
  assert (Hp : fst (parse_config Sample.os (AsStr "/etc/sarc/config.json") Sample.g0)
               = Ok Sample.cfg) by (vm_compute; reflexivity).
  split; [exact Hp |].
  refine (proj1 (parse_config_resolves_ldap_paths Sample.os
                   (AsStr "/etc/sarc/config.json") Sample.g0 Sample.cfg _ _ Hp
                   eq_refl eq_refl) "$SELF/group_to_prof.json" eq_refl).
Defined.

Lemma relative_filepath_leading_sentinel_witness :
  contains "$SELF" "/exceptions.json" = false
  /\ relative_filepath Sample.g1 (Some ("$SELF" ++ "/exceptions.json"))
     = Some ("/etc/sarc" ++ "/exceptions.json").
Proof.
  split; [reflexivity |].
  exact (relative_filepath_leading_sentinel Sample.g1 "/exceptions.json" eq_refl).
Defined.

Lemma validate_date_normalises_witness :
  validate_date Almanac.strptime (PStr "2023-03-04T05:06:07") = Some (PDate 2023 3 4)
  /\ validate_date Almanac.strptime (PDate 2023 3 4) = Some (PDate 2023 3 4).
Proof.
  assert (Hv : validate_date Almanac.strptime (PStr "2023-03-04T05:06:07")
               = Some (PDate 2023 3 4)) by (vm_compute; reflexivity).
  split; [exact Hv |].
  exact (proj1 (validate_date_normalises Almanac.strptime _ _ Hv)).
Defined.

Lemma handles_stay_out_of_dict_witness :
  ssh Sample.os Sample.alpha Sample.w0
  = (Ok Almanac.ssh_handle, Almanac.connected, {| next_oid := 1 |})
  /\ dict (M := ClusterConfig_model Sample.os) Almanac.connected
     = dict (M := ClusterConfig_model Sample.os) Sample.alpha.
Proof.
  assert (Hcall : ssh Sample.os Sample.alpha Sample.w0
    = (Ok Almanac.ssh_handle, Almanac.connected, {| next_oid := 1 |})) by reflexivity.
  split; [exact Hcall |].
  exact (proj1 (handles_stay_out_of_dict Sample.os) _ _ _ _ _ Hcall).
Defined.

Lemma failed_handle_not_cached_witness :
  database_instance Sample.os Almanac.nameless Sample.w0
  = (Raise (InvalidName ""), Almanac.nameless, {| next_oid := 1 |})
  /\ ssh Sample.os Almanac.hostless Sample.w0
     = (Raise TypeError, Almanac.hostless, Sample.w0)
  /\ prometheus Sample.os Sample.headless Sample.w0
     = (Raise (OSError "/etc/sarc/missing.json"), Sample.headless, Sample.w0)
  /\ (Almanac.nameless = Almanac.nameless
      /\ ((InvalidName "" = PyMongoError (connection_string Almanac.nameless)
           /\ {| next_oid := 1 |} = Sample.w0)
          \/ (InvalidName "" = InvalidName (database_name Almanac.nameless)
              /\ mongo_uri_valid Sample.os (connection_string Almanac.nameless) = true
              /\ {| next_oid := 1 |} = {| next_oid := S (next_oid Sample.w0) |})))
  /\ (Almanac.hostless = Almanac.hostless /\ Sample.w0 = Sample.w0)
  /\ (Sample.headless = Sample.headless /\ Sample.w0 = Sample.w0).
Proof.
  assert (Hd : database_instance Sample.os Almanac.nameless Sample.w0
               = (Raise (InvalidName ""), Almanac.nameless, {| next_oid := 1 |}))
    by reflexivity.
  assert (Hs : ssh Sample.os Almanac.hostless Sample.w0
               = (Raise TypeError, Almanac.hostless, Sample.w0)) by reflexivity.
  assert (Hp : prometheus Sample.os Sample.headless Sample.w0
               = (Raise (OSError "/etc/sarc/missing.json"), Sample.headless, Sample.w0))
    by reflexivity.
  destruct (failed_handle_not_cached Sample.os) as (Hssh & Hprom & Hdb).
  split; [exact Hd | split; [exact Hs | split; [exact Hp | split; [| split]]]].
  - exact (Hdb _ _ _ _ _ Hd).
  - exact (Hssh _ _ _ _ _ Hs).
  - exact (Hprom _ _ _ _ _ Hp).
Defined.

Lemma lazy_handles_stay_consistent_witness :
  handles_consistent Sample.os Sample.alpha Sample.w0
  /\ handles_consistent Sample.os
       (fst (call_all Sample.os [CallPrometheus; CallSsh; CallSsh]
               Sample.alpha Sample.w0))
       (snd (call_all Sample.os [CallPrometheus; CallSsh; CallSsh]
               Sample.alpha Sample.w0))
  /\ cached_ssh (fst (call_all Sample.os [CallPrometheus; CallSsh; CallSsh]
                        Sample.alpha Sample.w0))
     = Some Almanac.ssh_handle.
Proof.
  assert (Hc : handles_consistent Sample.os Sample.alpha Sample.w0).
  { split; [| split]; intros h; discriminate. }
  split; [exact Hc | split].
  - exact (proj1 (lazy_handles_stay_consistent Sample.os
                    [CallPrometheus; CallSsh; CallSsh] Sample.alpha Sample.w0 Hc)).
  - reflexivity.
Defined.

Lemma ssh_first_call_witness :
  (exists p, sshconfig Almanac.astray = Some p
             /\ ssh Sample.os Almanac.astray Sample.w0
                = (Raise (OSError (path_str p)), Almanac.astray, Sample.w0))
  /\ ssh Sample.os Almanac.hostless Sample.w0
     = (Raise TypeError, Almanac.hostless, Sample.w0)
  /\ ssh Sample.os Sample.alpha Sample.w0
     = (Ok Almanac.ssh_handle, set_cached_ssh Almanac.ssh_handle Sample.alpha,
        {| next_oid := 1 |}).
Proof.
  split; [| split].
  - exact (proj1 (ssh_first_call Sample.os Almanac.astray Sample.w0 eq_refl) eq_refl).
  - exact (proj1 (proj2 (ssh_first_call Sample.os Almanac.hostless Sample.w0 eq_refl))
             eq_refl TypeError eq_refl).
  - exact (proj2 (proj2 (ssh_first_call Sample.os Sample.alpha Sample.w0 eq_refl))
             eq_refl eq_refl).
Defined.

Lemma prometheus_with_url_witness :
  cached_prometheus
    (set_prometheus_url (Some "http://prom:9090") Sample.headless) = None
  /\ prometheus_url (set_prometheus_url (Some "http://prom:9090") Sample.headless)
     = Some "http://prom:9090"
  /\ prometheus Sample.os
       (set_prometheus_url (Some "http://prom:9090") Sample.headless) Sample.w0
     = (Raise (OSError "/etc/sarc/missing.json"),
        set_prometheus_url (Some "http://prom:9090") Sample.headless, Sample.w0).
Proof.
  split; [reflexivity | split; [reflexivity |]].
  exact (prometheus_with_url Sample.os
           (set_prometheus_url (Some "http://prom:9090") Sample.headless)
           Sample.w0 "http://prom:9090" eq_refl eq_refl).
Defined.

Lemma database_instance_first_call_witness :
  cached_database_instance Sample.mongo0 = None
  /\ database_instance Sample.os Sample.mongo0 Sample.w0
     = (Ok {| oid := 1; made := Database "mongodb://localhost:27017" "sarc" |},
        set_cached_database_instance
          {| oid := 1; made := Database "mongodb://localhost:27017" "sarc" |}
          Sample.mongo0,
        {| next_oid := 2 |})
  /\ database_instance Sample.os Almanac.nameless Sample.w0
     = (Raise (InvalidName ""), Almanac.nameless, {| next_oid := 1 |}).
Proof.
  split; [reflexivity | split].
  - exact (database_instance_first_call Sample.os Sample.mongo0 Sample.w0 eq_refl).
  - exact (database_instance_first_call Sample.os Almanac.nameless Sample.w0 eq_refl).
Defined.

Lemma replace_drops_handles_witness :
  cached_ssh Almanac.connected = Some Almanac.ssh_handle
  /\ replace (M := ClusterConfig_model Sample.os) Almanac.connected
       [("name", PStr "beta")]
     = Ok (set_name (Some "beta") Sample.alpha)
  /\ cached_ssh (set_name (Some "beta") Sample.alpha) = None.
Proof.
  assert (Hr : replace (M := ClusterConfig_model Sample.os) Almanac.connected
                 [("name", PStr "beta")]
               = Ok (set_name (Some "beta") Sample.alpha)) by (vm_compute; reflexivity).
  split; [reflexivity | split; [exact Hr |]].
  exact (proj1 (proj1 (replace_drops_handles Sample.os) _ _ _ Hr)).
Defined.

Lemma complete_cluster_fields_frame_witness :
  [Sample.blank; Sample.headless] !! 1 = Some Sample.headless
  /\ exists c',
       snd (_complete_cluster_fields [("alpha", 0); ("beta", 0)]
              {| v_mongo := None; v_ldap := None; v_account_matching := None;
                 v_sshconfig := None; v_cache := None |}
              [Sample.blank; Sample.headless]) !! 1 = Some c'
       /\ c' = Sample.headless.
Proof.
  split; [reflexivity |].
  destruct (complete_cluster_fields_frame [("alpha", 0); ("beta", 0)]
              {| v_mongo := None; v_ldap := None; v_account_matching := None;
                 v_sshconfig := None; v_cache := None |}
              [Sample.blank; Sample.headless] 1 Sample.headless eq_refl)
    as (c' & Hl & _ & _ & _ & _ & Hout).
  exists c'. split; [exact Hl |]. apply Hout.
  intros Hin. apply list_elem_of_In in Hin. simpl in Hin.
  destruct Hin as [H | [H | []]]; discriminate H.
Defined.

Lemma Config_init_settles_clusters_witness :
  Config_init Sample.os Sample.g1 Sample.blank_kw
  = Ok {| mongo := Sample.mongo0; ldap := Sample.ldap0;
          account_matching := Sample.matching0;
          root_sshconfig := None; cache := None;
          clusters := [("alpha", set_name (Some "alpha") Sample.alpha)] |}
  /\ NoDup (fst <$> [("alpha", set_name (Some "alpha") Sample.alpha)])
  /\ Forall (cluster_settled None) [("alpha", set_name (Some "alpha") Sample.alpha)].
Proof.
  assert (Hinit : Config_init Sample.os Sample.g1 Sample.blank_kw
    = Ok {| mongo := Sample.mongo0; ldap := Sample.ldap0;
            account_matching := Sample.matching0;
            root_sshconfig := None; cache := None;
            clusters := [("alpha", set_name (Some "alpha") Sample.alpha)] |})
    by (vm_compute; reflexivity).
  split; [exact Hinit |].
  destruct (Config_init_settles_clusters Sample.os Sample.g1 Sample.blank_kw _ Hinit)
    as (Hnd & Hall & _).
  split; [exact Hnd | exact Hall].
Defined.

Lemma Config_init_round_trips_witness :
  Config_init Sample.os Sample.g1 Sample.blank_kw
  = Ok {| mongo := Sample.mongo0; ldap := Sample.ldap0;
          account_matching := Sample.matching0;
          root_sshconfig := None; cache := None;
          clusters := [("alpha", set_name (Some "alpha") Sample.alpha)] |}
  /\ LDAPConfig_resolved Sample.g1 Sample.ldap0
  /\ exists r,
       replace (M := Config_model Sample.os Sample.g1)
         {| mongo := Sample.mongo0; ldap := Sample.ldap0;
            account_matching := Sample.matching0;
            root_sshconfig := None; cache := None;
            clusters := [("alpha", set_name (Some "alpha") Sample.alpha)] |} [] = Ok r
       /\ model_eq (M := Config_model Sample.os Sample.g1) r
            {| mongo := Sample.mongo0; ldap := Sample.ldap0;
               account_matching := Sample.matching0;
               root_sshconfig := None; cache := None;
               clusters := [("alpha", set_name (Some "alpha") Sample.alpha)] |}.
Proof.
  assert (Hinit : Config_init Sample.os Sample.g1 Sample.blank_kw
    = Ok {| mongo := Sample.mongo0; ldap := Sample.ldap0;
            account_matching := Sample.matching0;
            root_sshconfig := None; cache := None;
            clusters := [("alpha", set_name (Some "alpha") Sample.alpha)] |})
    by (vm_compute; reflexivity).
  assert (Hldap : LDAPConfig_resolved Sample.g1 Sample.ldap0) by (split; reflexivity).
  split; [exact Hinit | split; [exact Hldap |]].
  exact (Config_init_round_trips Sample.os Sample.g1 Sample.blank_kw _ Hinit
           eq_refl eq_refl Hldap).
Defined.

Lemma Config_init_absolute_root_witness :
  exists cfg,
    Config_init Sample.os Sample.g1 Almanac.rooted_kw = Ok cfg
    /\ dict_get "sshconfig" Almanac.rooted_kw = Some (PStr "ssh/config")
    /\ root_sshconfig cfg = Some (mkPath "/srv/sarc/ssh/config")
    /\ cache cfg = None.
Proof.
  assert (Hinit : exists cfg, Config_init Sample.os Sample.g1 Almanac.rooted_kw = Ok cfg)
    by (eexists; vm_compute; reflexivity).
  destruct Hinit as [cfg Hinit]. exists cfg.
  destruct (Config_init_absolute_root Sample.os Sample.g1 Almanac.rooted_kw cfg Hinit)
    as (Hstr & _ & _ & _ & Hcache).
  split; [exact Hinit | split; [reflexivity | split]].
  - exact (Hstr "ssh/config" eq_refl).
  - apply Hcache. left. reflexivity.
Defined.

Lemma undeclared_field_rejected_witness :
  In "port" (dict_keys [("host", PStr "login.cluster"); ("port", PStr "22")])
  /\ existsb (String.eqb "port") ClusterConfig_fields = false
  /\ is_Ok (ClusterConfig_init Sample.os
              [("host", PStr "login.cluster"); ("port", PStr "22")]) = false.
Proof.
  assert (Hin : In "port" (dict_keys [("host", PStr "login.cluster"); ("port", PStr "22")]))
    by (right; left; reflexivity).
  split; [exact Hin | split; [reflexivity |]].
  exact (proj1 (undeclared_field_rejected Sample.os Sample.g0 _ "port" Hin) eq_refl).
Defined.

Lemma required_field_missing_witness :
  dict_get "timezone" [("host", PStr "login.cluster")] = None
  /\ In "timezone" ClusterConfig_required
  /\ is_Ok (ClusterConfig_init Sample.os [("host", PStr "login.cluster")]) = false.
Proof.
  assert (Hin : In "timezone" ClusterConfig_required) by (right; left; reflexivity).
  split; [reflexivity | split; [exact Hin |]].
  exact (proj1 (required_field_missing Sample.os Sample.g0
                  [("host", PStr "login.cluster")] "timezone" eq_refl) Hin).
Defined.

Lemma ClusterConfig_init_timezone_witness :
  dict_get "timezone"
    [("host", PStr "login.cluster"); ("timezone", PStr "America/Montreal")]
  = Some (PStr "America/Montreal")
  /\ zone_known Sample.os "America/Montreal" = true
  /\ ClusterConfig_init Sample.os
       [("timezone", PZone (mkZone "America/Montreal"));
        ("host", PStr "login.cluster"); ("timezone", PStr "America/Montreal")]
     = ClusterConfig_init Sample.os
         [("host", PStr "login.cluster"); ("timezone", PStr "America/Montreal")].
Proof.
  split; [reflexivity | split; [reflexivity |]].
  exact (proj1 (proj1 (ClusterConfig_init_timezone Sample.os
                         [("host", PStr "login.cluster");
                          ("timezone", PStr "America/Montreal")]
                         "America/Montreal" eq_refl) eq_refl)).
Defined.
